(** * Shoe Haven backend: cart, checkout and reporting handlers

    A shallow embedding of the request handlers of [server.py] that work on
    the cart, the payment transactions and the orders, together with the
    properties of the checkout flow; then the authentication, account,
    catalog, order listing and seeding routes of the same file, and the
    tally kept by [backend_test.py].

    - Python [int] is [Z]; Python [float] is the primitive binary64 [float].
    - A MongoDB collection is the list of its documents in insertion order;
      [find_one] returns the first match, [update_one] rewrites the first
      match, [insert_one] appends. A write that carries an int of more than
      eight bytes raises [OverflowError] and is not sent.
    - A handler is a function from the database to an outcome (a returned
      value or a raised exception) and the database it leaves behind.
    - The payment provider client ([StripeCheckout]) is an interface.
    - [uuid.uuid4()] and [datetime.now()] are read by the handler from its
      arguments, one argument per call site. *)

From Stdlib Require Import ZArith.
From Stdlib Require Import Floats.PrimFloat Floats.SpecFloat Floats.FloatOps.
From stdpp Require Import base option list strings sorting.

Open Scope Z_scope.

(** ** Python numbers *)

Module Py.

(** Exceptions that the modelled code can raise. [HTTPException] is the
    one of FastAPI; the others reach the client as a 500 response. *)
Inductive exception : Type :=
  | HTTPException (status_code : Z) (detail : string)
  | OverflowError
  | ZeroDivisionError
  | KeyError (key : string)
  | ProviderError (message : string).

Inductive outcome (A : Type) : Type :=
  | Returned (a : A)
  | Raised (e : exception).
Arguments Returned {A} a.
Arguments Raised {A} e.

(** The binary64 nearest to an integer, ties to even; an infinity when the
    integer is beyond the finite range. *)
Definition nearest_float (n : Z) : float :=
  SF2Prim (binary_normalize prec emax n 0 false).

(** [float(n)]: the nearest binary64; [OverflowError] when the integer is
    beyond the finite range. *)
Definition float_of_int (n : Z) : outcome float :=
  let f := nearest_float n in
  if PrimFloat.is_infinity f then Raised OverflowError else Returned f.

(** [x * n] for a float [x] and an int [n]: the int is converted first. *)
Definition float_mul_int (x : float) (n : Z) : outcome float :=
  match float_of_int n with
  | Returned f => Returned (PrimFloat.mul x f)
  | Raised e => Raised e
  end.

(** [a / b] on two ints (true division): the exact quotient, correctly
    rounded. The quotient is computed with enough extra bits below the
    rounding position and a sticky bit for the remainder. *)
Definition int_truediv (a b : Z) : outcome float :=
  if b =? 0 then Raised ZeroDivisionError else
  let neg := xorb (a <? 0) (b <? 0) in
  let n := Z.abs a in
  let d := Z.abs b in
  let k := Z.max 0 (Z.log2 d + 57 - Z.log2 n) in
  let q := (n * 2 ^ k) / d in
  let r := (n * 2 ^ k) mod d in
  let m := 2 * q + (if r =? 0 then 0 else 1) in
  let f := SF2Prim (binary_normalize prec emax (if neg then - m else m) (- (k + 1)) neg) in
  if PrimFloat.is_infinity f then Raised OverflowError else Returned f.

(** What [sum] returns: the start value, the int [0], when there is
    nothing to add, a float once a float has been added. *)
Inductive num : Type :=
  | Int (n : Z)
  | Float (x : float).

(** How the interpreter adds floats up in [sum]. Up to CPython 3.11 it is
    one addition per item. From CPython 3.12 it is the compensated
    summation of Neumaier: beside the running sum the loop keeps the
    rounding errors of the additions, and adds them in at the end. The
    repository does not say which interpreter runs it. *)
Inductive summation : Type :=
  | Plain
  | Compensated.

(** One turn of the compensated loop on the running sum [f] and the
    compensation [c]:
    [t = f + x; if fabs(f) >= fabs(x): c += (f - t) + x; else: c += (x - t) + f;
    f = t]. *)
Definition neumaier_step (acc : float * float) (x : float) : float * float :=
  let f := acc.1 in
  let c := acc.2 in
  let t := PrimFloat.add f x in
  (t,
   if PrimFloat.leb (PrimFloat.abs x) (PrimFloat.abs f)
   then PrimFloat.add c (PrimFloat.add (PrimFloat.sub f t) x)
   else PrimFloat.add c (PrimFloat.add (PrimFloat.sub x t) f)).

(** The end of the compensated loop: [if c and isfinite(c): f += c]. *)
Definition compensated_result (acc : float * float) : float :=
  let f := acc.1 in
  let c := acc.2 in
  if negb (PrimFloat.eqb c 0%float)
     && negb (PrimFloat.is_nan c) && negb (PrimFloat.is_infinity c)
  then PrimFloat.add f c
  else f.

(** The float loop of [sum], entered with the running sum [start]. *)
Definition sum_floats (s : summation) (start : float) (xs : list float) : float :=
  match s with
  | Plain => foldl PrimFloat.add start xs
  | Compensated => compensated_result (foldl neumaier_step (start, 0%float) xs)
  end.

(** [sum(xs)] for floats [xs]: the start value is the int [0]; the first
    item is added to it as [0 + x], which is [float(0) + x]; the float
    loop takes over from there. *)
Definition sum (s : summation) (xs : list float) : num :=
  match xs with
  | [] => Int 0
  | x :: rest => Float (sum_floats s (PrimFloat.add 0%float x) rest)
  end.

End Py.

Import Py.

(** ** Documents *)

Module User.
Record t : Type := mk {
  id : string;
  email : string;
  name : string;
  role : string;
  created_at : string
}.
End User.

Module Product.
Record t : Type := mk {
  id : string;
  name : string;
  price : float;
  category : string;
  stock : Z;
  featured : bool
}.
End Product.

Module CartItem.
Record t : Type := mk {
  product_id : string;
  quantity : Z;
  size : string;
  color : string
}.

Definition set_quantity (q : Z) (x : t) : t :=
  mk (product_id x) q (size x) (color x).

(** The triple a line item is identified by. *)
Definition key (x : t) : string * string * string :=
  (product_id x, size x, color x).
End CartItem.

Module Cart.
Record t : Type := mk {
  id : string;
  user_id : string;
  items : list CartItem.t;
  updated_at : string
}.

Definition set_items (l : list CartItem.t) (c : t) : t :=
  mk (id c) (user_id c) l (updated_at c).

Definition set_items_updated_at (l : list CartItem.t) (now : string) (c : t) : t :=
  mk (id c) (user_id c) l now.
End Cart.

Module PaymentTransaction.
Record t : Type := mk {
  id : string;
  session_id : string;
  user_id : string;
  amount : float;
  currency : string;
  status : string;
  payment_status : string;
  metadata_cart_id : string;
  created_at : string;
  updated_at : option string
}.

(** [{"$set": {"status": "complete", "payment_status": "paid",
    "updated_at": now}}] *)
Definition set_paid (now : string) (x : t) : t :=
  mk (id x) (session_id x) (user_id x) (amount x) (currency x)
     "complete" "paid" (metadata_cart_id x) (created_at x) (Some now).
End PaymentTransaction.

Module Order.
Record t : Type := mk {
  id : string;
  user_id : string;
  items : list CartItem.t;
  total : float;
  status : string;
  payment_session_id : string;
  created_at : string
}.
End Order.

(** ** The document store *)

Record DB : Type := mkDB {
  users : list User.t;
  products : list Product.t;
  carts : list Cart.t;
  payment_transactions : list PaymentTransaction.t;
  orders : list Order.t
}.

Definition set_carts (l : list Cart.t) (db : DB) : DB :=
  mkDB (users db) (products db) l (payment_transactions db) (orders db).

Definition set_payment_transactions (l : list PaymentTransaction.t) (db : DB) : DB :=
  mkDB (users db) (products db) (carts db) l (orders db).

Definition set_orders (l : list Order.t) (db : DB) : DB :=
  mkDB (users db) (products db) (carts db) (payment_transactions db) l.

Section Collection.
Context {A : Type}.

(** [coll.find_one(filter)] *)
Definition find_one (filter : A -> bool) (coll : list A) : option A :=
  List.find filter coll.

(** [coll.update_one(filter, {"$set": ...})]: the first match is
    rewritten; nothing happens when there is none (no upsert). *)
Fixpoint update_one (filter : A -> bool) (set : A -> A) (coll : list A) : list A :=
  match coll with
  | [] => []
  | x :: rest =>
      if filter x then set x :: rest else x :: update_one filter set rest
  end.

(** [coll.insert_one(doc)] *)
Definition insert_one (doc : A) (coll : list A) : list A := coll ++ [doc].

(** [coll.count_documents({})] *)
Definition count_documents (coll : list A) : Z := Z.of_nat (length coll).

(** [coll.find({}).to_list(n)] *)
Definition to_list (n : nat) (coll : list A) : list A := take n coll.
End Collection.

Definition cart_of (uid : string) (c : Cart.t) : bool :=
  bool_decide (Cart.user_id c = uid).

Definition product_with_id (pid : string) (p : Product.t) : bool :=
  bool_decide (Product.id p = pid).

(** ** Encoding a document

    The driver encodes a document before it sends a write. A Python [int]
    becomes a 32-bit or a 64-bit integer; for one that needs more than
    eight bytes the driver raises [OverflowError] and nothing is sent, so
    the store stays as it was. *)

Definition int64 (n : Z) : bool := (- 2 ^ 63 <=? n) && (n <? 2 ^ 63).

Definition encode_int (n : Z) : outcome unit :=
  if int64 n then Returned tt else Raised OverflowError.

(** The [items] of a cart document: the one int of a line is its
    [quantity]. *)
Definition encode_items (items : list CartItem.t) : outcome unit :=
  if forallb (fun x => int64 (CartItem.quantity x)) items
  then Returned tt
  else Raised OverflowError.

Definition transaction_of (sid : string) (x : PaymentTransaction.t) : bool :=
  bool_decide (PaymentTransaction.session_id x = sid).

(** ** Handlers

    A handler reads and writes the store and either returns or raises.
    What it wrote before raising stays written. *)

Definition handler (A : Type) : Type := DB -> outcome A * DB.

#[global] Instance handler_ret : MRet handler :=
  fun A a db => (Returned a, db).

#[global] Instance handler_bind : MBind handler :=
  fun A B k m db =>
    match m db with
    | (Returned a, db') => k a db'
    | (Raised e, db') => (Raised e, db')
    end.

Definition raise {A : Type} (e : exception) : handler A :=
  fun db => (Raised e, db).

Definition read {A : Type} (query : DB -> A) : handler A :=
  fun db => (Returned (query db), db).

Definition write (update : DB -> DB) : handler unit :=
  fun db => (Returned tt, update db).

Definition call {A : Type} (o : outcome A) : handler A :=
  fun db => (o, db).

Definition pass : handler unit := mret tt.

(** ** The payment provider client *)

Module Stripe.
Record CheckoutSessionRequest : Type := mkRequest {
  amount : float;
  currency : string;
  success_url : string;
  cancel_url : string;
  metadata_user_id : string;
  metadata_cart_id : string
}.

Record CheckoutSessionResponse : Type := mkSession {
  url : string;
  session_id : string
}.

(** [amount_total] is the amount in the currency's minor unit, an int. *)
Record CheckoutStatusResponse : Type := mkStatus {
  status : string;
  payment_status : string;
  amount_total : Z;
  status_currency : string
}.

Record WebhookResponse : Type := mkEvent {
  event_session_id : string;
  event_payment_status : string
}.

(** The three calls of [StripeCheckout] the handlers make. A call that
    fails (provider error, timeout, bad webhook signature) raises. *)
Class StripeCheckout : Type := {
  create_checkout_session : CheckoutSessionRequest -> outcome CheckoutSessionResponse;
  get_checkout_status : string -> outcome CheckoutStatusResponse;
  handle_webhook : string -> option string -> outcome WebhookResponse
}.
End Stripe.

(** ** Cart routes *)

Record PopulatedCart : Type := mkPopulatedCart {
  populated_id : string;
  populated_user_id : string;
  populated_items : list (CartItem.t * Product.t);
  populated_updated_at : string
}.

(** The loop of [get_cart] that joins each item with its product and drops
    the items whose product is gone. *)
Fixpoint populate (catalog : list Product.t) (items : list CartItem.t)
  : list (CartItem.t * Product.t) :=
  match items with
  | [] => []
  | item :: rest =>
      match find_one (product_with_id (CartItem.product_id item)) catalog with
      | Some product => (item, product) :: populate catalog rest
      | None => populate catalog rest
      end
  end.

Definition get_cart (new_id now : string) (user : User.t) : handler PopulatedCart :=
  found ← read (fun db => find_one (cart_of (User.id user)) (carts db));
  cart ← match found with
         | Some cart => mret cart
         | None =>
             let cart := Cart.mk new_id (User.id user) [] now in
             write (fun db => set_carts (insert_one cart (carts db)) db);;
             mret cart
         end;
  catalog ← read products;
  mret (mkPopulatedCart (Cart.id cart) (Cart.user_id cart)
          (populate catalog (Cart.items cart)) (Cart.updated_at cart)).

(** [x["product_id"] == item.product_id and x["size"] == item.size and
    x["color"] == item.color] *)
Definition same_line (item x : CartItem.t) : Prop :=
  CartItem.product_id x = CartItem.product_id item
  ∧ CartItem.size x = CartItem.size item
  ∧ CartItem.color x = CartItem.color item.

#[global] Instance same_line_dec item x : Decision (same_line item x).
Proof. unfold same_line. apply _. Defined.

(** [next((i for i, x in enumerate(items) if ...), None)] *)
Definition existing_index (item : CartItem.t) (items : list CartItem.t) : option nat :=
  fst <$> list_find (same_line item) items.

(** The list [add_to_cart] writes back. *)
Definition add_item (item : CartItem.t) (items : list CartItem.t) : list CartItem.t :=
  match existing_index item items with
  | Some i =>
      alter (fun x => CartItem.set_quantity (CartItem.quantity x + CartItem.quantity item) x)
            i items
  | None => items ++ [item]
  end.

Definition add_to_cart (new_id now_created now : string)
    (item : CartItem.t) (user : User.t) : handler string :=
  found ← read (fun db => find_one (cart_of (User.id user)) (carts db));
  cart ← match found with
         | Some cart => mret cart
         | None =>
             let cart := Cart.mk new_id (User.id user) [] now_created in
             write (fun db => set_carts (insert_one cart (carts db)) db);;
             mret cart
         end;
  let items := add_item item (Cart.items cart) in
  call (encode_items items);;
  write (fun db =>
    set_carts (update_one (cart_of (User.id user))
                 (Cart.set_items_updated_at items now) (carts db)) db);;
  mret "Item added to cart".

(** The loop of [update_cart_item]: the first matching line is popped or
    has its quantity overwritten, then the loop breaks. *)
Definition update_item (item : CartItem.t) (items : list CartItem.t) : list CartItem.t :=
  match list_find (same_line item) items with
  | Some (i, _) =>
      if CartItem.quantity item <=? 0
      then delete i items
      else alter (CartItem.set_quantity (CartItem.quantity item)) i items
  | None => items
  end.

Definition update_cart_item (now : string)
    (item : CartItem.t) (user : User.t) : handler string :=
  found ← read (fun db => find_one (cart_of (User.id user)) (carts db));
  match found with
  | None => raise (HTTPException 404 "Cart not found")
  | Some cart =>
      let items := update_item item (Cart.items cart) in
      call (encode_items items);;
      write (fun db =>
        set_carts (update_one (cart_of (User.id user))
                     (Cart.set_items_updated_at items now) (carts db)) db);;
      mret "Cart updated"
  end.

Definition clear_cart (now : string) (user : User.t) : handler string :=
  write (fun db =>
    set_carts (update_one (cart_of (User.id user))
                 (Cart.set_items_updated_at [] now) (carts db)) db);;
  mret "Cart cleared".

(** ** Checkout and payment routes *)

(** The loop of [create_checkout_session] over [cart["items"]]: each
    product is looked up in the catalog as it is now; an item whose product
    is gone leaves the running total as it is. *)
Fixpoint cart_total (catalog : list Product.t) (items : list CartItem.t) (total : float)
  : outcome float :=
  match items with
  | [] => Returned total
  | item :: rest =>
      match find_one (product_with_id (CartItem.product_id item)) catalog with
      | Some product =>
          match float_mul_int (Product.price product) (CartItem.quantity item) with
          | Returned line => cart_total catalog rest (PrimFloat.add total line)
          | Raised e => Raised e
          end
      | None => cart_total catalog rest total
      end
  end.

Definition checkout_request (origin_url : string) (total : float)
    (user : User.t) (cart : Cart.t) : Stripe.CheckoutSessionRequest :=
  Stripe.mkRequest total "usd"
    (origin_url +:+ "/checkout/success?session_id={CHECKOUT_SESSION_ID}")
    (origin_url +:+ "/cart")
    (User.id user) (Cart.id cart).

Definition create_checkout_session `{SC : Stripe.StripeCheckout}
    (new_id now : string) (origin_url : string) (user : User.t)
  : handler (string * string) :=
  found ← read (fun db => find_one (cart_of (User.id user)) (carts db));
  match found with
  | None => raise (HTTPException 400 "Cart is empty")
  | Some cart =>
      match Cart.items cart with
      | [] => raise (HTTPException 400 "Cart is empty")
      | _ :: _ =>
          catalog ← read products;
          total ← call (cart_total catalog (Cart.items cart) 0%float);
          if PrimFloat.leb total 0%float
          then raise (HTTPException 400 "Invalid cart total")
          else
            session ← call (Stripe.create_checkout_session
                              (checkout_request origin_url total user cart));
            let transaction :=
              PaymentTransaction.mk new_id (Stripe.session_id session) (User.id user)
                total "usd" "pending" "initiated" (Cart.id cart) now None in
            write (fun db =>
              set_payment_transactions
                (insert_one transaction (payment_transactions db)) db);;
            mret (Stripe.url session, Stripe.session_id session)
      end
  end.

Record StatusFields : Type := mkStatusFields {
  fields_status : string;
  fields_payment_status : string;
  fields_amount_total : Z;
  fields_currency : string
}.

Definition status_fields (s : Stripe.CheckoutStatusResponse) : StatusFields :=
  mkStatusFields (Stripe.status s) (Stripe.payment_status s)
    (Stripe.amount_total s) (Stripe.status_currency s).

(** The body of [if cart and cart.get("items")] in [get_checkout_status]. *)
Definition create_order (new_id now : string) (session_id : string)
    (amount_total : Z) (user : User.t) : handler unit :=
  found ← read (fun db => find_one (cart_of (User.id user)) (carts db));
  match found with
  | None => pass
  | Some cart =>
      match Cart.items cart with
      | [] => pass
      | _ :: _ =>
          total ← call (int_truediv amount_total 100);
          let order :=
            Order.mk new_id (User.id user) (Cart.items cart) total
              "confirmed" session_id now in
          write (fun db => set_orders (insert_one order (orders db)) db);;
          write (fun db =>
            set_carts (update_one (cart_of (User.id user))
                         (Cart.set_items []) (carts db)) db)
      end
  end.

Definition get_checkout_status `{SC : Stripe.StripeCheckout}
    (now_paid new_id now_order : string) (session_id : string) (user : User.t)
  : handler StatusFields :=
  status ← call (Stripe.get_checkout_status session_id);
  (if bool_decide (Stripe.payment_status status = "paid")
   then
     found ← read (fun db =>
       find_one (transaction_of session_id) (payment_transactions db));
     match found with
     | None => pass
     | Some transaction =>
         if bool_decide (PaymentTransaction.payment_status transaction ≠ "paid")
         then
           write (fun db =>
             set_payment_transactions
               (update_one (transaction_of session_id)
                  (PaymentTransaction.set_paid now_paid)
                  (payment_transactions db)) db);;
           create_order new_id now_order session_id
             (Stripe.amount_total status) user
         else pass
     end
   else pass);;
  mret (status_fields status).

(** [try: ... except Exception: ...] around the body of [stripe_webhook]:
    whatever is raised inside is logged and dropped. *)
Definition try_except {A : Type} (body : handler A) (except : exception -> handler A)
  : handler A :=
  fun db =>
    match body db with
    | (Returned a, db') => (Returned a, db')
    | (Raised e, db') => except e db'
    end.

(** The response is [{"received": True}], modelled by its one field. *)
Definition stripe_webhook `{SC : Stripe.StripeCheckout}
    (now : string) (body : string) (signature : option string) : handler bool :=
  try_except
    (webhook_response ← call (Stripe.handle_webhook body signature);
     (if bool_decide (Stripe.event_payment_status webhook_response = "paid")
      then
        write (fun db =>
          set_payment_transactions
            (update_one (transaction_of (Stripe.event_session_id webhook_response))
               (PaymentTransaction.set_paid now)
               (payment_transactions db)) db)
      else pass);;
     mret true)
    (fun _ => mret true).

(** ** Admin statistics *)

Definition get_admin_user (user : User.t) : outcome User.t :=
  if bool_decide (User.role user ≠ "admin")
  then Raised (HTTPException 403 "Admin access required")
  else Returned user.

Record Stats : Type := mkStats {
  total_products : Z;
  total_orders : Z;
  total_users : Z;
  total_revenue : num
}.

(** [py] is the way the interpreter that runs the server adds floats up.
    Every order document holds a float under [total], so [sum] is handed
    floats. *)
Definition get_admin_stats (py : summation) (user : User.t) : handler Stats :=
  total_products ← read (fun db => count_documents (products db));
  total_orders ← read (fun db => count_documents (orders db));
  total_users ← read (fun db => count_documents (users db));
  found ← read (fun db => to_list 1000 (orders db));
  let total_revenue := Py.sum py (Order.total <$> found) in
  mret (mkStats total_products total_orders total_users total_revenue).

(** ** Sample data

    A small store and two provider clients, used to run the handlers on
    concrete requests. *)

Module Sample.
Definition alice : User.t :=
  User.mk "u-alice" "alice@example.com" "Alice" "user" "2024-01-01T00:00:00+00:00".
Definition bob : User.t :=
  User.mk "u-bob" "bob@example.com" "Bob" "user" "2024-01-02T00:00:00+00:00".
Definition admin : User.t :=
  User.mk "u-admin" "admin@shoehaven.com" "Admin" "admin" "2024-01-01T00:00:00+00:00".

Definition oxford : Product.t :=
  Product.mk "p-oxford" "Oxford" 485%float "men" 50 true.

Definition line (quantity : Z) : CartItem.t :=
  CartItem.mk "p-oxford" quantity "9" "Black".

(** The catalog holds one product and nobody has a cart yet. *)
Definition fresh_store : DB := mkDB [alice; bob; admin] [oxford] [] [] [].

(** A provider that opens session [cs_1] and reports it paid with
    48500 minor units; a webhook is verified when its signature is
    ["good"]. *)
Definition paying : Stripe.StripeCheckout := {|
  Stripe.create_checkout_session := fun _ =>
    Returned (Stripe.mkSession "https://pay.example/cs_1" "cs_1");
  Stripe.get_checkout_status := fun _ =>
    Returned (Stripe.mkStatus "complete" "paid" 48500 "usd");
  Stripe.handle_webhook := fun _ signature =>
    if bool_decide (signature = Some "good")
    then Returned (Stripe.mkEvent "cs_1" "paid")
    else Raised (ProviderError "invalid signature")
|}.

(** A provider that cannot be reached. *)
Definition unreachable : Stripe.StripeCheckout := {|
  Stripe.create_checkout_session := fun _ => Raised (ProviderError "timeout");
  Stripe.get_checkout_status := fun _ => Raised (ProviderError "timeout");
  Stripe.handle_webhook := fun _ _ => Raised (ProviderError "timeout")
|}.

Definition cart_of_alice (items : list CartItem.t) : Cart.t :=
  Cart.mk "c-alice" "u-alice" items "2024-02-01T10:00:00+00:00".

Definition cart_of_bob (items : list CartItem.t) : Cart.t :=
  Cart.mk "c-bob" "u-bob" items "2024-02-01T11:00:00+00:00".

(** The transaction [create_checkout_session] records for alice. *)
Definition pending : PaymentTransaction.t :=
  PaymentTransaction.mk "t-1" "cs_1" "u-alice" 485%float "usd"
    "pending" "initiated" "c-alice" "2024-02-01T10:05:00+00:00" None.

Definition paid : PaymentTransaction.t :=
  PaymentTransaction.set_paid "2024-02-01T10:06:00+00:00" pending.
End Sample.

(** ** Vocabulary of the properties *)

(** At most one line per (product_id, size, color) triple. *)
Definition distinct_lines (items : list CartItem.t) : Prop :=
  NoDup (CartItem.key <$> items).

Definition cart_inv (db : DB) : Prop :=
  Forall (fun cart => distinct_lines (Cart.items cart)) (carts db).

(** The items of the cart a request of this user finds; none when the user
    has no cart. *)
Definition items_of (uid : string) (db : DB) : list CartItem.t :=
  match find_one (cart_of uid) (carts db) with
  | Some cart => Cart.items cart
  | None => []
  end.

(** The line the loop stops at: the first one with the triple of [item]. *)
Definition first_match (item : CartItem.t) (items : list CartItem.t)
    (i : nat) (x : CartItem.t) : Prop :=
  items !! i = Some x
  ∧ same_line item x
  ∧ forall j y, items !! j = Some y -> (j < i)%nat -> ¬ same_line item y.

(** An int the store can hold: one of at most eight bytes. *)
Definition fits_int64 (n : Z) : Prop := - 2 ^ 63 <= n < 2 ^ 63.

(** A list of lines the store can hold. *)
Definition encodable (items : list CartItem.t) : Prop :=
  Forall (fun x => fits_int64 (CartItem.quantity x)) items.

(** Claim C5 read to the letter, on an add for a triple the cart holds:
    the quantity of that line goes up by the requested amount, whatever
    the two quantities are. *)
Definition add_increments_existing_line : Prop :=
  forall new_id now_created now item user db i x,
    cart_inv db ->
    items_of (User.id user) db !! i = Some x -> same_line item x ->
    items_of (User.id user) (add_to_cart new_id now_created now item user db).2
    = <[i := CartItem.set_quantity (CartItem.quantity x + CartItem.quantity item) x]>
        (items_of (User.id user) db).

(** Claim C6 read to the letter asks that an update which matches no line
    leaves the store as it was. The handler still writes the cart back. *)
Definition update_without_match_is_noop : Prop :=
  forall now item user db cart,
    find_one (cart_of (User.id user)) (carts db) = Some cart ->
    existing_index item (Cart.items cart) = None ->
    update_cart_item now item user db = (Returned "Cart updated", db).

(** The price the catalog holds for a line right now. *)
Definition current_price (catalog : list Product.t) (item : CartItem.t) : option float :=
  Product.price <$> find_one (product_with_id (CartItem.product_id item)) catalog.

(** The sum of [current price * quantity] over the lines whose product is
    in the catalog, added up in cart order from [0.0]. *)
Definition sum_of_lines (catalog : list Product.t) (items : list CartItem.t) : float :=
  foldl PrimFloat.add 0%float
    (omap (fun item =>
             price ← current_price catalog item;
             Some (PrimFloat.mul price (nearest_float (CartItem.quantity item))))
          items).

(** The document [create_checkout_session] inserts once the provider has
    opened the session. *)
Definition recorded_transaction (new_id now : string) (user : User.t)
    (cart : Cart.t) (total : float)
    (session : Stripe.CheckoutSessionResponse) : PaymentTransaction.t :=
  PaymentTransaction.mk new_id (Stripe.session_id session) (User.id user)
    total "usd" "pending" "initiated" (Cart.id cart) now None.

(** A quantity that [float()] accepts. Every 64-bit integer is one. *)
Definition convertible (item : CartItem.t) : Prop :=
  PrimFloat.is_infinity (nearest_float (CartItem.quantity item)) = false.

(** The store after the [update_one] that marks the transaction of a
    session complete and paid. *)
Definition mark_paid (session_id now : string) (db : DB) : DB :=
  set_payment_transactions
    (update_one (transaction_of session_id) (PaymentTransaction.set_paid now)
       (payment_transactions db)) db.

(** The order document [get_checkout_status] inserts. *)
Definition confirmed_order (session_id new_id now : string) (user : User.t)
    (items : list CartItem.t) (total : float) : Order.t :=
  Order.mk new_id (User.id user) items total "confirmed" session_id now.

(** The store after [{"$set": {"items": []}}] on the user's cart. *)
Definition empty_cart (user : User.t) (db : DB) : DB :=
  set_carts (update_one (cart_of (User.id user)) (Cart.set_items []) (carts db)) db.

(** Claim C2 read to the letter: a paid poll on a transaction that is not
    yet paid marks it, appends a confirmed order holding the caller's cart
    items with the amount the provider reported as its total, and leaves
    the caller's cart empty. *)
Definition paid_poll_creates_order : Prop :=
  forall (SC : Stripe.StripeCheckout) now_paid new_id now_order session_id user db
         status transaction,
    Stripe.get_checkout_status session_id = Returned status ->
    Stripe.payment_status status = "paid" ->
    find_one (transaction_of session_id) (payment_transactions db) = Some transaction ->
    PaymentTransaction.payment_status transaction ≠ "paid" ->
    let db' := (get_checkout_status now_paid new_id now_order session_id user db).2 in
    find_one (transaction_of session_id) (payment_transactions db')
    = Some (PaymentTransaction.set_paid now_paid transaction)
    ∧ (exists order,
         orders db' = orders db ++ [order]
         ∧ Order.status order = "confirmed"
         ∧ Order.items order = items_of (User.id user) db
         ∧ float_of_int (Stripe.amount_total status) = Returned (Order.total order))
    ∧ items_of (User.id user) db' = [].

(** Claim C1 read to the letter: whenever the provider reports the session
    paid and the stored transaction is still to be marked, two polls in a
    row append exactly one order, and the second poll returns the
    provider's fields and changes nothing. *)
Definition two_polls_one_order : Prop :=
  forall (SC : Stripe.StripeCheckout) now_paid1 new_id1 now_order1
         now_paid2 new_id2 now_order2 session_id user db status transaction,
    Stripe.get_checkout_status session_id = Returned status ->
    Stripe.payment_status status = "paid" ->
    find_one (transaction_of session_id) (payment_transactions db) = Some transaction ->
    PaymentTransaction.payment_status transaction ≠ "paid" ->
    let first := get_checkout_status now_paid1 new_id1 now_order1 session_id user db in
    let second :=
      get_checkout_status now_paid2 new_id2 now_order2 session_id user first.2 in
    (exists order, orders second.2 = orders db ++ [order])
    ∧ second = (Returned (status_fields status), first.2).

(** Alice puts one pair in her cart, opens a session, clears her cart and
    pays; this is the store her polls then find. *)
Definition store_after_clear : DB :=
  (clear_cart "2024-02-01T10:05:30+00:00" Sample.alice
     (create_checkout_session (SC := Sample.paying) "t-1" "2024-02-01T10:05:00+00:00"
        "https://shop.example" Sample.alice
        (add_to_cart "c-alice" "2024-02-01T10:00:00+00:00" "2024-02-01T10:00:00+00:00"
           (Sample.line 1) Sample.alice Sample.fresh_store).2).2).2.

(** Claim C10 read to the letter: whoever polls a paid session that is not
    yet marked paid gets an order made from their own cart, and their own
    cart emptied. *)
Definition poll_orders_for_caller : Prop :=
  forall (SC : Stripe.StripeCheckout) now_paid new_id now_order session_id user db
         status transaction,
    Stripe.get_checkout_status session_id = Returned status ->
    Stripe.payment_status status = "paid" ->
    find_one (transaction_of session_id) (payment_transactions db) = Some transaction ->
    PaymentTransaction.payment_status transaction ≠ "paid" ->
    let db' := (get_checkout_status now_paid new_id now_order session_id user db).2 in
    exists order,
      orders db' = orders db ++ [order]
      ∧ Order.user_id order = User.id user
      ∧ Order.items order = items_of (User.id user) db
      ∧ items_of (User.id user) db' = [].

(** Alice has one pair in her cart and an open session; bob has no cart. *)
Definition store_with_open_session : DB :=
  (create_checkout_session (SC := Sample.paying) "t-1" "2024-02-01T10:05:00+00:00"
     "https://shop.example" Sample.alice
     (add_to_cart "c-alice" "2024-02-01T10:00:00+00:00" "2024-02-01T10:00:00+00:00"
        (Sample.line 1) Sample.alice Sample.fresh_store).2).2.

(** Claim C7 read to the letter: a paid event delivered for a transaction
    that is already marked paid leaves the stored record as it is. *)
Definition redelivery_leaves_record : Prop :=
  forall (SC : Stripe.StripeCheckout) now body signature db event transaction,
    Stripe.handle_webhook body signature = Returned event ->
    Stripe.event_payment_status event = "paid" ->
    find_one (transaction_of (Stripe.event_session_id event)) (payment_transactions db)
    = Some transaction ->
    PaymentTransaction.payment_status transaction = "paid" ->
    find_one (transaction_of (Stripe.event_session_id event))
      (payment_transactions (stripe_webhook now body signature db).2)
    = Some transaction.

(** One order of 1.00. *)
Definition one_dollar_order : Order.t :=
  Order.mk "o" "u-alice" [Sample.line 1] 1%float "confirmed" "cs" "2024-02-01T10:06:01+00:00".

(** ** Authentication

    The token library and the password hash are interfaces, as the payment
    provider is. A [JWT] instance stands for [jwt.encode] and [jwt.decode]
    under the server's secret at the time of the request. A payload is a
    dict: [create_token] writes four keys, and a token that verifies may
    lack any of them. The one key the handlers subscript is [user_id];
    what it holds is a string, as in the payloads [create_token] writes. *)

Module Jwt.
Record Payload : Type := mkPayload {
  user_id : option string;
  email : option string;
  role : option string;
  exp : option float
}.

Inductive decoded : Type :=
  | Decoded (payload : Payload)
  | ExpiredSignatureError
  | InvalidTokenError.

Class JWT : Type := {
  encode : Payload -> string;
  decode : string -> decoded
}.
End Jwt.

Module Bcrypt.
(** [hashpw password salt] and [checkpw password hashed]. *)
Class Bcrypt : Type := {
  hashpw : string -> string -> string;
  checkpw : string -> string -> bool
}.
End Bcrypt.

(** [bcrypt.gensalt()] is read from the argument [salt]. *)
Definition hash_password `{B : Bcrypt.Bcrypt} (password salt : string) : string :=
  Bcrypt.hashpw password salt.

Definition verify_password `{B : Bcrypt.Bcrypt} (password hashed : string) : bool :=
  Bcrypt.checkpw password hashed.

(** [now] is [datetime.now(timezone.utc).timestamp()]; the token expires
    [86400 * 7] seconds later. *)
Definition create_token `{J : Jwt.JWT} (now : float) (user_id email role : string)
  : string :=
  Jwt.encode
    (Jwt.mkPayload (Some user_id) (Some email) (Some role)
       (Some (PrimFloat.add now 604800%float))).

(** [s.split(" ")]: the pieces between single spaces (character 32), empty
    pieces kept. *)
Fixpoint split_space (s : string) : list string :=
  match s with
  | EmptyString => [EmptyString]
  | String c rest =>
      if Ascii.eqb c (Ascii.ascii_of_nat 32)
      then EmptyString :: split_space rest
      else
        match split_space rest with
        | part :: parts => String c part :: parts
        | [] => [String c EmptyString]
        end
  end.

Definition user_with_id (uid : string) (u : User.t) : bool :=
  bool_decide (User.id u = uid).

(** The header has passed [startswith("Bearer ")] when the token is taken
    off it, so [split(" ")[1]] is there; [nth] stands for the subscript.
    [payload["user_id"]] raises [KeyError] when the key is missing, which
    neither [except] clause catches. *)
Definition get_current_user `{J : Jwt.JWT} (authorization : option string)
  : handler User.t :=
  match authorization with
  | None => raise (HTTPException 401 "Not authenticated")
  | Some header =>
      if bool_decide (header = "") || negb (String.prefix "Bearer " header)
      then raise (HTTPException 401 "Not authenticated")
      else
        let token := nth 1 (split_space header) "" in
        match Jwt.decode token with
        | Jwt.Decoded payload =>
            match Jwt.user_id payload with
            | None => raise (KeyError "user_id")
            | Some user_id =>
                found ← read (fun db => find_one (user_with_id user_id) (users db));
                match found with
                | None => raise (HTTPException 401 "User not found")
                | Some user => mret user
                end
            end
        | Jwt.ExpiredSignatureError => raise (HTTPException 401 "Token expired")
        | Jwt.InvalidTokenError => raise (HTTPException 401 "Invalid token")
        end
  end.

(** A route with [user: dict = Depends(get_current_user)]. *)
Definition authenticated {A : Type} `{J : Jwt.JWT} (authorization : option string)
    (route : User.t -> handler A) : handler A :=
  user ← get_current_user authorization;
  route user.

(** A route with [user: dict = Depends(get_admin_user)]. *)
Definition admin_only {A : Type} `{J : Jwt.JWT} (authorization : option string)
    (route : User.t -> handler A) : handler A :=
  user ← get_current_user authorization;
  admin ← call (get_admin_user user);
  route admin.

(** A stored user document: the fields of [User.t] and the password hash,
    which only [register] and [login] read. *)
Module Account.
Record t : Type := mk {
  user : User.t;
  password : string
}.
End Account.

Definition account_with_email (email : string) (a : Account.t) : bool :=
  bool_decide (User.email (Account.user a) = email).

Record UserCreate : Type := mkUserCreate {
  create_email : string;
  create_password : string;
  create_name : string
}.

Record UserLogin : Type := mkUserLogin {
  login_email : string;
  login_password : string
}.

Record TokenResponse : Type := mkTokenResponse {
  token : string;
  token_user : User.t
}.

(** [register] and [login] work on [db.users] alone; they are functions of
    that collection. [created_at] is the clock read for the document, [now]
    the one read for the token. *)
Definition register `{B : Bcrypt.Bcrypt} `{J : Jwt.JWT}
    (new_id salt created_at : string) (now : float) (user_data : UserCreate)
    (accounts : list Account.t) : outcome TokenResponse * list Account.t :=
  match find_one (account_with_email (create_email user_data)) accounts with
  | Some _ => (Raised (HTTPException 400 "Email already registered"), accounts)
  | None =>
      let user :=
        User.mk new_id (create_email user_data) (create_name user_data) "user"
          created_at in
      let account := Account.mk user (hash_password (create_password user_data) salt) in
      (Returned (mkTokenResponse
                   (create_token now new_id (create_email user_data) "user") user),
       insert_one account accounts)
  end.

Definition login `{B : Bcrypt.Bcrypt} `{J : Jwt.JWT}
    (now : float) (credentials : UserLogin) (accounts : list Account.t)
  : outcome TokenResponse * list Account.t :=
  match find_one (account_with_email (login_email credentials)) accounts with
  | None => (Raised (HTTPException 401 "Invalid credentials"), accounts)
  | Some account =>
      if negb (verify_password (login_password credentials) (Account.password account))
      then (Raised (HTTPException 401 "Invalid credentials"), accounts)
      else
        let user := Account.user account in
        (Returned (mkTokenResponse
                     (create_token now (User.id user) (User.email user) (User.role user))
                     user),
         accounts)
  end.

(** The emails of the stored users. *)
Definition emails (accounts : list Account.t) : list string :=
  (fun a => User.email (Account.user a)) <$> accounts.

(** The account [register] stores. *)
Definition registered `{B : Bcrypt.Bcrypt} (new_id salt created_at : string)
    (user_data : UserCreate) : Account.t :=
  Account.mk
    (User.mk new_id (create_email user_data) (create_name user_data) "user" created_at)
    (hash_password (create_password user_data) salt).

(** The store as the other routes see it, given the user documents. *)
Definition with_accounts (accounts : list Account.t) (db : DB) : DB :=
  mkDB (Account.user <$> accounts) (products db) (carts db)
    (payment_transactions db) (orders db).

(** ** Order listings *)

(** [cursor.sort("created_at", -1)]: newest first, strings compared byte
    by byte. The order among documents with the same [created_at] is the
    store's; here they keep the order they were inserted in. *)
Fixpoint insert_newest_first (order : Order.t) (sorted : list Order.t) : list Order.t :=
  match sorted with
  | [] => [order]
  | x :: rest =>
      if String.leb (Order.created_at x) (Order.created_at order)
      then order :: x :: rest
      else x :: insert_newest_first order rest
  end.

Definition newest_first (l : list Order.t) : list Order.t :=
  foldr insert_newest_first [] l.

(** [a] was created no earlier than [b], as the sort compares them. *)
Definition not_older (a b : Order.t) : Prop :=
  String.leb (Order.created_at b) (Order.created_at a) = true.

Definition get_orders (user : User.t) : handler (list Order.t) :=
  read (fun db =>
    to_list 50
      (newest_first (filter (fun order => Order.user_id order = User.id user) (orders db)))).

Definition get_all_orders (user : User.t) : handler (list Order.t) :=
  read (fun db => to_list 100 (newest_first (orders db))).

(** ** Catalog routes

    A stored product document is the [Product.t] the cart and checkout
    routes read plus the fields only the catalog routes carry. These routes
    work on [db.products] alone and are functions of that collection.
    [colors] is a list on creation; [ProductUpdate.colors] is declared
    [Optional[str]], so an update stores a string there. *)

Module ProductDoc.
Inductive colors_value : Type :=
  | ColorList (l : list string)
  | ColorString (s : string).

Record t : Type := mk {
  product : Product.t;
  description : string;
  images : list string;
  sizes : list string;
  colors : colors_value;
  brand : string;
  created_at : string
}.

Definition id (d : t) : string := Product.id (product d).
End ProductDoc.

Definition doc_with_id (pid : string) (d : ProductDoc.t) : bool :=
  bool_decide (ProductDoc.id d = pid).

(** [coll.delete_one(filter)]: the first match goes; the result tells
    whether there was one ([deleted_count]). *)
Fixpoint delete_one {A : Type} (filter : A -> bool) (coll : list A) : list A :=
  match coll with
  | [] => []
  | x :: rest => if filter x then rest else x :: delete_one filter rest
  end.

(** The query of [get_products]: [if category:] skips [None] and the empty
    string, [if featured is not None:] skips [None] only. *)
Definition matches_query (category : option string) (featured : option bool)
    (d : ProductDoc.t) : bool :=
  match category with
  | None => true
  | Some c =>
      if bool_decide (c = "") then true
      else bool_decide (Product.category (ProductDoc.product d) = c)
  end
  && match featured with
     | None => true
     | Some f => bool_decide (Product.featured (ProductDoc.product d) = f)
     end.

Definition get_products (category : option string) (featured : option bool)
    (docs : list ProductDoc.t) : list ProductDoc.t :=
  to_list 100 (List.filter (matches_query category featured) docs).

Definition get_product (product_id : string) (docs : list ProductDoc.t)
  : outcome ProductDoc.t :=
  match find_one (doc_with_id product_id) docs with
  | Some d => Returned d
  | None => Raised (HTTPException 404 "Product not found")
  end.

Record ProductCreate : Type := mkProductCreate {
  new_name : string;
  new_description : string;
  new_price : float;
  new_category : string;
  new_images : list string;
  new_sizes : list string;
  new_colors : list string;
  new_brand : string;
  new_stock : Z;
  new_featured : bool
}.

(** The one int of a product document is its [stock]. *)
Definition create_product (new_id now : string) (product : ProductCreate)
    (docs : list ProductDoc.t) : outcome ProductDoc.t * list ProductDoc.t :=
  let doc :=
    ProductDoc.mk
      (Product.mk new_id (new_name product) (new_price product) (new_category product)
         (new_stock product) (new_featured product))
      (new_description product) (new_images product) (new_sizes product)
      (ProductDoc.ColorList (new_colors product)) (new_brand product) now in
  match encode_int (new_stock product) with
  | Raised e => (Raised e, docs)
  | Returned _ => (Returned doc, insert_one doc docs)
  end.

Record ProductUpdate : Type := mkProductUpdate {
  upd_name : option string;
  upd_description : option string;
  upd_price : option float;
  upd_category : option string;
  upd_images : option (list string);
  upd_sizes : option (list string);
  upd_colors : option string;
  upd_brand : option string;
  upd_stock : option Z;
  upd_featured : option bool
}.

(** [not update_data]: no field of the payload is set. *)
Definition no_fields (u : ProductUpdate) : bool :=
  match upd_name u, upd_description u, upd_price u, upd_category u, upd_images u,
        upd_sizes u, upd_colors u, upd_brand u, upd_stock u, upd_featured u with
  | None, None, None, None, None, None, None, None, None, None => true
  | _, _, _, _, _, _, _, _, _, _ => false
  end.

(** [{"$set": update_data}] on one document. *)
Definition apply_update (u : ProductUpdate) (d : ProductDoc.t) : ProductDoc.t :=
  let p := ProductDoc.product d in
  ProductDoc.mk
    (Product.mk (Product.id p)
       (default (Product.name p) (upd_name u))
       (default (Product.price p) (upd_price u))
       (default (Product.category p) (upd_category u))
       (default (Product.stock p) (upd_stock u))
       (default (Product.featured p) (upd_featured u)))
    (default (ProductDoc.description d) (upd_description u))
    (default (ProductDoc.images d) (upd_images u))
    (default (ProductDoc.sizes d) (upd_sizes u))
    (default (ProductDoc.colors d) (ProductDoc.ColorString <$> upd_colors u))
    (default (ProductDoc.brand d) (upd_brand u))
    (ProductDoc.created_at d).

(** [update_data] is encoded when [update_one] is called, before the
    store looks for the document; its one int is [stock], when given. The
    document returned is the one [find_one] gives after the write. *)
Definition update_product (product_id : string) (product : ProductUpdate)
    (docs : list ProductDoc.t) : outcome ProductDoc.t * list ProductDoc.t :=
  if no_fields product
  then (Raised (HTTPException 400 "No fields to update"), docs)
  else
    match from_option encode_int (Returned tt) (upd_stock product) with
    | Raised e => (Raised e, docs)
    | Returned _ =>
        match find_one (doc_with_id product_id) docs with
        | None => (Raised (HTTPException 404 "Product not found"), docs)
        | Some _ =>
            let docs' :=
              update_one (doc_with_id product_id) (apply_update product) docs in
            match find_one (doc_with_id product_id) docs' with
            | Some updated => (Returned updated, docs')
            | None => (Raised (HTTPException 404 "Product not found"), docs')
            end
        end
    end.

Definition delete_product (product_id : string) (docs : list ProductDoc.t)
  : outcome string * list ProductDoc.t :=
  match find_one (doc_with_id product_id) docs with
  | None => (Raised (HTTPException 404 "Product not found"), docs)
  | Some _ => (Returned "Product deleted", delete_one (doc_with_id product_id) docs)
  end.

(** The store as the other routes see it, given the product documents. *)
Definition with_catalog (docs : list ProductDoc.t) (db : DB) : DB :=
  mkDB (users db) (ProductDoc.product <$> docs) (carts db)
    (payment_transactions db) (orders db).

(** The payload of an update that gives no field. *)
Definition no_update : ProductUpdate :=
  mkProductUpdate None None None None None None None None None None.

(** [d'] is [d] with each field the payload [u] gives replaced by the
    given value, and every other field, [id] and [created_at] among them,
    as it was. *)
Definition merged (u : ProductUpdate) (d d' : ProductDoc.t) : Prop :=
  let p := ProductDoc.product d in
  let p' := ProductDoc.product d' in
  Product.id p' = Product.id p
  ∧ ProductDoc.created_at d' = ProductDoc.created_at d
  ∧ Product.name p' = default (Product.name p) (upd_name u)
  ∧ ProductDoc.description d' = default (ProductDoc.description d) (upd_description u)
  ∧ Product.price p' = default (Product.price p) (upd_price u)
  ∧ Product.category p' = default (Product.category p) (upd_category u)
  ∧ ProductDoc.images d' = default (ProductDoc.images d) (upd_images u)
  ∧ ProductDoc.sizes d' = default (ProductDoc.sizes d) (upd_sizes u)
  ∧ ProductDoc.colors d'
    = match upd_colors u with
      | Some s => ProductDoc.ColorString s
      | None => ProductDoc.colors d
      end
  ∧ ProductDoc.brand d' = default (ProductDoc.brand d) (upd_brand u)
  ∧ Product.stock p' = default (Product.stock p) (upd_stock u)
  ∧ Product.featured p' = default (Product.featured p) (upd_featured u).

(** ** Seeding

    [seed_data] reads and writes [db.products] and [db.users]. [uuid4 k]
    and [now k] are the values of the [k]-th call of [uuid.uuid4()] and of
    [datetime.now()] in the request. *)

Definition demo_products (uuid4 now : nat -> string) : list ProductDoc.t :=
  [
    ProductDoc.mk
      (Product.mk (uuid4 0%nat) "Classic Oxford" 485%float "men" 50 true)
      "Timeless elegance meets unparalleled comfort. Handcrafted from premium Italian leather with Goodyear welt construction."
      ["https://images.unsplash.com/photo-1614252369475-531eba835eb1?w=800"; "https://images.unsplash.com/photo-1587521503498-24ac2bab8f72?w=800"]
      ["7"; "8"; "9"; "10"; "11"; "12"]
      (ProductDoc.ColorList ["Black"; "Cognac"; "Burgundy"])
      "Maison Luxe" (now 0%nat);
    ProductDoc.mk
      (Product.mk (uuid4 1%nat) "Stiletto Elegance" 595%float "women" 35 true)
      "A masterpiece of design. These stunning heels feature genuine Nappa leather and a hand-polished finish."
      ["https://images.unsplash.com/photo-1543163521-1bf539c55dd2?w=800"; "https://images.unsplash.com/photo-1515347619252-60a4bf4fff4f?w=800"]
      ["5"; "6"; "7"; "8"; "9"]
      (ProductDoc.ColorList ["Noir"; "Crimson"; "Nude"])
      "Valentina" (now 1%nat);
    ProductDoc.mk
      (Product.mk (uuid4 2%nat) "Monaco Loafer" 425%float "men" 45 true)
      "Effortless sophistication. Slip-on luxury crafted from supple suede with leather-wrapped soles."
      ["https://images.unsplash.com/photo-1626379953822-baec19c3accd?w=800"; "https://images.unsplash.com/photo-1533867617858-e7b97e060509?w=800"]
      ["7"; "8"; "9"; "10"; "11"; "12"]
      (ProductDoc.ColorList ["Navy"; "Tan"; "Charcoal"])
      "Maison Luxe" (now 2%nat);
    ProductDoc.mk
      (Product.mk (uuid4 3%nat) "Athena Sandal" 345%float "women" 40 false)
      "Goddess-worthy comfort. Braided leather straps meet a cushioned footbed for all-day elegance."
      ["https://images.unsplash.com/photo-1603808033192-082d6919d3e1?w=800"; "https://images.unsplash.com/photo-1562273138-f46be4ebdf33?w=800"]
      ["5"; "6"; "7"; "8"; "9"]
      (ProductDoc.ColorList ["Gold"; "Silver"; "Bronze"])
      "Valentina" (now 3%nat);
    ProductDoc.mk
      (Product.mk (uuid4 4%nat) "Junior Elite" 185%float "kids" 60 false)
      "Premium quality for young explorers. Durable yet stylish footwear designed for active kids."
      ["https://images.unsplash.com/photo-1555274175-75f79b09d5b8?w=800"; "https://images.unsplash.com/photo-1514989940723-e8e51d675571?w=800"]
      ["1"; "2"; "3"; "4"; "5"]
      (ProductDoc.ColorList ["White"; "Navy"; "Red"])
      "Piccolo" (now 4%nat);
    ProductDoc.mk
      (Product.mk (uuid4 5%nat) "Velocity Pro" 275%float "sports" 75 true)
      "Engineered for excellence. Advanced cushioning technology meets aerodynamic design."
      ["https://images.unsplash.com/photo-1542291026-7eec264c27ff?w=800"; "https://images.unsplash.com/photo-1608231387042-66d1773070a5?w=800"]
      ["7"; "8"; "9"; "10"; "11"; "12"]
      (ProductDoc.ColorList ["Black/Gold"; "White/Silver"; "Navy/Red"])
      "Athletica" (now 5%nat);
    ProductDoc.mk
      (Product.mk (uuid4 6%nat) "Chelsea Boot" 545%float "men" 30 true)
      "The epitome of British craftsmanship. Full-grain leather with elastic side panels."
      ["https://images.unsplash.com/photo-1638247025967-b4e38f787b76?w=800"; "https://images.unsplash.com/photo-1605812860427-4024433a70fd?w=800"]
      ["7"; "8"; "9"; "10"; "11"; "12"]
      (ProductDoc.ColorList ["Black"; "Brown"; "Suede Tan"])
      "Maison Luxe" (now 6%nat);
    ProductDoc.mk
      (Product.mk (uuid4 7%nat) "Ballet Flat" 365%float "women" 55 false)
      "Parisian chic at its finest. Quilted leather with signature bow detail."
      ["https://images.unsplash.com/photo-1566150905458-1bf1fc113f0d?w=800"; "https://images.unsplash.com/photo-1595950653106-6c9ebd614d3a?w=800"]
      ["5"; "6"; "7"; "8"; "9"]
      (ProductDoc.ColorList ["Blush"; "Black"; "Cream"])
      "Valentina" (now 7%nat)
  ].

Definition seed_data `{B : Bcrypt.Bcrypt} (uuid4 now : nat -> string) (salt : string)
    (accounts : list Account.t) (docs : list ProductDoc.t)
  : string * (list Account.t * list ProductDoc.t) :=
  if 0 <? count_documents docs
  then ("Data already seeded", (accounts, docs))
  else
    let docs' := docs ++ demo_products uuid4 now in
    let accounts' :=
      match find_one (account_with_email "admin@shoehaven.com") accounts with
      | Some _ => accounts
      | None =>
          insert_one
            (Account.mk
               (User.mk (uuid4 8%nat) "admin@shoehaven.com" "Admin" "admin" (now 8%nat))
               (hash_password "admin123" salt))
            accounts
      end in
    ("Data seeded successfully", (accounts', docs')).

(** ** The test script's tally ([backend_test.py])

    [log_test] is the only method that writes the counters; the [print]
    calls are left out. *)

Record TestResult : Type := mkTestResult {
  result_name : string;
  result_success : bool;
  result_details : string;
  result_error : string
}.

Record Tester : Type := mkTester {
  tests_run : Z;
  tests_passed : Z;
  test_results : list TestResult
}.

(** The counters of [__init__]. *)
Definition new_tester : Tester := mkTester 0 0 [].

Definition log_test (name : string) (success : bool) (details error : string)
    (t : Tester) : Tester :=
  mkTester (tests_run t + 1)
    (if success then tests_passed t + 1 else tests_passed t)
    (test_results t ++ [mkTestResult name success details error]).

(** What [run_all_tests] returns: [self.tests_passed == self.tests_run]. *)
Definition all_passed (t : Tester) : bool := tests_passed t =? tests_run t.

(** The tally after a run of [log_test] calls, given by what each call
    logged. *)
Definition logged (calls : list TestResult) : Tester :=
  foldl (fun t r =>
           log_test (result_name r) (result_success r) (result_details r)
             (result_error r) t)
        new_tester calls.

(** ** Sample data for the further routes *)

Module Demo.
(** A token is ["jwt." ++ user_id]; ["jwt.old"] has expired, and
    ["jwt.anonymous"] verifies and names no user. *)
Definition tokens : Jwt.JWT := {|
  Jwt.encode := fun payload => "jwt." +:+ default "anonymous" (Jwt.user_id payload);
  Jwt.decode := fun token =>
    if bool_decide (token = "jwt.old") then Jwt.ExpiredSignatureError
    else if bool_decide (token = "jwt.anonymous")
    then Jwt.Decoded (Jwt.mkPayload None None None (Some 0%float))
    else if String.prefix "jwt." token
    then Jwt.Decoded (Jwt.mkPayload
                        (Some (String.substring 4 (String.length token) token))
                        (Some "") (Some "admin") (Some 0%float))
    else Jwt.InvalidTokenError
|}.

(** A hash that can be checked: the salt, a ["$"], the password. *)
Definition hashes : Bcrypt.Bcrypt := {|
  Bcrypt.hashpw := fun password salt => salt +:+ "$" +:+ password;
  Bcrypt.checkpw := fun password hashed =>
    bool_decide (String.substring (String.length hashed - String.length password)
                   (String.length password) hashed = password)
|}.

Definition carol : UserCreate := mkUserCreate "carol@example.com" "s3cret" "Carol".

Definition order_of (user_id created_at : string) : Order.t :=
  Order.mk ("o-" +:+ created_at) user_id [Sample.line 1] 485%float "confirmed" "cs"
    created_at.

Definition oxford_doc : ProductDoc.t :=
  ProductDoc.mk Sample.oxford "Timeless." ["https://img.example/oxford"]
    ["8"; "9"] (ProductDoc.ColorList ["Black"]) "Maison Luxe"
    "2024-01-01T00:00:00+00:00".

Definition derby_doc : ProductDoc.t :=
  ProductDoc.mk (Product.mk "p-derby" "Derby" 395%float "men" 20 false)
    "Plain." ["https://img.example/derby"]
    ["8"; "9"] (ProductDoc.ColorList ["Brown"]) "Maison Luxe"
    "2024-01-02T00:00:00+00:00".

Definition ids (k : nat) : string :=
  match k with
  | 0 => "id-0" | 1 => "id-1" | 2 => "id-2" | 3 => "id-3" | 4 => "id-4"
  | 5 => "id-5" | 6 => "id-6" | 7 => "id-7" | _ => "id-8"
  end%nat.

Definition clock (k : nat) : string := "2024-03-01T09:00:00+00:00".
End Demo.

(** Unfolds the monad down to the store it threads. *)
Ltac run :=
  repeat (unfold mbind, handler_bind, mret, handler_ret, read, write, call,
          raise, pass; simpl).

(** * Properties *)

(** ** Python arithmetic on sample values *)

Example float_of_int_small : float_of_int 3 = Returned 3%float.
Proof. by vm_compute. Qed.

Example float_of_int_ties_to_even :
  float_of_int (2 ^ 53 + 1) = Returned 9007199254740992%float.
Proof. by vm_compute. Qed.

Example float_of_int_too_large : float_of_int (2 ^ 1024) = Raised OverflowError.
Proof. by vm_compute. Qed.

Example int_truediv_minor_units : int_truediv 48500 100 = Returned 485%float.
Proof. by vm_compute. Qed.

Example int_truediv_rounds : int_truediv 1 3 = Returned (PrimFloat.div 1 3).
Proof. by vm_compute. Qed.

Example int_truediv_ties_to_even :
  int_truediv (2 ^ 54 + 2) 4 = Returned 4503599627370496%float
  ∧ int_truediv (2 ^ 54 + 6) 4 = Returned 4503599627370498%float.
Proof. split; by vm_compute. Qed.

(** The operands need not fit a float, only the quotient. *)
Example int_truediv_large_operands : int_truediv (10 ^ 400) (10 ^ 399) = Returned 10%float.
Proof. by vm_compute. Qed.

Example int_truediv_too_large : int_truediv (2 ^ 1100) 100 = Raised OverflowError.
Proof. by vm_compute. Qed.

Example int_truediv_by_zero : int_truediv 48500 0 = Raised ZeroDivisionError.
Proof. by vm_compute. Qed.

(** ** The store operations *)

Section CollectionFacts.
Context {A : Type}.
Implicit Types (filter : A -> bool) (set : A -> A) (coll : list A).

Lemma update_one_no_match filter set coll :
  find_one filter coll = None -> update_one filter set coll = coll.
Proof.
  unfold find_one. induction coll as [|x rest IH]; simpl; [done|].
  destruct (filter x); [done|]. intros H. by rewrite IH.
Qed.

(** After [update_one] with a [$set] that does not touch the filtered
    field, [find_one] returns the rewritten document. *)
Lemma find_one_update_one filter set coll x :
  find_one filter coll = Some x ->
  filter (set x) = true ->
  find_one filter (update_one filter set coll) = Some (set x).
Proof.
  unfold find_one. intros Hfind Hset.
  induction coll as [|y rest IH]; simpl in *; [done|].
  destruct (filter y) eqn:Hy; simpl.
  - injection Hfind as ->. by rewrite Hset.
  - rewrite Hy. by apply IH.
Qed.

Lemma find_one_update_one_none filter set coll :
  find_one filter coll = None ->
  find_one filter (update_one filter set coll) = None.
Proof. intros H. by rewrite update_one_no_match. Qed.

Lemma find_one_Some filter coll x :
  find_one filter coll = Some x -> x ∈ coll ∧ filter x = true.
Proof.
  unfold find_one. intros H. apply find_some in H as [Hin Hf].
  split; [by apply list_elem_of_In|done].
Qed.

Lemma find_one_insert_one_new filter coll doc :
  find_one filter coll = None ->
  filter doc = true ->
  find_one filter (insert_one doc coll) = Some doc.
Proof.
  unfold find_one, insert_one. intros Hnone Hdoc.
  induction coll as [|y rest IH]; simpl in *.
  - by rewrite Hdoc.
  - destruct (filter y); [done|]. by apply IH.
Qed.

Lemma update_one_Forall (P : A -> Prop) filter set coll :
  Forall P coll ->
  (forall x, x ∈ coll -> filter x = true -> P (set x)) ->
  Forall P (update_one filter set coll).
Proof.
  induction 1 as [|x rest Hx Hrest IH]; intros Hset; simpl; [constructor|].
  destruct (filter x) eqn:Hf.
  - constructor; [|done]. apply Hset; [left|done].
  - constructor; [done|]. apply IH. intros y Hy. apply Hset. by right.
Qed.

End CollectionFacts.

(** ** Cart lines *)

Lemma same_line_key item x : same_line item x <-> CartItem.key x = CartItem.key item.
Proof.
  unfold same_line, CartItem.key. split.
  - by intros (-> & -> & ->).
  - intros H. by injection H.
Qed.

Lemma keys_alter_quantity (f : CartItem.t -> Z) i (items : list CartItem.t) :
  CartItem.key <$> alter (fun x => CartItem.set_quantity (f x) x) i items
  = CartItem.key <$> items.
Proof.
  rewrite (list_fmap_alter CartItem.key _ id).
  - by apply list_alter_id.
  - by apply Forall_forall.
Qed.

Lemma existing_index_None item items :
  existing_index item items = None <-> CartItem.key item ∉ CartItem.key <$> items.
Proof.
  unfold existing_index. rewrite fmap_None, list_find_None, Forall_forall.
  split.
  - intros H (x & Hk & Hx)%list_elem_of_fmap.
    apply (H x Hx). by apply same_line_key.
  - intros H x Hx Hsame. apply H. apply list_elem_of_fmap.
    exists x. split; [|done]. symmetry. by apply same_line_key.
Qed.

(** With distinct lines, the line with the triple of [item] is the one
    [existing_index] finds. *)
Lemma existing_index_unique item items i x :
  distinct_lines items ->
  items !! i = Some x -> same_line item x ->
  existing_index item items = Some i.
Proof.
  unfold distinct_lines, existing_index. intros Hnd Hi Hsame.
  destruct (list_find (same_line item) items) as [[j y]|] eqn:Hfind; simpl.
  - apply list_find_Some in Hfind as (Hj & Hy & _).
    f_equal. eapply NoDup_lookup; [exact Hnd| |].
    + rewrite list_lookup_fmap, Hj. reflexivity.
    + rewrite list_lookup_fmap, Hi. simpl. f_equal.
      apply same_line_key in Hsame, Hy. congruence.
  - apply list_find_None in Hfind. rewrite Forall_forall in Hfind.
    destruct (Hfind x); [|done]. by eapply list_elem_of_lookup_2.
Qed.

Lemma add_item_distinct item items :
  distinct_lines items -> distinct_lines (add_item item items).
Proof.
  unfold distinct_lines, add_item. intros Hnd.
  destruct (existing_index item items) as [i|] eqn:Hidx.
  - by rewrite keys_alter_quantity.
  - apply existing_index_None in Hidx.
    rewrite fmap_app. apply NoDup_app. split_and!; [done| |].
    + intros k Hk Hin. apply list_elem_of_singleton in Hin. by subst.
    + apply NoDup_singleton.
Qed.

Lemma update_item_distinct item items :
  distinct_lines items -> distinct_lines (update_item item items).
Proof.
  unfold distinct_lines, update_item. intros Hnd.
  destruct (list_find (same_line item) items) as [[i x]|]; [|done].
  destruct (CartItem.quantity item <=? 0).
  - rewrite list_fmap_delete. eapply sublist_NoDup; [exact Hnd|].
    apply sublist_delete.
  - by rewrite (keys_alter_quantity (fun _ => CartItem.quantity item)).
Qed.

(** An add on a triple that is already in the cart rewrites that line and
    appends nothing. *)
Lemma add_item_existing item items i x :
  distinct_lines items ->
  items !! i = Some x -> same_line item x ->
  add_item item items
  = <[i := CartItem.set_quantity (CartItem.quantity x + CartItem.quantity item) x]> items.
Proof.
  intros Hnd Hi Hsame. unfold add_item.
  rewrite (existing_index_unique item items i x) by done.
  revert i Hi. clear. induction items as [|y rest IH]; intros [|i] Hi; simplify_eq/=; [done|].
  f_equal. by apply IH.
Qed.

Lemma add_item_new item items :
  existing_index item items = None -> add_item item items = items ++ [item].
Proof. unfold add_item. by intros ->. Qed.

(** Two adds of the same triple to a cart that does not hold it leave one
    line with the two quantities added up. *)
Lemma add_item_twice p s c q1 q2 items :
  existing_index (CartItem.mk p q1 s c) items = None ->
  add_item (CartItem.mk p q2 s c) (add_item (CartItem.mk p q1 s c) items)
  = items ++ [CartItem.mk p (q1 + q2) s c].
Proof.
  intros Hnone. rewrite (add_item_new (CartItem.mk p q1 s c) items) by done.
  unfold add_item, existing_index.
  assert (list_find (same_line (CartItem.mk p q2 s c)) (items ++ [CartItem.mk p q1 s c])
          = Some (length items, CartItem.mk p q1 s c)) as ->.
  { apply list_find_Some. split_and!.
    - by rewrite lookup_app_r, Nat.sub_diag.
    - done.
    - intros j y Hj Hlt Hsame. rewrite lookup_app_l in Hj by done.
      apply existing_index_None in Hnone. apply Hnone.
      apply list_elem_of_fmap. exists y. split.
      + apply same_line_key in Hsame. by rewrite Hsame.
      + by eapply list_elem_of_lookup_2. }
  simpl. rewrite alter_app_r_alt, Nat.sub_diag by done. done.
Qed.

(** ** What the cart routes leave in the store *)

Lemma cart_of_set_items_updated_at uid items now cart :
  cart_of uid (Cart.set_items_updated_at items now cart) = cart_of uid cart.
Proof. done. Qed.

Lemma cart_of_set_items uid items cart :
  cart_of uid (Cart.set_items items cart) = cart_of uid cart.
Proof. done. Qed.

Lemma cart_of_new uid new_id items now :
  cart_of uid (Cart.mk new_id uid items now) = true.
Proof. unfold cart_of. simpl. by apply bool_decide_eq_true. Qed.

(** *** What the driver encodes *)

Lemma int64_fits n : int64 n = true <-> fits_int64 n.
Proof.
  unfold int64, fits_int64. rewrite Bool.andb_true_iff, Z.leb_le, Z.ltb_lt. done.
Qed.

Lemma encode_int_spec n :
  (fits_int64 n ∧ encode_int n = Returned tt)
  ∨ (¬ fits_int64 n ∧ encode_int n = Raised OverflowError).
Proof.
  unfold encode_int. destruct (int64 n) eqn:Hn.
  - left. split; [by apply int64_fits|done].
  - right. split; [|done]. intros H%int64_fits. congruence.
Qed.

Lemma encode_items_spec items :
  (encodable items ∧ encode_items items = Returned tt)
  ∨ (¬ encodable items ∧ encode_items items = Raised OverflowError).
Proof.
  unfold encode_items, encodable.
  induction items as [|x rest IH]; simpl.
  - left. split; [constructor|done].
  - destruct (int64 (CartItem.quantity x)) eqn:Hx; simpl.
    + apply int64_fits in Hx. destruct IH as [[Hrest Heq]|[Hrest Heq]].
      * left. split; [by constructor|done].
      * right. split; [|done]. intros H. apply Hrest. by inversion H.
    + right. split; [|done]. intros H. inversion H as [|? ? Hq _]; subst.
      apply int64_fits in Hq. congruence.
Qed.

Lemma encode_items_ok items : encodable items -> encode_items items = Returned tt.
Proof. intros H. by destruct (encode_items_spec items) as [[_ ?]|[? _]]. Qed.

Lemma encode_items_overflow items :
  ¬ encodable items -> encode_items items = Raised OverflowError.
Proof. intros H. by destruct (encode_items_spec items) as [[? _]|[_ ?]]. Qed.

Lemma encodable_forallb items :
  forallb (fun x => int64 (CartItem.quantity x)) items = true -> encodable items.
Proof.
  intros H. destruct (encode_items_spec items) as [[? _]|[_ Heq]]; [done|].
  unfold encode_items in Heq. by rewrite H in Heq.
Qed.

Lemma encodable_app items1 items2 :
  encodable (items1 ++ items2) <-> encodable items1 ∧ encodable items2.
Proof. unfold encodable. apply Forall_app. Qed.

Lemma encodable_singleton x : encodable [x] <-> fits_int64 (CartItem.quantity x).
Proof. unfold encodable. by rewrite Forall_singleton. Qed.

(** *** The two cart writes *)

Lemma add_to_cart_found new_id now_created now item user db cart :
  find_one (cart_of (User.id user)) (carts db) = Some cart ->
  add_to_cart new_id now_created now item user db
  = match encode_items (add_item item (Cart.items cart)) with
    | Returned _ =>
        (Returned "Item added to cart",
         set_carts (update_one (cart_of (User.id user))
                      (Cart.set_items_updated_at (add_item item (Cart.items cart)) now)
                      (carts db)) db)
    | Raised e => (Raised e, db)
    end.
Proof.
  intros H. unfold add_to_cart. run. rewrite H. simpl.
  by destruct (encode_items (add_item item (Cart.items cart))).
Qed.

Lemma add_to_cart_created new_id now_created now item user db :
  find_one (cart_of (User.id user)) (carts db) = None ->
  add_to_cart new_id now_created now item user db
  = match encode_items [item] with
    | Returned _ =>
        (Returned "Item added to cart",
         set_carts (insert_one (Cart.mk new_id (User.id user) [item] now) (carts db)) db)
    | Raised e =>
        (Raised e,
         set_carts (insert_one (Cart.mk new_id (User.id user) [] now_created) (carts db))
           db)
    end.
Proof.
  intros H. unfold add_to_cart. run. rewrite H. simpl.
  change (add_item item []) with [item].
  destruct (encode_items [item]); [|done].
  unfold set_carts. simpl. do 2 f_equal.
  unfold insert_one. clear -H. unfold find_one in H.
  induction (carts db) as [|y rest IH]; simpl in *.
  - by rewrite cart_of_new.
  - destruct (cart_of (User.id user) y); [done|]. f_equal. by apply IH.
Qed.

(** An add whose written list the store can hold: the cart the user's next
    request finds holds that list. *)
Lemma add_to_cart_ok new_id now_created now item user db :
  encodable (add_item item (items_of (User.id user) db)) ->
  (add_to_cart new_id now_created now item user db).1 = Returned "Item added to cart"
  ∧ items_of (User.id user) (add_to_cart new_id now_created now item user db).2
    = add_item item (items_of (User.id user) db).
Proof.
  unfold items_of.
  destruct (find_one (cart_of (User.id user)) (carts db)) as [cart|] eqn:Hfind;
    intros Hfits.
  - rewrite (add_to_cart_found _ _ _ _ _ _ cart) by done.
    rewrite encode_items_ok by done. simpl. split; [done|].
    rewrite (find_one_update_one _ _ _ cart); [done|done|].
    rewrite cart_of_set_items_updated_at. by apply find_one_Some in Hfind as [_ ?].
  - rewrite add_to_cart_created by done.
    change (add_item item []) with [item] in Hfits.
    rewrite encode_items_ok by done. simpl. split; [done|].
    rewrite find_one_insert_one_new; [done|done|apply cart_of_new].
Qed.

(** An add whose written list the store cannot hold: [OverflowError], and
    the user's lines stay as they were. A cart that was there is not
    written; a user without a cart is left with the empty one. *)
Lemma add_to_cart_overflow new_id now_created now item user db :
  ¬ encodable (add_item item (items_of (User.id user) db)) ->
  (add_to_cart new_id now_created now item user db).1 = Raised OverflowError
  ∧ items_of (User.id user) (add_to_cart new_id now_created now item user db).2
    = items_of (User.id user) db
  ∧ (is_Some (find_one (cart_of (User.id user)) (carts db)) ->
     (add_to_cart new_id now_created now item user db).2 = db).
Proof.
  unfold items_of.
  destruct (find_one (cart_of (User.id user)) (carts db)) as [cart|] eqn:Hfind;
    intros Hover.
  - rewrite (add_to_cart_found _ _ _ _ _ _ cart) by done.
    rewrite encode_items_overflow by done. simpl. by rewrite Hfind.
  - rewrite add_to_cart_created by done.
    change (add_item item []) with [item] in Hover.
    rewrite encode_items_overflow by done. simpl. split_and!; [done| |by intros []].
    rewrite find_one_insert_one_new; [done|done|apply cart_of_new].
Qed.

Lemma update_cart_item_found now item user db cart :
  find_one (cart_of (User.id user)) (carts db) = Some cart ->
  update_cart_item now item user db
  = match encode_items (update_item item (Cart.items cart)) with
    | Returned _ =>
        (Returned "Cart updated",
         set_carts (update_one (cart_of (User.id user))
                      (Cart.set_items_updated_at (update_item item (Cart.items cart)) now)
                      (carts db)) db)
    | Raised e => (Raised e, db)
    end.
Proof.
  intros H. unfold update_cart_item. run. rewrite H. simpl.
  by destruct (encode_items (update_item item (Cart.items cart))).
Qed.

Lemma update_cart_item_no_cart now item user db :
  find_one (cart_of (User.id user)) (carts db) = None ->
  update_cart_item now item user db = (Raised (HTTPException 404 "Cart not found"), db).
Proof. intros H. unfold update_cart_item. run. by rewrite H. Qed.

Lemma cart_inv_found db uid cart :
  cart_inv db -> find_one (cart_of uid) (carts db) = Some cart ->
  distinct_lines (Cart.items cart).
Proof.
  unfold cart_inv. rewrite Forall_forall. intros Hinv Hfind.
  apply Hinv. by apply find_one_Some in Hfind as [? _].
Qed.

Lemma cart_inv_update_one db uid items now :
  cart_inv db -> distinct_lines items ->
  cart_inv (set_carts (update_one (cart_of uid)
                         (Cart.set_items_updated_at items now) (carts db)) db).
Proof.
  unfold cart_inv. simpl. intros Hinv Hitems.
  apply update_one_Forall; [done|]. by intros.
Qed.

Lemma distinct_lines_nil : distinct_lines [].
Proof. apply NoDup_nil_2. Qed.

Lemma cart_inv_insert_one db cart :
  cart_inv db -> distinct_lines (Cart.items cart) ->
  cart_inv (set_carts (insert_one cart (carts db)) db).
Proof.
  unfold cart_inv, insert_one. simpl. intros Hinv Hcart.
  apply Forall_app. split; [done|]. by constructor.
Qed.

Lemma add_to_cart_inv new_id now_created now item user db :
  cart_inv db -> cart_inv (add_to_cart new_id now_created now item user db).2.
Proof.
  intros Hinv.
  destruct (find_one (cart_of (User.id user)) (carts db)) as [cart|] eqn:Hfind.
  - rewrite (add_to_cart_found _ _ _ _ _ _ cart) by done.
    destruct (encode_items (add_item item (Cart.items cart))); [|done]. simpl.
    apply cart_inv_update_one; [done|].
    apply add_item_distinct. by eapply cart_inv_found.
  - rewrite add_to_cart_created by done.
    destruct (encode_items [item]); simpl; (apply cart_inv_insert_one; [done|]); simpl.
    + apply (add_item_distinct item []), distinct_lines_nil.
    + apply distinct_lines_nil.
Qed.

Lemma update_cart_item_inv now item user db :
  cart_inv db -> cart_inv (update_cart_item now item user db).2.
Proof.
  intros Hinv.
  destruct (find_one (cart_of (User.id user)) (carts db)) as [cart|] eqn:Hfind.
  - rewrite (update_cart_item_found _ _ _ _ cart) by done.
    destruct (encode_items (update_item item (Cart.items cart))); [|done]. simpl.
    apply cart_inv_update_one; [done|].
    apply update_item_distinct. by eapply cart_inv_found.
  - by rewrite update_cart_item_no_cart.
Qed.

Lemma clear_cart_inv now user db :
  cart_inv db -> cart_inv (clear_cart now user db).2.
Proof.
  intros Hinv. unfold clear_cart. run.
  apply (cart_inv_update_one db); [done|apply distinct_lines_nil].
Qed.

Lemma get_cart_inv new_id now user db :
  cart_inv db -> cart_inv (get_cart new_id now user db).2.
Proof.
  intros Hinv. unfold get_cart. run.
  destruct (find_one (cart_of (User.id user)) (carts db)); simpl; [done|].
  apply cart_inv_insert_one; [done|apply distinct_lines_nil].
Qed.

Lemma items_of_distinct uid db : cart_inv db -> distinct_lines (items_of uid db).
Proof.
  intros Hinv. unfold items_of.
  destruct (find_one (cart_of uid) (carts db)) eqn:Hfind.
  - by eapply cart_inv_found.
  - apply distinct_lines_nil.
Qed.

(** ** C5: one line per triple *)

(** C5 (as stated) fails on its increment: alice's cart holds one line of
    9223372036854775807 pairs, the largest quantity the store can hold; an
    add of one more pair of the same triple makes the driver raise
    [OverflowError], and the line keeps its quantity. *)
Lemma add_past_int64_keeps_quantity : ¬ add_increments_existing_line.
Proof.
  intros Hincr.
  specialize (Hincr "c-2" "2024-02-01T12:00:00+00:00" "2024-02-01T12:00:00+00:00"
                (Sample.line 1) Sample.alice
                (mkDB [] [Sample.oxford]
                   [Sample.cart_of_alice [Sample.line 9223372036854775807]] [] [])
                0%nat (Sample.line 9223372036854775807)).
  assert (cart_inv (mkDB [] [Sample.oxford]
                      [Sample.cart_of_alice [Sample.line 9223372036854775807]] [] []))
    as Hinv.
  { repeat constructor. apply not_elem_of_nil. }
  specialize (Hincr Hinv eq_refl).
  assert (same_line (Sample.line 1) (Sample.line 9223372036854775807)) as Hsame
    by done.
  specialize (Hincr Hsame). vm_compute in Hincr. discriminate Hincr.
Qed.

(** C5 (amended). Every cart operation keeps at most one line per
    (product_id, size, color) triple in every cart: [get_cart],
    [add_to_cart], [update_cart_item] and [clear_cart] preserve [cart_inv],
    also when they fail. An add on a triple the cart already holds appends
    nothing: when every quantity of the list it writes fits in a 64-bit
    integer it succeeds and rewrites that line with its quantity increased
    by the requested amount; otherwise it raises [OverflowError] and leaves
    the store as it was. Two adds of a triple the cart did not hold, each
    writing quantities that fit, succeed and leave one line with the sum
    of the two quantities. *)
Theorem cart_lines_stay_distinct (db : DB) (Hinv : cart_inv db) :
  (forall new_id now user, cart_inv (get_cart new_id now user db).2)
  ∧ (forall new_id now_created now item user,
       cart_inv (add_to_cart new_id now_created now item user db).2)
  ∧ (forall now item user, cart_inv (update_cart_item now item user db).2)
  ∧ (forall now user, cart_inv (clear_cart now user db).2)
  ∧ (forall new_id now_created now item user i x,
       items_of (User.id user) db !! i = Some x -> same_line item x ->
       let items' :=
         <[i := CartItem.set_quantity (CartItem.quantity x + CartItem.quantity item) x]>
           (items_of (User.id user) db) in
       let result := add_to_cart new_id now_created now item user db in
       (encodable items' ->
        result.1 = Returned "Item added to cart"
        ∧ items_of (User.id user) result.2 = items')
       ∧ (¬ encodable items' -> result = (Raised OverflowError, db)))
  ∧ (forall id1 created1 now1 id2 created2 now2 p s c q1 q2 user,
       CartItem.key (CartItem.mk p q1 s c) ∉ CartItem.key <$> items_of (User.id user) db ->
       encodable (items_of (User.id user) db ++ [CartItem.mk p q1 s c]) ->
       encodable (items_of (User.id user) db ++ [CartItem.mk p (q1 + q2) s c]) ->
       let first := add_to_cart id1 created1 now1 (CartItem.mk p q1 s c) user db in
       let second := add_to_cart id2 created2 now2 (CartItem.mk p q2 s c) user first.2 in
       first.1 = Returned "Item added to cart"
       ∧ second.1 = Returned "Item added to cart"
       ∧ items_of (User.id user) second.2
         = items_of (User.id user) db ++ [CartItem.mk p (q1 + q2) s c]).
Proof.
  split_and!.
  - intros. by apply get_cart_inv.
  - intros. by apply add_to_cart_inv.
  - intros. by apply update_cart_item_inv.
  - intros. by apply clear_cart_inv.
  - intros new_id now_created now item user i x Hi Hsame items' result.
    assert (add_item item (items_of (User.id user) db) = items') as Hadd.
    { apply add_item_existing; [by apply items_of_distinct|done..]. }
    subst result. split.
    + intros Hfits. rewrite <- Hadd in Hfits |- *. by apply add_to_cart_ok.
    + intros Hover. rewrite <- Hadd in Hover.
      destruct (add_to_cart_overflow new_id now_created now item user db Hover)
        as (Hout & _ & Hsame_store).
      apply injective_projections; simpl; [done|].
      apply Hsame_store. unfold items_of in Hi.
      by destruct (find_one (cart_of (User.id user)) (carts db)).
  - intros id1 created1 now1 id2 created2 now2 p s c q1 q2 user Hnew Hfits1 Hfits2
      first second.
    assert (add_item (CartItem.mk p q1 s c) (items_of (User.id user) db)
            = items_of (User.id user) db ++ [CartItem.mk p q1 s c]) as Hadd1.
    { apply add_item_new. by apply existing_index_None. }
    destruct (add_to_cart_ok id1 created1 now1 (CartItem.mk p q1 s c) user db)
      as [Hout1 Hitems1]; [by rewrite Hadd1|].
    fold first in Hout1, Hitems1.
    assert (add_item (CartItem.mk p q2 s c) (items_of (User.id user) first.2)
            = items_of (User.id user) db ++ [CartItem.mk p (q1 + q2) s c]) as Hadd2.
    { rewrite Hitems1. apply add_item_twice. by apply existing_index_None. }
    destruct (add_to_cart_ok id2 created2 now2 (CartItem.mk p q2 s c) user first.2)
      as [Hout2 Hitems2]; [by rewrite Hadd2|].
    fold second in Hout2, Hitems2.
    split_and!; [done|done|]. by rewrite Hitems2, Hadd2.
Qed.

(** [add(qty=2)] then [add(qty=3)] of the same triple: the second add finds
    the line of the first and leaves one line with quantity 5. *)
Lemma cart_lines_stay_distinct_witness :
  cart_inv (add_to_cart "c-1" "t1" "t2" (Sample.line 2) Sample.alice Sample.fresh_store).2
  ∧ items_of "u-alice"
      (add_to_cart "c-2" "t3" "t4" (Sample.line 3) Sample.alice
         (add_to_cart "c-1" "t1" "t2" (Sample.line 2) Sample.alice
            Sample.fresh_store).2).2
    = [Sample.line 5].
Proof.
  assert (cart_inv (add_to_cart "c-1" "t1" "t2" (Sample.line 2) Sample.alice
                      Sample.fresh_store).2) as Hinv.
  { vm_compute. repeat constructor. apply not_elem_of_nil. }
  split; [exact Hinv|].
  destruct (cart_lines_stay_distinct _ Hinv) as (_ & _ & _ & _ & Hincr & _).
  apply (Hincr "c-2" "t3" "t4" (Sample.line 3) Sample.alice 0%nat (Sample.line 2));
    [reflexivity|by vm_compute|].
  apply encodable_forallb. reflexivity.
Defined.

(** ** C6: updating a line *)

Lemma update_item_no_match item items :
  existing_index item items = None -> update_item item items = items.
Proof.
  unfold existing_index, update_item. rewrite fmap_None. by intros ->.
Qed.

Lemma first_match_find item items i x :
  first_match item items i x <-> list_find (same_line item) items = Some (i, x).
Proof. unfold first_match. by rewrite list_find_Some. Qed.

Lemma update_item_remove item items i x :
  first_match item items i x -> CartItem.quantity item <= 0 ->
  update_item item items = delete i items.
Proof.
  intros Hfirst Hq. apply first_match_find in Hfirst.
  unfold update_item. rewrite Hfirst.
  by destruct (Z.leb_spec (CartItem.quantity item) 0); [|lia].
Qed.

Lemma update_item_set item items i x :
  first_match item items i x -> 0 < CartItem.quantity item ->
  update_item item items = <[i := CartItem.set_quantity (CartItem.quantity item) x]> items.
Proof.
  intros Hfirst Hq. pose proof Hfirst as (Hi & _ & _).
  apply first_match_find in Hfirst.
  unfold update_item. rewrite Hfirst.
  destruct (Z.leb_spec (CartItem.quantity item) 0); [lia|].
  clear -Hi. revert i Hi.
  induction items as [|y rest IH]; intros [|i] Hi; simplify_eq/=; [done|].
  f_equal. by apply IH.
Qed.

(** C6 (as stated) fails: alice's cart holds one Oxford line and was last
    written at 10:00; an update for a product she does not have, made at
    12:00, answers "Cart updated" and leaves [updated_at] at 12:00. *)
Lemma update_without_match_touches_cart : ¬ update_without_match_is_noop.
Proof.
  intros Hnoop.
  specialize (Hnoop "2024-02-01T12:00:00+00:00"
                (CartItem.mk "p-derby" 1 "9" "Black") Sample.alice
                (mkDB [] [Sample.oxford] [Sample.cart_of_alice [Sample.line 2]] [] [])
                (Sample.cart_of_alice [Sample.line 2]) eq_refl eq_refl).
  vm_compute in Hnoop. discriminate Hnoop.
Qed.

(** C6 (amended). [update_cart_item] raises 404 and writes nothing when the
    user has no cart. Otherwise the items it means to write are: the first
    line with the triple removed when the quantity is at most 0, that line
    with its quantity replaced by the given one when it is positive, and
    the items as they were when no line has the triple. When every
    quantity among them fits in a 64-bit integer it answers "Cart updated"
    and writes the user's cart back with these items and with [updated_at]
    set to the time of the request; otherwise it raises [OverflowError] and
    leaves the store as it was. *)
Theorem update_cart_item_sets_or_removes now item user db :
  (find_one (cart_of (User.id user)) (carts db) = None ->
   update_cart_item now item user db = (Raised (HTTPException 404 "Cart not found"), db))
  ∧ (forall cart,
       find_one (cart_of (User.id user)) (carts db) = Some cart ->
       exists items',
         (forall i x, first_match item (Cart.items cart) i x ->
            (CartItem.quantity item <= 0 -> items' = delete i (Cart.items cart))
            ∧ (0 < CartItem.quantity item ->
               items' = <[i := CartItem.set_quantity (CartItem.quantity item) x]>
                          (Cart.items cart)))
         ∧ (existing_index item (Cart.items cart) = None -> items' = Cart.items cart)
         ∧ (encodable items' ->
            update_cart_item now item user db
            = (Returned "Cart updated",
               set_carts (update_one (cart_of (User.id user))
                            (Cart.set_items_updated_at items' now) (carts db)) db)
            ∧ items_of (User.id user) (update_cart_item now item user db).2 = items')
         ∧ (¬ encodable items' ->
            update_cart_item now item user db = (Raised OverflowError, db))).
Proof.
  split; [apply update_cart_item_no_cart|].
  intros cart Hfind. exists (update_item item (Cart.items cart)).
  rewrite (update_cart_item_found _ _ _ _ cart) by done. split_and!.
  - intros i x Hfirst. split; intros Hq.
    + by eapply update_item_remove.
    + by eapply update_item_set.
  - apply update_item_no_match.
  - intros Hfits. rewrite encode_items_ok by done. split; [done|].
    unfold items_of. simpl.
    rewrite (find_one_update_one _ _ _ cart); [done|done|].
    rewrite cart_of_set_items_updated_at. by apply find_one_Some in Hfind as [_ ?].
  - intros Hover. by rewrite encode_items_overflow.
Qed.

(** [update(qty=0)] on the one line of alice's cart removes it. *)
Lemma update_cart_item_sets_or_removes_witness :
  items_of "u-alice"
    (update_cart_item "2024-02-01T12:00:00+00:00" (Sample.line 0) Sample.alice
       (mkDB [] [Sample.oxford] [Sample.cart_of_alice [Sample.line 2]] [] [])).2
  = [].
Proof.
  destruct (update_cart_item_sets_or_removes "2024-02-01T12:00:00+00:00"
              (Sample.line 0) Sample.alice
              (mkDB [] [Sample.oxford] [Sample.cart_of_alice [Sample.line 2]] [] []))
    as [_ Hfound].
  destruct (Hfound (Sample.cart_of_alice [Sample.line 2]) eq_refl)
    as (items' & Hmatch & _ & Hwritten & _).
  assert (items' = []) as ->.
  { apply (Hmatch 0%nat (Sample.line 2)).
    - split_and!; [reflexivity|by vm_compute|intros; lia].
    - simpl. lia. }
  apply Hwritten. constructor.
Defined.

(** ** C3 and C4: opening a checkout session *)

(** The total is made of catalog prices only: two catalogs that price the
    lines alike give the same total. *)
Lemma cart_total_ext catalog1 catalog2 items acc :
  Forall (fun item => current_price catalog1 item = current_price catalog2 item) items ->
  cart_total catalog1 items acc = cart_total catalog2 items acc.
Proof.
  intros Hsame. revert acc.
  induction Hsame as [|item rest Hitem _ IH]; intros acc; simpl; [done|].
  unfold current_price in Hitem.
  destruct (find_one (product_with_id (CartItem.product_id item)) catalog1) as [p1|],
           (find_one (product_with_id (CartItem.product_id item)) catalog2) as [p2|];
    simplify_eq/=; [|apply IH].
  rewrite Hitem.
  destruct (float_mul_int (Product.price p2) (CartItem.quantity item)); [apply IH|done].
Qed.

Section CreateSession.
Context `{SC : Stripe.StripeCheckout}.
Variables (new_id now origin_url : string) (user : User.t) (db : DB).

Lemma create_session_eq :
  create_checkout_session new_id now origin_url user db
  = match find_one (cart_of (User.id user)) (carts db) with
    | None => (Raised (HTTPException 400 "Cart is empty"), db)
    | Some cart =>
        match Cart.items cart with
        | [] => (Raised (HTTPException 400 "Cart is empty"), db)
        | _ :: _ =>
            match cart_total (products db) (Cart.items cart) 0%float with
            | Raised e => (Raised e, db)
            | Returned total =>
                if PrimFloat.leb total 0%float
                then (Raised (HTTPException 400 "Invalid cart total"), db)
                else
                  match Stripe.create_checkout_session
                          (checkout_request origin_url total user cart) with
                  | Returned session =>
                      (Returned (Stripe.url session, Stripe.session_id session),
                       set_payment_transactions
                         (insert_one (recorded_transaction new_id now user cart total session)
                            (payment_transactions db)) db)
                  | Raised e => (Raised e, db)
                  end
            end
        end
    end.
Proof.
  unfold create_checkout_session. run.
  destruct (find_one (cart_of (User.id user)) (carts db)) as [cart|]; [|done].
  destruct (Cart.items cart) as [|item rest]; [done|].
  unfold mbind, handler_bind, call.
  destruct (cart_total (products db) (item :: rest) 0%float) as [total|e]; [|done].
  destruct (PrimFloat.leb total 0%float); [done|].
  by destruct (Stripe.create_checkout_session _).
Qed.

Lemma create_session_no_cart :
  find_one (cart_of (User.id user)) (carts db) = None ->
  create_checkout_session new_id now origin_url user db
  = (Raised (HTTPException 400 "Cart is empty"), db).
Proof. intros H. by rewrite create_session_eq, H. Qed.

Lemma create_session_no_items cart :
  find_one (cart_of (User.id user)) (carts db) = Some cart ->
  Cart.items cart = [] ->
  create_checkout_session new_id now origin_url user db
  = (Raised (HTTPException 400 "Cart is empty"), db).
Proof. intros H Hitems. by rewrite create_session_eq, H, Hitems. Qed.

Lemma create_session_total_raises cart e :
  find_one (cart_of (User.id user)) (carts db) = Some cart ->
  Cart.items cart ≠ [] ->
  cart_total (products db) (Cart.items cart) 0%float = Raised e ->
  create_checkout_session new_id now origin_url user db = (Raised e, db).
Proof.
  intros H Hitems Htotal. rewrite create_session_eq, H.
  destruct (Cart.items cart); [done|]. by rewrite Htotal.
Qed.

Lemma create_session_invalid_total cart total :
  find_one (cart_of (User.id user)) (carts db) = Some cart ->
  Cart.items cart ≠ [] ->
  cart_total (products db) (Cart.items cart) 0%float = Returned total ->
  PrimFloat.leb total 0%float = true ->
  create_checkout_session new_id now origin_url user db
  = (Raised (HTTPException 400 "Invalid cart total"), db).
Proof.
  intros H Hitems Htotal Hle. rewrite create_session_eq, H.
  destruct (Cart.items cart); [done|]. by rewrite Htotal, Hle.
Qed.

Lemma create_session_provider cart total :
  find_one (cart_of (User.id user)) (carts db) = Some cart ->
  Cart.items cart ≠ [] ->
  cart_total (products db) (Cart.items cart) 0%float = Returned total ->
  PrimFloat.leb total 0%float = false ->
  create_checkout_session new_id now origin_url user db
  = match Stripe.create_checkout_session (checkout_request origin_url total user cart) with
    | Returned session =>
        (Returned (Stripe.url session, Stripe.session_id session),
         set_payment_transactions
           (insert_one (recorded_transaction new_id now user cart total session)
              (payment_transactions db)) db)
    | Raised e => (Raised e, db)
    end.
Proof.
  intros H Hitems Htotal Hle. rewrite create_session_eq, H.
  destruct (Cart.items cart); [done|]. by rewrite Htotal, Hle.
Qed.

(** Every way the handler can end. *)
Lemma create_session_cases :
  (exists e, create_checkout_session new_id now origin_url user db = (Raised e, db))
  ∨ (exists cart total session,
       find_one (cart_of (User.id user)) (carts db) = Some cart
       ∧ Stripe.create_checkout_session (checkout_request origin_url total user cart)
         = Returned session
       ∧ create_checkout_session new_id now origin_url user db
         = (Returned (Stripe.url session, Stripe.session_id session),
            set_payment_transactions
              (insert_one (recorded_transaction new_id now user cart total session)
                 (payment_transactions db)) db)).
Proof.
  destruct (find_one (cart_of (User.id user)) (carts db)) as [cart|] eqn:Hfind.
  2:{ left. eexists. by apply create_session_no_cart. }
  destruct (decide (Cart.items cart = [])) as [Hnil|Hitems].
  { left. eexists. by eapply create_session_no_items. }
  destruct (cart_total (products db) (Cart.items cart) 0%float) as [total|e] eqn:Htotal.
  2:{ left. eexists. by eapply create_session_total_raises. }
  destruct (PrimFloat.leb total 0%float) eqn:Hle.
  { left. eexists. by eapply create_session_invalid_total. }
  pose proof (create_session_provider cart total Hfind Hitems Htotal Hle) as Heq.
  destruct (Stripe.create_checkout_session (checkout_request origin_url total user cart))
    as [session|e] eqn:Hcall.
  - right. by exists cart, total, session.
  - left. by exists e.
Qed.

End CreateSession.

Lemma cart_total_returns catalog items acc :
  Forall convertible items ->
  cart_total catalog items acc
  = Returned (foldl PrimFloat.add acc
                (omap (fun item =>
                         price ← current_price catalog item;
                         Some (PrimFloat.mul price (nearest_float (CartItem.quantity item))))
                      items)).
Proof.
  intros Hok. revert acc.
  induction Hok as [|item rest Hitem _ IH]; intros acc; simpl; [done|].
  unfold current_price.
  destruct (find_one (product_with_id (CartItem.product_id item)) catalog)
    as [product|]; simpl; [|apply IH].
  unfold float_mul_int, float_of_int. rewrite Hitem. apply IH.
Qed.

(** C3. [create_checkout_session] raises 400 "Cart is empty" when the user
    has no cart or the cart has no items. Otherwise the total it works with
    is the sum, over the lines of the cart, of the price the catalog holds
    now for the product times the quantity of the line (a line whose
    product is gone adds nothing): it raises 400 "Invalid cart total" when
    that sum is at most 0, and else asks the provider for exactly that
    amount and records it in the transaction. *)
Theorem create_session_recomputes_total `{SC : Stripe.StripeCheckout}
    new_id now origin_url user db :
  (find_one (cart_of (User.id user)) (carts db) = None
   ∨ (exists cart, find_one (cart_of (User.id user)) (carts db) = Some cart
                   ∧ Cart.items cart = []) ->
   create_checkout_session new_id now origin_url user db
   = (Raised (HTTPException 400 "Cart is empty"), db))
  ∧ (forall cart,
       find_one (cart_of (User.id user)) (carts db) = Some cart ->
       Cart.items cart ≠ [] ->
       Forall convertible (Cart.items cart) ->
       let total := sum_of_lines (products db) (Cart.items cart) in
       (PrimFloat.leb total 0%float = true ->
        create_checkout_session new_id now origin_url user db
        = (Raised (HTTPException 400 "Invalid cart total"), db))
       ∧ (PrimFloat.leb total 0%float = false ->
          create_checkout_session new_id now origin_url user db
          = match Stripe.create_checkout_session
                    (checkout_request origin_url total user cart) with
            | Returned session =>
                (Returned (Stripe.url session, Stripe.session_id session),
                 set_payment_transactions
                   (insert_one
                      (PaymentTransaction.mk new_id (Stripe.session_id session)
                         (User.id user) total "usd" "pending" "initiated"
                         (Cart.id cart) now None)
                      (payment_transactions db)) db)
            | Raised e => (Raised e, db)
            end)).
Proof.
  split.
  - intros [Hnone|(cart & Hfind & Hnil)].
    + by apply create_session_no_cart.
    + by eapply create_session_no_items.
  - intros cart Hfind Hitems Hok total.
    pose proof (cart_total_returns (products db) (Cart.items cart) 0%float Hok) as Htotal.
    split; intros Hle.
    + by eapply create_session_invalid_total.
    + by apply create_session_provider.
Qed.

(** Alice holds three pairs of the Oxford, priced 485.00 in the catalog:
    the provider is asked for 1455.00 and the transaction records it. *)
Lemma create_session_recomputes_total_witness :
  create_checkout_session (SC := Sample.paying) "t-1" "2024-02-01T10:05:00+00:00"
    "https://shop.example" Sample.alice
    (mkDB [] [Sample.oxford] [Sample.cart_of_alice [Sample.line 3]] [] [])
  = (Returned ("https://pay.example/cs_1", "cs_1"),
     mkDB [] [Sample.oxford] [Sample.cart_of_alice [Sample.line 3]]
       [PaymentTransaction.mk "t-1" "cs_1" "u-alice" 1455%float "usd"
          "pending" "initiated" "c-alice" "2024-02-01T10:05:00+00:00" None] []).
Proof.
  destruct (create_session_recomputes_total (SC := Sample.paying)
              "t-1" "2024-02-01T10:05:00+00:00" "https://shop.example" Sample.alice
              (mkDB [] [Sample.oxford] [Sample.cart_of_alice [Sample.line 3]] [] []))
    as [_ Hfound].
  destruct (Hfound (Sample.cart_of_alice [Sample.line 3])) as [_ Hcall].
  - reflexivity.
  - discriminate.
  - repeat constructor.
  - rewrite Hcall; [|by vm_compute]. by vm_compute.
Defined.

(** C4. A [create_checkout_session] that fails, for whatever reason,
    leaves the store as it found it; when the call to the provider fails,
    the handler fails with the same exception and has written nothing; and
    a transaction is recorded only with the session the provider
    returned. *)
Theorem failed_session_writes_nothing `{SC : Stripe.StripeCheckout}
    new_id now origin_url user db :
  (forall e db',
     create_checkout_session new_id now origin_url user db = (Raised e, db') ->
     db' = db)
  ∧ (forall cart total e,
       find_one (cart_of (User.id user)) (carts db) = Some cart ->
       Cart.items cart ≠ [] ->
       cart_total (products db) (Cart.items cart) 0%float = Returned total ->
       PrimFloat.leb total 0%float = false ->
       Stripe.create_checkout_session (checkout_request origin_url total user cart)
       = Raised e ->
       create_checkout_session new_id now origin_url user db = (Raised e, db))
  ∧ (forall result db',
       create_checkout_session new_id now origin_url user db = (Returned result, db') ->
       exists request session transaction,
         Stripe.create_checkout_session request = Returned session
         ∧ PaymentTransaction.session_id transaction = Stripe.session_id session
         ∧ PaymentTransaction.payment_status transaction = "initiated"
         ∧ db' = set_payment_transactions
                   (insert_one transaction (payment_transactions db)) db).
Proof.
  destruct (create_session_cases new_id now origin_url user db)
    as [[e Hfail]|(cart & total & session & Hfind & Hcall & Hok)].
  - split_and!.
    + intros e' db' H. rewrite Hfail in H. by injection H as _ <-.
    + intros cart total e' Hfind Hitems Htotal Hle Hcall.
      by rewrite (create_session_provider _ _ _ _ _ cart total), Hcall.
    + intros result db' H. by rewrite Hfail in H.
  - split_and!.
    + intros e' db' H. by rewrite Hok in H.
    + intros cart' total' e' Hfind' Hitems Htotal Hle Hcall'.
      by rewrite (create_session_provider _ _ _ _ _ cart' total'), Hcall'.
    + intros result db' H. rewrite Hok in H. injection H as _ <-.
      by exists (checkout_request origin_url total user cart), session,
        (recorded_transaction new_id now user cart total session).
Qed.

(** The provider times out while alice checks out: no transaction. *)
Lemma failed_session_writes_nothing_witness :
  create_checkout_session (SC := Sample.unreachable) "t-1" "2024-02-01T10:05:00+00:00"
    "https://shop.example" Sample.alice
    (mkDB [] [Sample.oxford] [Sample.cart_of_alice [Sample.line 3]] [] [])
  = (Raised (ProviderError "timeout"),
     mkDB [] [Sample.oxford] [Sample.cart_of_alice [Sample.line 3]] [] []).
Proof.
  destruct (failed_session_writes_nothing (SC := Sample.unreachable)
              "t-1" "2024-02-01T10:05:00+00:00" "https://shop.example" Sample.alice
              (mkDB [] [Sample.oxford] [Sample.cart_of_alice [Sample.line 3]] [] []))
    as (_ & Hfails & _).
  apply (Hfails (Sample.cart_of_alice [Sample.line 3]) 1455%float);
    [reflexivity|discriminate|by vm_compute|by vm_compute|reflexivity].
Defined.

(** ** C1, C2 and C10: polling the status of a session *)

Section CheckoutStatus.
Context `{SC : Stripe.StripeCheckout}.
Variables (session_id : string) (status : Stripe.CheckoutStatusResponse).
Hypothesis provider_status : Stripe.get_checkout_status session_id = Returned status.

Lemma create_order_eq new_id now user db :
  create_order new_id now session_id (Stripe.amount_total status) user db
  = match find_one (cart_of (User.id user)) (carts db) with
    | None => (Returned tt, db)
    | Some cart =>
        match Cart.items cart with
        | [] => (Returned tt, db)
        | _ :: _ =>
            match int_truediv (Stripe.amount_total status) 100 with
            | Returned total =>
                (Returned tt,
                 empty_cart user
                   (set_orders
                      (insert_one (confirmed_order session_id new_id now user (Cart.items cart) total)
                         (orders db)) db))
            | Raised e => (Raised e, db)
            end
        end
    end.
Proof.
  unfold create_order. run.
  destruct (find_one (cart_of (User.id user)) (carts db)) as [cart|]; [|done].
  destruct (Cart.items cart) as [|item rest]; [done|].
  unfold mbind, handler_bind, call.
  by destruct (int_truediv (Stripe.amount_total status) 100).
Qed.

Lemma status_not_paid now_paid new_id now_order user db :
  Stripe.payment_status status ≠ "paid" ->
  get_checkout_status now_paid new_id now_order session_id user db
  = (Returned (status_fields status), db).
Proof.
  intros Hnot. unfold get_checkout_status. run. rewrite provider_status.
  by rewrite bool_decide_eq_false_2.
Qed.

Lemma status_paid_eq now_paid new_id now_order user db :
  Stripe.payment_status status = "paid" ->
  get_checkout_status now_paid new_id now_order session_id user db
  = match find_one (transaction_of session_id) (payment_transactions db) with
    | None => (Returned (status_fields status), db)
    | Some transaction =>
        if bool_decide (PaymentTransaction.payment_status transaction ≠ "paid")
        then
          match create_order new_id now_order session_id (Stripe.amount_total status)
                  user (mark_paid session_id now_paid db) with
          | (Returned _, db') => (Returned (status_fields status), db')
          | (Raised e, db') => (Raised e, db')
          end
        else (Returned (status_fields status), db)
    end.
Proof.
  intros Hpaid. unfold get_checkout_status. run. rewrite provider_status.
  rewrite bool_decide_eq_true_2 by done.
  destruct (find_one (transaction_of session_id) (payment_transactions db))
    as [transaction|]; [|done].
  destruct (bool_decide (PaymentTransaction.payment_status transaction ≠ "paid")); [|done].
  unfold mark_paid.
  by destruct (create_order _ _ _ _ _ _) as [[[]|e] db'].
Qed.

(** No stored transaction, or one that is already paid: nothing is written. *)
Lemma status_paid_read_only now_paid new_id now_order user db :
  Stripe.payment_status status = "paid" ->
  (forall transaction,
     find_one (transaction_of session_id) (payment_transactions db) = Some transaction ->
     PaymentTransaction.payment_status transaction = "paid") ->
  get_checkout_status now_paid new_id now_order session_id user db
  = (Returned (status_fields status), db).
Proof.
  intros Hpaid Halready. rewrite status_paid_eq by done.
  destruct (find_one (transaction_of session_id) (payment_transactions db))
    as [transaction|]; [|done].
  rewrite bool_decide_eq_false_2; [done|]. intros Hnot. by apply Hnot, Halready.
Qed.

Lemma transaction_of_set_paid now transaction :
  transaction_of session_id (PaymentTransaction.set_paid now transaction)
  = transaction_of session_id transaction.
Proof. done. Qed.

Lemma find_after_mark_paid now db transaction :
  find_one (transaction_of session_id) (payment_transactions db) = Some transaction ->
  find_one (transaction_of session_id) (payment_transactions (mark_paid session_id now db))
  = Some (PaymentTransaction.set_paid now transaction).
Proof.
  intros Hfind. unfold mark_paid. simpl.
  apply find_one_update_one; [done|].
  rewrite transaction_of_set_paid. by apply find_one_Some in Hfind as [_ ?].
Qed.

(** The transition, when the stored transaction is not yet paid. *)
Lemma status_paid_transition now_paid new_id now_order user db transaction :
  Stripe.payment_status status = "paid" ->
  find_one (transaction_of session_id) (payment_transactions db) = Some transaction ->
  PaymentTransaction.payment_status transaction ≠ "paid" ->
  get_checkout_status now_paid new_id now_order session_id user db
  = match find_one (cart_of (User.id user)) (carts db) with
    | None => (Returned (status_fields status), mark_paid session_id now_paid db)
    | Some cart =>
        match Cart.items cart with
        | [] => (Returned (status_fields status), mark_paid session_id now_paid db)
        | _ :: _ =>
            match int_truediv (Stripe.amount_total status) 100 with
            | Returned total =>
                (Returned (status_fields status),
                 empty_cart user
                   (set_orders
                      (insert_one
                         (confirmed_order session_id new_id now_order user (Cart.items cart) total)
                         (orders db)) (mark_paid session_id now_paid db)))
            | Raised e => (Raised e, mark_paid session_id now_paid db)
            end
        end
    end.
Proof.
  intros Hpaid Hfind Hnot. rewrite status_paid_eq, Hfind by done.
  rewrite bool_decide_eq_true_2 by done. rewrite create_order_eq.
  change (carts (mark_paid session_id now_paid db)) with (carts db).
  destruct (find_one (cart_of (User.id user)) (carts db)) as [cart|]; [|done].
  destruct (Cart.items cart); [done|].
  by destruct (int_truediv (Stripe.amount_total status) 100).
Qed.

(** Whatever the first poll did, the stored transaction is paid after it. *)
Lemma status_paid_leaves_paid now_paid new_id now_order user db transaction :
  Stripe.payment_status status = "paid" ->
  find_one (transaction_of session_id)
    (payment_transactions (get_checkout_status now_paid new_id now_order session_id user db).2)
  = Some transaction ->
  PaymentTransaction.payment_status transaction = "paid".
Proof.
  intros Hpaid.
  destruct (find_one (transaction_of session_id) (payment_transactions db))
    as [stored|] eqn:Hfind.
  - destruct (decide (PaymentTransaction.payment_status stored = "paid")) as [Hp|Hnot].
    + rewrite status_paid_read_only; [|done|]; simpl.
      * rewrite Hfind. by intros [= <-].
      * intros ?. rewrite Hfind. by intros [= <-].
    + rewrite (status_paid_transition _ _ _ _ _ stored) by done.
      pose proof (find_after_mark_paid now_paid db stored Hfind) as Hafter.
      unfold mark_paid in Hafter. simpl in Hafter.
      destruct (find_one (cart_of (User.id user)) (carts db)) as [cart|]; simpl;
        [|rewrite Hafter; by intros [= <-]].
      destruct (Cart.items cart); simpl; [rewrite Hafter; by intros [= <-]|].
      destruct (int_truediv (Stripe.amount_total status) 100); simpl;
        rewrite Hafter; by intros [= <-].
  - rewrite status_paid_read_only; [|done|]; simpl.
    + by rewrite Hfind.
    + intros ?. by rewrite Hfind.
Qed.

End CheckoutStatus.

Lemma items_of_empty_cart user db : items_of (User.id user) (empty_cart user db) = [].
Proof.
  unfold items_of, empty_cart. simpl.
  destruct (find_one (cart_of (User.id user)) (carts db)) as [cart|] eqn:Hfind.
  - rewrite (find_one_update_one _ _ _ cart); [done|done|].
    rewrite cart_of_set_items. by apply find_one_Some in Hfind as [_ ?].
  - by rewrite find_one_update_one_none.
Qed.

Lemma items_of_nil_cases uid db :
  items_of uid db = [] ->
  find_one (cart_of uid) (carts db) = None
  ∨ exists cart, find_one (cart_of uid) (carts db) = Some cart ∧ Cart.items cart = [].
Proof.
  unfold items_of. destruct (find_one (cart_of uid) (carts db)) as [cart|]; eauto.
Qed.

(** Another user's cart is out of reach of an [update_one] on this user's. *)
Lemma find_one_other_cart uid other set (coll : list Cart.t) :
  other ≠ uid ->
  (forall cart, Cart.user_id (set cart) = Cart.user_id cart) ->
  find_one (cart_of other) (update_one (cart_of uid) set coll)
  = find_one (cart_of other) coll.
Proof.
  intros Hother Hset. unfold find_one.
  induction coll as [|cart rest IH]; simpl; [done|].
  destruct (cart_of uid cart) eqn:Huid; simpl.
  - unfold cart_of in *. rewrite Hset.
    apply bool_decide_eq_true in Huid.
    rewrite bool_decide_eq_false_2; [done|congruence].
  - by rewrite IH.
Qed.

(** The poll writes to the carts only by emptying the caller's. *)
Lemma get_checkout_status_carts `{SC : Stripe.StripeCheckout}
    now_paid new_id now_order session_id user db :
  let db' := (get_checkout_status now_paid new_id now_order session_id user db).2 in
  carts db' = carts db
  ∨ carts db' = update_one (cart_of (User.id user)) (Cart.set_items []) (carts db).
Proof.
  intros db'. subst db'.
  destruct (Stripe.get_checkout_status session_id) as [status|e] eqn:Hstatus.
  2:{ left. unfold get_checkout_status. run. by rewrite Hstatus. }
  destruct (decide (Stripe.payment_status status = "paid")) as [Hpaid|Hnot].
  2:{ left. by rewrite (status_not_paid session_id status Hstatus). }
  rewrite (status_paid_eq session_id status Hstatus) by done.
  destruct (find_one (transaction_of session_id) (payment_transactions db));
    [|by left].
  destruct (bool_decide _); [|by left].
  rewrite (create_order_eq session_id status).
  change (carts (mark_paid session_id now_paid db)) with (carts db).
  destruct (find_one (cart_of (User.id user)) (carts db)) as [cart|]; [|by left].
  destruct (Cart.items cart); [by left|].
  destruct (int_truediv (Stripe.amount_total status) 100); [by right|by left].
Qed.

Lemma get_checkout_status_inv `{SC : Stripe.StripeCheckout}
    now_paid new_id now_order session_id user db :
  cart_inv db ->
  cart_inv (get_checkout_status now_paid new_id now_order session_id user db).2.
Proof.
  intros Hinv. unfold cart_inv in *.
  destruct (get_checkout_status_carts now_paid new_id now_order session_id user db)
    as [->| ->]; [done|].
  apply update_one_Forall; [done|]. intros cart _ _. apply distinct_lines_nil.
Qed.

(** *** C2 *)

(** C2 (as stated) fails twice. With alice's cart cleared after she opened
    the session, the poll marks her transaction paid and creates no order.
    With one Oxford in her cart and 48500 minor units reported, the order
    is created with total 485.0, not 48500. *)
Lemma paid_poll_may_create_no_order :
  ¬ paid_poll_creates_order
  ∧ orders (get_checkout_status (SC := Sample.paying) "2024-02-01T10:06:00+00:00" "o-1"
              "2024-02-01T10:06:01+00:00" "cs_1" Sample.alice
              (mkDB [] [Sample.oxford] [Sample.cart_of_alice [Sample.line 1]]
                 [Sample.pending] [])).2
    = [Order.mk "o-1" "u-alice" [Sample.line 1] 485%float "confirmed" "cs_1"
         "2024-02-01T10:06:01+00:00"]
  ∧ float_of_int 48500 = Returned 48500%float.
Proof.
  split_and!; [|by vm_compute..].
  intros Hclaim.
  destruct (Hclaim Sample.paying "2024-02-01T10:06:00+00:00" "o-1"
              "2024-02-01T10:06:01+00:00" "cs_1" Sample.alice
              (mkDB [] [Sample.oxford] [Sample.cart_of_alice []] [Sample.pending] [])
              (Stripe.mkStatus "complete" "paid" 48500 "usd") Sample.pending
              eq_refl eq_refl eq_refl)
    as (_ & (order & Horders & _) & _).
  - discriminate.
  - vm_compute in Horders. discriminate Horders.
Qed.

(** C2 (amended). When the provider reports the session paid and the
    stored transaction is not yet paid, [get_checkout_status] marks the
    transaction complete and paid. If the caller's cart holds items it also
    appends a confirmed order with those items, whose total is the reported
    amount divided by 100, and empties that cart. If the caller has no cart
    or an empty one, marking the transaction is all it does. *)
Theorem paid_poll_settles_transaction `{SC : Stripe.StripeCheckout}
    now_paid new_id now_order session_id user db status transaction
    (Hstatus : Stripe.get_checkout_status session_id = Returned status)
    (Hpaid : Stripe.payment_status status = "paid")
    (Hfind : find_one (transaction_of session_id) (payment_transactions db)
             = Some transaction)
    (Hnot : PaymentTransaction.payment_status transaction ≠ "paid") :
  let result := get_checkout_status now_paid new_id now_order session_id user db in
  find_one (transaction_of session_id) (payment_transactions result.2)
  = Some (PaymentTransaction.set_paid now_paid transaction)
  ∧ (items_of (User.id user) db = [] ->
     result = (Returned (status_fields status), mark_paid session_id now_paid db))
  ∧ (forall cart total,
       find_one (cart_of (User.id user)) (carts db) = Some cart ->
       Cart.items cart ≠ [] ->
       int_truediv (Stripe.amount_total status) 100 = Returned total ->
       result
       = (Returned (status_fields status),
          empty_cart user
            (set_orders
               (insert_one
                  (Order.mk new_id (User.id user) (Cart.items cart) total
                     "confirmed" session_id now_order)
                  (orders db))
               (mark_paid session_id now_paid db)))
       ∧ items_of (User.id user) result.2 = []).
Proof.
  intros result. subst result.
  pose proof (status_paid_transition session_id status Hstatus
                now_paid new_id now_order user db transaction Hpaid Hfind Hnot) as Heq.
  pose proof (find_after_mark_paid session_id now_paid db transaction Hfind) as Hafter.
  unfold mark_paid in Hafter. simpl in Hafter.
  split_and!.
  - rewrite Heq.
    destruct (find_one (cart_of (User.id user)) (carts db)) as [cart|]; [|done].
    destruct (Cart.items cart); [done|].
    by destruct (int_truediv (Stripe.amount_total status) 100).
  - intros Hnil. rewrite Heq.
    destruct (items_of_nil_cases _ _ Hnil) as [->|(cart & -> & ->)]; done.
  - intros cart total Hcart Hitems Hdiv. rewrite Heq, Hcart, Hdiv.
    destruct (Cart.items cart) eqn:Hi; [done|]. split; [done|].
    apply items_of_empty_cart.
Qed.

(** Alice polls her paid session with one Oxford in her cart. *)
Lemma paid_poll_settles_transaction_witness :
  get_checkout_status (SC := Sample.paying) "2024-02-01T10:06:00+00:00" "o-1"
    "2024-02-01T10:06:01+00:00" "cs_1" Sample.alice
    (mkDB [] [Sample.oxford] [Sample.cart_of_alice [Sample.line 1]] [Sample.pending] [])
  = (Returned (mkStatusFields "complete" "paid" 48500 "usd"),
     mkDB [] [Sample.oxford] [Sample.cart_of_alice []] [Sample.paid]
       [Order.mk "o-1" "u-alice" [Sample.line 1] 485%float "confirmed" "cs_1"
          "2024-02-01T10:06:01+00:00"]).
Proof.
  destruct (paid_poll_settles_transaction (SC := Sample.paying)
              "2024-02-01T10:06:00+00:00" "o-1" "2024-02-01T10:06:01+00:00" "cs_1"
              Sample.alice
              (mkDB [] [Sample.oxford] [Sample.cart_of_alice [Sample.line 1]]
                 [Sample.pending] [])
              (Stripe.mkStatus "complete" "paid" 48500 "usd") Sample.pending
              eq_refl eq_refl eq_refl ltac:(discriminate))
    as (_ & _ & Horder).
  destruct (Horder (Sample.cart_of_alice [Sample.line 1]) 485%float
              eq_refl ltac:(discriminate) ltac:(by vm_compute)) as [Heq _].
  exact Heq.
Defined.

(** *** C1 *)

(** C1 (as stated) fails: after alice cleared her cart, two polls of her
    paid session leave no order at all, and her transaction paid. *)
Lemma two_polls_may_create_no_order : ¬ two_polls_one_order.
Proof.
  intros Hclaim.
  destruct (Hclaim Sample.paying "2024-02-01T10:06:00+00:00" "o-1"
              "2024-02-01T10:06:01+00:00" "2024-02-01T10:07:00+00:00" "o-2"
              "2024-02-01T10:07:01+00:00" "cs_1" Sample.alice store_after_clear
              (Stripe.mkStatus "complete" "paid" 48500 "usd") Sample.pending
              eq_refl eq_refl)
    as [[order Horders] _].
  - by vm_compute.
  - discriminate.
  - vm_compute in Horders. discriminate Horders.
Qed.

(** C1 (amended). When the provider reports the session paid, two polls in
    a row append at most one order: exactly one when the stored transaction
    is not yet paid and the caller's cart holds items (and the cart is then
    empty), none when the caller has no cart or an empty one. The second
    poll returns the provider's status fields and leaves the store as the
    first poll left it; the first poll, when it returns, returns the same
    fields. *)
Theorem two_polls_at_most_one_order `{SC : Stripe.StripeCheckout}
    now_paid1 new_id1 now_order1 now_paid2 new_id2 now_order2
    session_id user db status
    (Hstatus : Stripe.get_checkout_status session_id = Returned status)
    (Hpaid : Stripe.payment_status status = "paid") :
  let first := get_checkout_status now_paid1 new_id1 now_order1 session_id user db in
  let second :=
    get_checkout_status now_paid2 new_id2 now_order2 session_id user first.2 in
  second = (Returned (status_fields status), first.2)
  ∧ (forall fields, first.1 = Returned fields -> fields = status_fields status)
  ∧ (orders second.2 = orders db ∨ exists order, orders second.2 = orders db ++ [order])
  ∧ (forall transaction cart total,
       find_one (transaction_of session_id) (payment_transactions db) = Some transaction ->
       PaymentTransaction.payment_status transaction ≠ "paid" ->
       find_one (cart_of (User.id user)) (carts db) = Some cart ->
       Cart.items cart ≠ [] ->
       int_truediv (Stripe.amount_total status) 100 = Returned total ->
       orders second.2
       = orders db ++ [Order.mk new_id1 (User.id user) (Cart.items cart) total
                         "confirmed" session_id now_order1]
       ∧ items_of (User.id user) first.2 = [])
  ∧ (items_of (User.id user) db = [] -> orders second.2 = orders db).
Proof.
  intros first second.
  assert (second = (Returned (status_fields status), first.2)) as Hsecond.
  { subst second. apply (status_paid_read_only session_id status Hstatus); [done|].
    intros transaction. by apply (status_paid_leaves_paid session_id status Hstatus). }
  rewrite Hsecond. simpl. subst first. clear second Hsecond.
  destruct (find_one (transaction_of session_id) (payment_transactions db))
    as [stored|] eqn:Hfind.
  2:{ rewrite (status_paid_read_only session_id status Hstatus);
        [|done|by rewrite Hfind].
      simpl. split_and!; [done|by intros ? [= <-]|by left|done|done]. }
  destruct (decide (PaymentTransaction.payment_status stored = "paid")) as [Hp|Hnot].
  { rewrite (status_paid_read_only session_id status Hstatus);
      [|done|rewrite Hfind; by intros ? [= <-]].
    simpl. split_and!; [done|by intros ? [= <-]|by left| |done].
    intros transaction cart total [= <-]. done. }
  rewrite (status_paid_transition _ _ Hstatus _ _ _ _ _ stored) by done.
  destruct (find_one (cart_of (User.id user)) (carts db)) as [cart|] eqn:Hcart.
  2:{ simpl. split_and!; [done|by intros ? [= <-]|by left|done|done]. }
  destruct (Cart.items cart) as [|item rest] eqn:Hitems.
  { simpl. split_and!; [done|by intros ? [= <-]|by left| |done].
    intros ? ? ? _ _ [= <-]. by rewrite Hitems. }
  destruct (int_truediv (Stripe.amount_total status) 100) as [total|e] eqn:Hdiv.
  - simpl. split_and!.
    + done.
    + by intros ? [= <-].
    + right. by eexists.
    + intros ? cart' total' _ _ [= <-] _ [= <-]. rewrite Hitems. split; [done|].
      apply (items_of_empty_cart user).
    + unfold items_of. by rewrite Hcart, Hitems.
  - simpl. split_and!; [done|done|by left|done|].
    unfold items_of. by rewrite Hcart, Hitems.
Qed.

(** Alice polls twice with one Oxford in her cart: one order, and the
    second poll finds the store as the first left it. *)
Lemma two_polls_at_most_one_order_witness :
  let first :=
    get_checkout_status (SC := Sample.paying) "2024-02-01T10:06:00+00:00" "o-1"
      "2024-02-01T10:06:01+00:00" "cs_1" Sample.alice
      (mkDB [] [Sample.oxford] [Sample.cart_of_alice [Sample.line 1]]
         [Sample.pending] []) in
  let second :=
    get_checkout_status (SC := Sample.paying) "2024-02-01T10:07:00+00:00" "o-2"
      "2024-02-01T10:07:01+00:00" "cs_1" Sample.alice first.2 in
  orders second.2
  = [Order.mk "o-1" "u-alice" [Sample.line 1] 485%float "confirmed" "cs_1"
       "2024-02-01T10:06:01+00:00"]
  ∧ items_of "u-alice" first.2 = [].
Proof.
  destruct (two_polls_at_most_one_order (SC := Sample.paying)
              "2024-02-01T10:06:00+00:00" "o-1" "2024-02-01T10:06:01+00:00"
              "2024-02-01T10:07:00+00:00" "o-2" "2024-02-01T10:07:01+00:00"
              "cs_1" Sample.alice
              (mkDB [] [Sample.oxford] [Sample.cart_of_alice [Sample.line 1]]
                 [Sample.pending] [])
              (Stripe.mkStatus "complete" "paid" 48500 "usd") eq_refl eq_refl)
    as (_ & _ & _ & Hone & _).
  apply (Hone Sample.pending (Sample.cart_of_alice [Sample.line 1]) 485%float);
    [reflexivity|discriminate|reflexivity|discriminate|by vm_compute].
Defined.

(** *** C10 *)

(** C10 (as stated) fails: bob, who has no cart, polls the session alice
    opened and paid. The transaction is marked paid and no order is
    created for anyone. *)
Lemma poll_by_cartless_user_creates_no_order : ¬ poll_orders_for_caller.
Proof.
  intros Hclaim.
  destruct (Hclaim Sample.paying "2024-02-01T10:06:00+00:00" "o-1"
              "2024-02-01T10:06:01+00:00" "cs_1" Sample.bob store_with_open_session
              (Stripe.mkStatus "complete" "paid" 48500 "usd")
              (PaymentTransaction.mk "t-1" "cs_1" "u-alice" 485%float "usd"
                 "pending" "initiated" "c-alice" "2024-02-01T10:05:00+00:00" None)
              eq_refl eq_refl)
    as (order & Horders & _).
  - by vm_compute.
  - discriminate.
  - vm_compute in Horders. discriminate Horders.
Qed.

(** C10 (amended). [get_checkout_status] finds the stored transaction by
    [session_id] alone; whose transaction it is plays no part. When the
    session is paid and the transaction is not yet marked paid, the
    transaction is marked paid whoever polls. If the caller's cart holds
    items, the order is created for the caller from the caller's cart, that
    cart is emptied and every other user's cart stays as it was. If the
    caller has no cart or an empty one, no order is created and no cart
    changes. *)
Theorem poll_settles_with_callers_cart `{SC : Stripe.StripeCheckout}
    now_paid new_id now_order session_id user db status transaction
    (Hstatus : Stripe.get_checkout_status session_id = Returned status)
    (Hpaid : Stripe.payment_status status = "paid")
    (Hfind : find_one (transaction_of session_id) (payment_transactions db)
             = Some transaction)
    (Hnot : PaymentTransaction.payment_status transaction ≠ "paid") :
  let db' := (get_checkout_status now_paid new_id now_order session_id user db).2 in
  payment_transactions db'
  = update_one (transaction_of session_id) (PaymentTransaction.set_paid now_paid)
      (payment_transactions db)
  ∧ (forall other, other ≠ User.id user ->
       find_one (cart_of other) (carts db') = find_one (cart_of other) (carts db))
  ∧ (forall cart total,
       find_one (cart_of (User.id user)) (carts db) = Some cart ->
       Cart.items cart ≠ [] ->
       int_truediv (Stripe.amount_total status) 100 = Returned total ->
       orders db'
       = orders db ++ [Order.mk new_id (User.id user) (Cart.items cart) total
                         "confirmed" session_id now_order]
       ∧ items_of (User.id user) db' = [])
  ∧ (items_of (User.id user) db = [] -> orders db' = orders db ∧ carts db' = carts db).
Proof.
  intros db'. subst db'.
  rewrite (status_paid_transition session_id status Hstatus
             now_paid new_id now_order user db transaction Hpaid Hfind Hnot).
  destruct (find_one (cart_of (User.id user)) (carts db)) as [cart|] eqn:Hcart.
  2:{ simpl. split_and!; done. }
  destruct (Cart.items cart) as [|item rest] eqn:Hitems.
  { simpl. split_and!; [done|done| |done]. intros ? ? [= <-]. by rewrite Hitems. }
  destruct (int_truediv (Stripe.amount_total status) 100) as [total|e] eqn:Hdiv.
  - split_and!.
    + done.
    + intros other Hother. simpl. by apply find_one_other_cart.
    + intros cart' total' [= <-] _ [= <-]. rewrite Hitems. split; [done|].
      apply (items_of_empty_cart user).
    + unfold items_of. by rewrite Hcart, Hitems.
  - simpl. split_and!; [done|done|done|].
    unfold items_of. by rewrite Hcart, Hitems.
Qed.

(** Bob holds two pairs and polls the session alice opened: the order is
    bob's, made of bob's two pairs; alice keeps her cart. *)
Lemma poll_settles_with_callers_cart_witness :
  let db := mkDB [] [Sample.oxford]
              [Sample.cart_of_alice [Sample.line 1]; Sample.cart_of_bob [Sample.line 2]]
              [Sample.pending] [] in
  let db' := (get_checkout_status (SC := Sample.paying) "2024-02-01T10:06:00+00:00"
                "o-1" "2024-02-01T10:06:01+00:00" "cs_1" Sample.bob db).2 in
  (orders db'
   = [Order.mk "o-1" "u-bob" [Sample.line 2] 485%float "confirmed" "cs_1"
        "2024-02-01T10:06:01+00:00"]
   ∧ items_of "u-bob" db' = [])
  ∧ find_one (cart_of "u-alice") (carts db')
    = Some (Sample.cart_of_alice [Sample.line 1]).
Proof.
  intros db db'.
  destruct (poll_settles_with_callers_cart (SC := Sample.paying)
              "2024-02-01T10:06:00+00:00" "o-1" "2024-02-01T10:06:01+00:00" "cs_1"
              Sample.bob db (Stripe.mkStatus "complete" "paid" 48500 "usd")
              Sample.pending eq_refl eq_refl eq_refl ltac:(discriminate))
    as (_ & Hothers & Horder & _).
  split.
  - apply (Horder (Sample.cart_of_bob [Sample.line 2]) 485%float);
      [reflexivity|discriminate|by vm_compute].
  - subst db'. rewrite (Hothers "u-alice"); [reflexivity|discriminate].
Defined.

(** ** C7 and C8: the webhook *)

Lemma stripe_webhook_eq `{SC : Stripe.StripeCheckout} now body signature db :
  stripe_webhook now body signature db
  = match Stripe.handle_webhook body signature with
    | Returned event =>
        if bool_decide (Stripe.event_payment_status event = "paid")
        then (Returned true, mark_paid (Stripe.event_session_id event) now db)
        else (Returned true, db)
    | Raised _ => (Returned true, db)
    end.
Proof.
  unfold stripe_webhook, try_except. run.
  destruct (Stripe.handle_webhook body signature) as [event|e]; [|done].
  by destruct (bool_decide (Stripe.event_payment_status event = "paid")).
Qed.

Lemma update_one_twice {A : Type} (filter : A -> bool) (set1 set2 : A -> A) coll :
  (forall x, filter x = true -> filter (set1 x) = true) ->
  update_one filter set2 (update_one filter set1 coll)
  = update_one filter (fun x => set2 (set1 x)) coll.
Proof.
  intros Hkeep. induction coll as [|x rest IH]; simpl; [done|].
  destruct (filter x) eqn:Hx; simpl.
  - by rewrite Hkeep.
  - by rewrite Hx, IH.
Qed.

Lemma update_one_ext {A : Type} (filter : A -> bool) (set1 set2 : A -> A) coll :
  (forall x, set1 x = set2 x) ->
  update_one filter set1 coll = update_one filter set2 coll.
Proof.
  intros Hext. induction coll as [|x rest IH]; simpl; [done|].
  by rewrite Hext, IH.
Qed.

Lemma mark_paid_twice session_id now1 now2 db :
  mark_paid session_id now2 (mark_paid session_id now1 db) = mark_paid session_id now2 db.
Proof.
  unfold mark_paid, set_payment_transactions. simpl. f_equal.
  rewrite update_one_twice by done. by apply update_one_ext.
Qed.

(** C7 (as stated) fails: the transaction was marked paid at 10:06; the
    same event delivered again at 10:09 leaves [updated_at] at 10:09. *)
Lemma redelivery_rewrites_updated_at : ¬ redelivery_leaves_record.
Proof.
  intros Hclaim.
  specialize (Hclaim Sample.paying "2024-02-01T10:09:00+00:00" "{}" (Some "good")
                (mkDB [] [] [] [Sample.paid] [])
                (Stripe.mkEvent "cs_1" "paid") Sample.paid
                eq_refl eq_refl eq_refl eq_refl).
  vm_compute in Hclaim. discriminate Hclaim.
Qed.

(** C7 (amended). A verified event that reports [paid] is acknowledged and
    the transaction of its session is marked complete and paid, with
    [updated_at] set to the time of delivery. Nothing guards against a
    transaction that is already paid: a second delivery writes the same
    status fields again and moves [updated_at] to its own time, so the
    store after two deliveries is the store after the second one alone. *)
Theorem paid_event_marks_transaction `{SC : Stripe.StripeCheckout}
    now body signature db event
    (Hverified : Stripe.handle_webhook body signature = Returned event)
    (Hpaid : Stripe.event_payment_status event = "paid") :
  let sid := Stripe.event_session_id event in
  let db' := (stripe_webhook now body signature db).2 in
  stripe_webhook now body signature db = (Returned true, mark_paid sid now db)
  ∧ (forall transaction,
       find_one (transaction_of sid) (payment_transactions db) = Some transaction ->
       exists marked,
         find_one (transaction_of sid) (payment_transactions db') = Some marked
         ∧ marked = PaymentTransaction.set_paid now transaction
         ∧ PaymentTransaction.status marked = "complete"
         ∧ PaymentTransaction.payment_status marked = "paid"
         ∧ PaymentTransaction.updated_at marked = Some now)
  ∧ (forall now2,
       stripe_webhook now2 body signature db' = (Returned true, mark_paid sid now2 db))
  ∧ stripe_webhook now body signature db' = (Returned true, db').
Proof.
  intros sid db'. subst db'.
  assert (forall t d, stripe_webhook t body signature d
                      = (Returned true, mark_paid sid t d)) as Heq.
  { intros t d. rewrite stripe_webhook_eq, Hverified.
    by rewrite bool_decide_eq_true_2. }
  rewrite !Heq. cbn [snd]. split_and!.
  - done.
  - intros transaction Hfind.
    exists (PaymentTransaction.set_paid now transaction). split_and!; [|done..].
    by apply find_after_mark_paid.
  - intros now2. by rewrite Heq, mark_paid_twice.
  - by rewrite mark_paid_twice.
Qed.

(** The event for alice's session arrives at 10:06 and again at 10:09. *)
Lemma paid_event_marks_transaction_witness :
  let db := mkDB [] [] [] [Sample.pending] [] in
  let db' := (stripe_webhook (SC := Sample.paying) "2024-02-01T10:06:00+00:00"
                "{}" (Some "good") db).2 in
  db' = mkDB [] [] [] [Sample.paid] []
  ∧ stripe_webhook (SC := Sample.paying) "2024-02-01T10:09:00+00:00" "{}" (Some "good") db'
    = (Returned true,
       mkDB [] [] []
         [PaymentTransaction.set_paid "2024-02-01T10:09:00+00:00" Sample.pending] []).
Proof.
  intros db db'.
  destruct (paid_event_marks_transaction (SC := Sample.paying)
              "2024-02-01T10:06:00+00:00" "{}" (Some "good") db
              (Stripe.mkEvent "cs_1" "paid") eq_refl eq_refl)
    as (Hfirst & _ & Hagain & _).
  split.
  - subst db'. by rewrite Hfirst.
  - exact (Hagain "2024-02-01T10:09:00+00:00").
Defined.

(** C8. When the provider client rejects the payload, [stripe_webhook]
    writes nothing and still answers [{"received": True}]; whatever
    happens, it answers that and never raises. *)
Theorem rejected_webhook_is_dropped `{SC : Stripe.StripeCheckout}
    now body signature db :
  (forall e, Stripe.handle_webhook body signature = Raised e ->
             stripe_webhook now body signature db = (Returned true, db))
  ∧ (stripe_webhook now body signature db).1 = Returned true.
Proof.
  rewrite stripe_webhook_eq. split.
  - by intros e ->.
  - destruct (Stripe.handle_webhook body signature) as [event|e]; [|done].
    by destruct (bool_decide (Stripe.event_payment_status event = "paid")).
Qed.

(** A payload with a forged signature for alice's pending session. *)
Lemma rejected_webhook_is_dropped_witness :
  stripe_webhook (SC := Sample.paying) "2024-02-01T10:06:00+00:00" "{}" (Some "forged")
    (mkDB [] [] [] [Sample.pending] [])
  = (Returned true, mkDB [] [] [] [Sample.pending] []).
Proof.
  apply (rejected_webhook_is_dropped (SC := Sample.paying))
    with (e := ProviderError "invalid signature").
  reflexivity.
Defined.

(** ** C9: admin statistics *)

Lemma get_admin_stats_eq py user db :
  get_admin_stats py user db
  = (Returned (mkStats (count_documents (products db)) (count_documents (orders db))
                 (count_documents (users db))
                 (Py.sum py (Order.total <$> to_list 1000 (orders db)))), db).
Proof. done. Qed.

(** With at most 1000 orders the figures are the plain counts and the sum
    of every order's total. *)
Lemma stats_up_to_1000_orders py user db :
  (length (orders db) <= 1000)%nat ->
  get_admin_stats py user db
  = (Returned (mkStats (Z.of_nat (length (products db))) (Z.of_nat (length (orders db)))
                 (Z.of_nat (length (users db)))
                 (Py.sum py (Order.total <$> orders db))), db).
Proof.
  intros Hfew. rewrite get_admin_stats_eq. unfold to_list.
  by rewrite take_ge by done.
Qed.

(** C9 (the code departs from it). With 1001 orders of 1.00 each the
    handler counts 1001 orders and reports a revenue of 1000.0: the totals
    are read through [to_list(1000)], so the orders past the first thousand
    are left out of the sum, which over all of them is 1001.0. Both ways of
    adding floats up give these figures. *)
Theorem revenue_stops_at_1000_orders :
  let db := mkDB [Sample.admin] [Sample.oxford] [] [] (replicate 1001 one_dollar_order) in
  forall py,
    get_admin_stats py Sample.admin db
    = (Returned (mkStats 1 1001 1 (Float 1000%float)), db)
    ∧ Py.sum py (Order.total <$> orders db) = Float 1001%float.
Proof. intros db []; split; by vm_compute. Qed.

(** * Further properties of the cart routes *)

Lemma find_one_insert_one_other uid other (cart : Cart.t) coll :
  Cart.user_id cart = uid -> other ≠ uid ->
  find_one (cart_of other) (insert_one cart coll) = find_one (cart_of other) coll.
Proof.
  intros Huid Hother. unfold find_one, insert_one.
  induction coll as [|c rest IH]; simpl.
  - unfold cart_of. rewrite bool_decide_eq_false_2; [done|congruence].
  - destruct (cart_of other c); [done|apply IH].
Qed.

Lemma get_cart_eq new_id now user db :
  get_cart new_id now user db
  = match find_one (cart_of (User.id user)) (carts db) with
    | Some cart =>
        (Returned (mkPopulatedCart (Cart.id cart) (Cart.user_id cart)
                     (populate (products db) (Cart.items cart)) (Cart.updated_at cart)),
         db)
    | None =>
        (Returned (mkPopulatedCart new_id (User.id user) [] now),
         set_carts (insert_one (Cart.mk new_id (User.id user) [] now) (carts db)) db)
    end.
Proof.
  unfold get_cart. run.
  by destruct (find_one (cart_of (User.id user)) (carts db)).
Qed.

(** [get_cart] creates the user's cart on the first call only: a second
    call gives the same answer as the first and leaves the store as the
    first left it; a call that finds a cart writes nothing. *)
Theorem get_cart_creates_once id1 now1 id2 now2 user db :
  let first := get_cart id1 now1 user db in
  get_cart id2 now2 user first.2 = first
  ∧ (is_Some (find_one (cart_of (User.id user)) (carts db)) -> first.2 = db)
  ∧ (find_one (cart_of (User.id user)) (carts db) = None ->
     first = (Returned (mkPopulatedCart id1 (User.id user) [] now1),
              set_carts (carts db ++ [Cart.mk id1 (User.id user) [] now1]) db)).
Proof.
  intros first. subst first. rewrite !get_cart_eq.
  destruct (find_one (cart_of (User.id user)) (carts db)) as [cart|] eqn:Hfind.
  - simpl. rewrite Hfind. split_and!; [done|done|by intros].
  - simpl. rewrite find_one_insert_one_new; [|done|apply cart_of_new].
    split_and!; [done|by intros []|done].
Qed.

(** Bob opens his cart for the first time, then again. *)
Lemma get_cart_creates_once_witness :
  let first := get_cart "c-bob" "2024-02-01T11:00:00+00:00" Sample.bob
                 Sample.fresh_store in
  first.2 = mkDB [Sample.alice; Sample.bob; Sample.admin] [Sample.oxford]
              [Sample.cart_of_bob []] [] []
  ∧ get_cart "c-bob-2" "2024-02-01T11:30:00+00:00" Sample.bob first.2 = first.
Proof.
  intros first.
  destruct (get_cart_creates_once "c-bob" "2024-02-01T11:00:00+00:00" "c-bob-2"
              "2024-02-01T11:30:00+00:00" Sample.bob Sample.fresh_store)
    as (Hsecond & _ & Hcreated).
  split; [|exact Hsecond].
  subst first. by rewrite (Hcreated eq_refl).
Defined.

Lemma populate_lines catalog items :
  (populate catalog items).*1
  = filter (fun item =>
              is_Some (find_one (product_with_id (CartItem.product_id item)) catalog))
           items.
Proof.
  induction items as [|item rest IH]; csimpl; [done|].
  destruct (find_one (product_with_id (CartItem.product_id item)) catalog) as [p|] eqn:Hp.
  - rewrite filter_cons_True by (by rewrite Hp). csimpl. by rewrite IH.
  - rewrite filter_cons_False; [done|]. rewrite Hp. by intros [].
Qed.

Lemma populate_products catalog items :
  Forall (fun line =>
            find_one (product_with_id (CartItem.product_id line.1)) catalog = Some line.2)
         (populate catalog items).
Proof.
  induction items as [|item rest IH]; simpl; [constructor|].
  destruct (find_one (product_with_id (CartItem.product_id item)) catalog) as [p|] eqn:Hp;
    [|done].
  by constructor.
Qed.

(** The populated view holds, in cart order, exactly the lines whose
    product is in the catalog, each beside the product the catalog holds
    for it now; lines whose product is gone are left out of the view and
    stay in the stored cart, which [get_cart] does not write. *)
Theorem get_cart_view_skips_missing_products new_id now user db cart
    (Hfind : find_one (cart_of (User.id user)) (carts db) = Some cart) :
  exists view,
    get_cart new_id now user db = (Returned view, db)
    ∧ (populated_items view).*1
      = filter (fun item =>
                  is_Some (find_one (product_with_id (CartItem.product_id item))
                             (products db)))
               (Cart.items cart)
    ∧ Forall (fun line =>
                find_one (product_with_id (CartItem.product_id line.1)) (products db)
                = Some line.2)
             (populated_items view).
Proof.
  rewrite get_cart_eq, Hfind. eexists. split_and!; [done|..]; simpl.
  - apply populate_lines.
  - apply populate_products.
Qed.

(** Alice holds an Oxford and a Derby; the Derby is no longer sold. *)
Lemma get_cart_view_skips_missing_products_witness :
  let derby := CartItem.mk "p-derby" 1 "9" "Brown" in
  let db := mkDB [] [Sample.oxford]
              [Sample.cart_of_alice [derby; Sample.line 2]] [] [] in
  exists view,
    get_cart "c-9" "2024-02-01T12:00:00+00:00" Sample.alice db = (Returned view, db)
    ∧ (populated_items view).*1 = [Sample.line 2].
Proof.
  intros derby db.
  destruct (get_cart_view_skips_missing_products "c-9" "2024-02-01T12:00:00+00:00"
              Sample.alice db (Sample.cart_of_alice [derby; Sample.line 2]) eq_refl)
    as (view & Heq & Hlines & _).
  exists view. split; [exact Heq|]. rewrite Hlines. by vm_compute.
Defined.

(** [clear_cart] never creates a cart: for a user without one it answers
    "Cart cleared" and leaves the store as it is; for a user with a cart it
    leaves that cart with no items and the time of the request. *)
Theorem clear_cart_creates_no_cart now user db :
  (find_one (cart_of (User.id user)) (carts db) = None ->
   clear_cart now user db = (Returned "Cart cleared", db))
  ∧ (forall cart,
       find_one (cart_of (User.id user)) (carts db) = Some cart ->
       (clear_cart now user db).1 = Returned "Cart cleared"
       ∧ find_one (cart_of (User.id user)) (carts (clear_cart now user db).2)
         = Some (Cart.mk (Cart.id cart) (Cart.user_id cart) [] now)
       ∧ length (carts (clear_cart now user db).2) = length (carts db)).
Proof.
  unfold clear_cart. run. split.
  - intros Hnone. rewrite update_one_no_match by done. by destruct db.
  - intros cart Hfind. split_and!; [done| |].
    + rewrite (find_one_update_one _ _ _ cart); [done|done|].
      rewrite cart_of_set_items_updated_at. by apply find_one_Some in Hfind as [_ ?].
    + clear. induction (carts db) as [|c rest IH]; simpl; [done|].
      destruct (cart_of (User.id user) c); simpl; by rewrite ?IH.
Qed.

Lemma clear_cart_creates_no_cart_witness :
  clear_cart "2024-02-01T12:00:00+00:00" Sample.bob
    (mkDB [] [Sample.oxford] [Sample.cart_of_alice [Sample.line 2]] [] [])
  = (Returned "Cart cleared",
     mkDB [] [Sample.oxford] [Sample.cart_of_alice [Sample.line 2]] [] []).
Proof.
  apply (clear_cart_creates_no_cart "2024-02-01T12:00:00+00:00" Sample.bob
           (mkDB [] [Sample.oxford] [Sample.cart_of_alice [Sample.line 2]] [] [])).
  reflexivity.
Defined.

(** What a store holds outside its carts. *)
Lemma set_carts_frame l db :
  users (set_carts l db) = users db
  ∧ products (set_carts l db) = products db
  ∧ payment_transactions (set_carts l db) = payment_transactions db
  ∧ orders (set_carts l db) = orders db.
Proof. done. Qed.

Lemma cart_write_other_user uid other items now db :
  other ≠ uid ->
  find_one (cart_of other)
    (carts (set_carts (update_one (cart_of uid) (Cart.set_items_updated_at items now)
                         (carts db)) db))
  = find_one (cart_of other) (carts db).
Proof. intros Hother. simpl. by apply find_one_other_cart. Qed.

(** The cart routes of one user never reach another user's cart, nor any
    other collection: after [get_cart], [add_to_cart], [update_cart_item]
    or [clear_cart] by [user], every other user finds the cart they had,
    and users, products, transactions and orders are as before. *)
Theorem cart_routes_touch_only_the_caller user other db
    (Hother : other ≠ User.id user) :
  let untouched (db' : DB) :=
    find_one (cart_of other) (carts db') = find_one (cart_of other) (carts db)
    ∧ users db' = users db ∧ products db' = products db
    ∧ payment_transactions db' = payment_transactions db ∧ orders db' = orders db in
  (forall new_id now, untouched (get_cart new_id now user db).2)
  ∧ (forall new_id now_created now item,
       untouched (add_to_cart new_id now_created now item user db).2)
  ∧ (forall now item, untouched (update_cart_item now item user db).2)
  ∧ (forall now, untouched (clear_cart now user db).2).
Proof.
  intros untouched. subst untouched. split_and!.
  - intros new_id now. rewrite get_cart_eq.
    destruct (find_one (cart_of (User.id user)) (carts db)); simpl; [done|].
    split_and!; [|done..]. by apply (find_one_insert_one_other (User.id user)).
  - intros new_id now_created now item.
    destruct (find_one (cart_of (User.id user)) (carts db)) as [cart|] eqn:Hfind.
    + rewrite (add_to_cart_found _ _ _ _ _ _ cart) by done.
      destruct (encode_items (add_item item (Cart.items cart))); [|done].
      split_and!; [|done..]. by apply cart_write_other_user.
    + rewrite add_to_cart_created by done.
      destruct (encode_items [item]); simpl;
        (split_and!; [|done..]); by apply (find_one_insert_one_other (User.id user)).
  - intros now item.
    destruct (find_one (cart_of (User.id user)) (carts db)) as [cart|] eqn:Hfind.
    + rewrite (update_cart_item_found _ _ _ _ cart) by done.
      destruct (encode_items (update_item item (Cart.items cart))); [|done].
      split_and!; [|done..]. by apply cart_write_other_user.
    + by rewrite update_cart_item_no_cart.
  - intros now. unfold clear_cart. run.
    split_and!; [|done..]. by apply find_one_other_cart.
Qed.

(** Alice adds a pair; bob still finds his cart as it was. *)
Lemma cart_routes_touch_only_the_caller_witness :
  find_one (cart_of "u-bob")
    (carts (add_to_cart "c-9" "2024-02-01T12:00:00+00:00" "2024-02-01T12:00:00+00:00"
              (Sample.line 1) Sample.alice
              (mkDB [] [Sample.oxford]
                 [Sample.cart_of_alice []; Sample.cart_of_bob [Sample.line 2]] [] [])).2)
  = Some (Sample.cart_of_bob [Sample.line 2]).
Proof.
  destruct (cart_routes_touch_only_the_caller Sample.alice "u-bob"
              (mkDB [] [Sample.oxford]
                 [Sample.cart_of_alice []; Sample.cart_of_bob [Sample.line 2]] [] [])
              ltac:(discriminate))
    as (_ & Hadd & _).
  destruct (Hadd "c-9" "2024-02-01T12:00:00+00:00" "2024-02-01T12:00:00+00:00"
              (Sample.line 1)) as [Hcart _].
  rewrite Hcart. reflexivity.
Defined.

Lemma update_cart_item_ok now item user db :
  is_Some (find_one (cart_of (User.id user)) (carts db)) ->
  encodable (update_item item (items_of (User.id user) db)) ->
  (update_cart_item now item user db).1 = Returned "Cart updated"
  ∧ items_of (User.id user) (update_cart_item now item user db).2
    = update_item item (items_of (User.id user) db).
Proof.
  unfold items_of. intros [cart Hfind]. rewrite Hfind. intros Hfits.
  rewrite (update_cart_item_found _ _ _ _ cart) by done.
  rewrite encode_items_ok by done. simpl. split; [done|].
  rewrite (find_one_update_one _ _ _ cart); [done|done|].
  rewrite cart_of_set_items_updated_at. by apply find_one_Some in Hfind as [_ ?].
Qed.

Lemma update_cart_item_overflow now item user db :
  is_Some (find_one (cart_of (User.id user)) (carts db)) ->
  ¬ encodable (update_item item (items_of (User.id user) db)) ->
  update_cart_item now item user db = (Raised OverflowError, db).
Proof.
  unfold items_of. intros [cart Hfind]. rewrite Hfind. intros Hover.
  rewrite (update_cart_item_found _ _ _ _ cart) by done.
  by rewrite encode_items_overflow.
Qed.

(** Whatever becomes of the add, the user has a cart after it. *)
Lemma add_to_cart_leaves_cart new_id now_created now item user db :
  is_Some (find_one (cart_of (User.id user))
             (carts (add_to_cart new_id now_created now item user db).2)).
Proof.
  destruct (find_one (cart_of (User.id user)) (carts db)) as [cart|] eqn:Hfind.
  - rewrite (add_to_cart_found _ _ _ _ _ _ cart) by done.
    destruct (encode_items (add_item item (Cart.items cart))); simpl; [|by rewrite Hfind].
    rewrite (find_one_update_one _ _ _ cart); [done|done|].
    rewrite cart_of_set_items_updated_at. by apply find_one_Some in Hfind as [_ ?].
  - rewrite add_to_cart_created by done.
    destruct (encode_items [item]); simpl;
      (rewrite find_one_insert_one_new; [done|done|apply cart_of_new]).
Qed.

Lemma first_match_appended item x items :
  same_line item x ->
  CartItem.key x ∉ CartItem.key <$> items ->
  first_match item (items ++ [x]) (length items) x.
Proof.
  intros Hsame Hnew. split_and!.
  - by rewrite lookup_app_r, Nat.sub_diag.
  - done.
  - intros j y Hj Hlt Hy. rewrite lookup_app_l in Hj by done.
    apply Hnew. apply list_elem_of_fmap. exists y. split.
    + apply same_line_key in Hsame, Hy. congruence.
    + by eapply list_elem_of_lookup_2.
Qed.

(** An add followed by an update of the same triple, for a triple the cart
    did not hold and a cart whose quantities the store can hold. When the
    added quantity fits in a 64-bit integer the add succeeds, and then: an
    update with a quantity of at most 0 takes the added line out again, so
    the items are what they were before the add; an update with a positive
    quantity that fits leaves the line with exactly that quantity, whatever
    was added; an update with a quantity that does not fit raises
    [OverflowError] and the line keeps the added quantity. When the added
    quantity does not fit, the add raises [OverflowError], the line is not
    there, and the update succeeds and leaves the items as they were. *)
Theorem add_then_update new_id now_created now1 now2 p s c q1 q2 user db
    (Hnew : CartItem.key (CartItem.mk p q1 s c)
            ∉ CartItem.key <$> items_of (User.id user) db)
    (Hstore : encodable (items_of (User.id user) db)) :
  let added := add_to_cart new_id now_created now1 (CartItem.mk p q1 s c) user db in
  let result := update_cart_item now2 (CartItem.mk p q2 s c) user added.2 in
  (fits_int64 q1 ->
   added.1 = Returned "Item added to cart"
   ∧ (q2 <= 0 ->
      result.1 = Returned "Cart updated"
      ∧ items_of (User.id user) result.2 = items_of (User.id user) db)
   ∧ (0 < q2 -> fits_int64 q2 ->
      result.1 = Returned "Cart updated"
      ∧ items_of (User.id user) result.2
        = items_of (User.id user) db ++ [CartItem.mk p q2 s c])
   ∧ (0 < q2 -> ¬ fits_int64 q2 ->
      result.1 = Raised OverflowError
      ∧ items_of (User.id user) result.2
        = items_of (User.id user) db ++ [CartItem.mk p q1 s c]))
  ∧ (¬ fits_int64 q1 ->
     added.1 = Raised OverflowError
     ∧ result.1 = Returned "Cart updated"
     ∧ items_of (User.id user) result.2 = items_of (User.id user) db).
Proof.
  intros added result.
  assert (add_item (CartItem.mk p q1 s c) (items_of (User.id user) db)
          = items_of (User.id user) db ++ [CartItem.mk p q1 s c]) as Hadd.
  { apply add_item_new. by apply existing_index_None. }
  pose proof (add_to_cart_leaves_cart new_id now_created now1 (CartItem.mk p q1 s c)
                user db) as Hcart.
  fold added in Hcart.
  split.
  - intros Hq1.
    destruct (add_to_cart_ok new_id now_created now1 (CartItem.mk p q1 s c) user db)
      as [Hout Hitems].
    { rewrite Hadd. apply encodable_app. split; [done|by apply encodable_singleton]. }
    fold added in Hout, Hitems. rewrite Hadd in Hitems.
    pose proof (first_match_appended (CartItem.mk p q2 s c) (CartItem.mk p q1 s c)
                  (items_of (User.id user) db) ltac:(done) Hnew) as Hfirst.
    rewrite <- Hitems in Hfirst.
    split_and!; [done|..].
    + intros Hq2.
      assert (update_item (CartItem.mk p q2 s c) (items_of (User.id user) added.2)
              = items_of (User.id user) db) as Hupd.
      { rewrite (update_item_remove _ _ _ _ Hfirst) by done.
        rewrite Hitems, delete_middle. by rewrite app_nil_r. }
      destruct (update_cart_item_ok now2 (CartItem.mk p q2 s c) user added.2)
        as [Hres Hafter]; [done|by rewrite Hupd|].
      fold result in Hres, Hafter. by rewrite Hafter, Hupd.
    + intros Hq2 Hfits.
      assert (update_item (CartItem.mk p q2 s c) (items_of (User.id user) added.2)
              = items_of (User.id user) db ++ [CartItem.mk p q2 s c]) as Hupd.
      { rewrite (update_item_set _ _ _ _ Hfirst) by done.
        rewrite Hitems. by rewrite insert_app_r_alt, Nat.sub_diag. }
      destruct (update_cart_item_ok now2 (CartItem.mk p q2 s c) user added.2)
        as [Hres Hafter]; [done| |].
      { rewrite Hupd. apply encodable_app. split; [done|by apply encodable_singleton]. }
      fold result in Hres, Hafter. by rewrite Hafter, Hupd.
    + intros Hq2 Hover.
      assert (update_item (CartItem.mk p q2 s c) (items_of (User.id user) added.2)
              = items_of (User.id user) db ++ [CartItem.mk p q2 s c]) as Hupd.
      { rewrite (update_item_set _ _ _ _ Hfirst) by done.
        rewrite Hitems. by rewrite insert_app_r_alt, Nat.sub_diag. }
      pose proof (update_cart_item_overflow now2 (CartItem.mk p q2 s c) user added.2
                    Hcart) as Hres.
      fold result in Hres. rewrite Hres; [simpl; by rewrite Hitems|].
      rewrite Hupd. intros [_ Hlast%encodable_singleton]%encodable_app. by apply Hover.
  - intros Hq1.
    destruct (add_to_cart_overflow new_id now_created now1 (CartItem.mk p q1 s c) user db)
      as (Hout & Hitems & _).
    { rewrite Hadd. intros [_ Hlast%encodable_singleton]%encodable_app. by apply Hq1. }
    fold added in Hout, Hitems.
    assert (update_item (CartItem.mk p q2 s c) (items_of (User.id user) added.2)
            = items_of (User.id user) db) as Hupd.
    { rewrite Hitems. apply update_item_no_match. by apply existing_index_None. }
    destruct (update_cart_item_ok now2 (CartItem.mk p q2 s c) user added.2)
      as [Hres Hafter]; [done|by rewrite Hupd|].
    fold result in Hres, Hafter. by rewrite Hafter, Hupd.
Qed.

(** Alice adds three pairs, then sets the line to 0: her cart is empty
    again. *)
Lemma add_then_update_witness :
  items_of "u-alice"
    (update_cart_item "2024-02-01T12:01:00+00:00" (Sample.line 0) Sample.alice
       (add_to_cart "c-alice" "2024-02-01T12:00:00+00:00" "2024-02-01T12:00:00+00:00"
          (Sample.line 3) Sample.alice Sample.fresh_store).2).2
  = [].
Proof.
  destruct (add_then_update "c-alice" "2024-02-01T12:00:00+00:00"
              "2024-02-01T12:00:00+00:00" "2024-02-01T12:01:00+00:00"
              "p-oxford" "9" "Black" 3 0 Sample.alice Sample.fresh_store)
    as [Hfits _].
  - vm_compute. apply not_elem_of_nil.
  - constructor.
  - destruct Hfits as (_ & Hremove & _); [unfold fits_int64; lia|].
    apply Hremove. lia.
Defined.

(** * Further properties of the checkout routes *)

Lemma cart_total_nothing_sold catalog items acc :
  Forall (fun item =>
            find_one (product_with_id (CartItem.product_id item)) catalog = None) items ->
  cart_total catalog items acc = Returned acc.
Proof.
  intros Hgone. revert acc.
  induction Hgone as [|item rest Hitem _ IH]; intros acc; simpl; [done|].
  rewrite Hitem. apply IH.
Qed.

(** A cart whose products have all left the catalog cannot be checked out:
    the lines add nothing, the total stays 0.0 and the request is refused
    with 400 "Invalid cart total" (not "Cart is empty"), nothing written. *)
Theorem checkout_refused_when_nothing_is_sold `{SC : Stripe.StripeCheckout}
    new_id now origin_url user db cart
    (Hfind : find_one (cart_of (User.id user)) (carts db) = Some cart)
    (Hitems : Cart.items cart ≠ [])
    (Hgone : Forall (fun item =>
                       find_one (product_with_id (CartItem.product_id item)) (products db)
                       = None)
                    (Cart.items cart)) :
  create_checkout_session new_id now origin_url user db
  = (Raised (HTTPException 400 "Invalid cart total"), db).
Proof.
  apply (create_session_invalid_total _ _ _ _ _ cart 0%float); [done|done| |done].
  by apply cart_total_nothing_sold.
Qed.

(** [add_to_cart] does not look the product up: alice adds a product the
    catalog never held, and her checkout is then refused. *)
Lemma checkout_refused_when_nothing_is_sold_witness :
  let db := (add_to_cart "c-alice" "2024-02-01T12:00:00+00:00"
               "2024-02-01T12:00:00+00:00" (CartItem.mk "p-derby" 1 "9" "Brown")
               Sample.alice Sample.fresh_store).2 in
  create_checkout_session (SC := Sample.paying) "t-1" "2024-02-01T12:05:00+00:00"
    "https://shop.example" Sample.alice db
  = (Raised (HTTPException 400 "Invalid cart total"), db).
Proof.
  intros db.
  apply (checkout_refused_when_nothing_is_sold (SC := Sample.paying) _ _ _ _ _
           (Cart.mk "c-alice" "u-alice" [CartItem.mk "p-derby" 1 "9" "Brown"]
              "2024-02-01T12:00:00+00:00")).
  - reflexivity.
  - discriminate.
  - by repeat constructor.
Defined.

Lemma update_one_appended {A : Type} (filter : A -> bool) (set : A -> A) coll doc :
  find_one filter coll = None -> filter doc = true ->
  update_one filter set (insert_one doc coll) = coll ++ [set doc].
Proof.
  unfold find_one, insert_one. intros Hnone Hdoc.
  induction coll as [|x rest IH]; simpl in *.
  - by rewrite Hdoc.
  - destruct (filter x); [done|]. f_equal. by apply IH.
Qed.

Lemma transaction_of_recorded new_id now user cart total session :
  transaction_of (Stripe.session_id session)
    (recorded_transaction new_id now user cart total session) = true.
Proof. unfold transaction_of. simpl. by apply bool_decide_eq_true. Qed.

Lemma status_paid_creates_order `{SC : Stripe.StripeCheckout}
    now_paid new_id now_order session_id user db status transaction cart total :
  Stripe.get_checkout_status session_id = Returned status ->
  Stripe.payment_status status = "paid" ->
  find_one (transaction_of session_id) (payment_transactions db) = Some transaction ->
  PaymentTransaction.payment_status transaction ≠ "paid" ->
  find_one (cart_of (User.id user)) (carts db) = Some cart ->
  Cart.items cart ≠ [] ->
  int_truediv (Stripe.amount_total status) 100 = Returned total ->
  get_checkout_status now_paid new_id now_order session_id user db
  = (Returned (status_fields status),
     empty_cart user
       (set_orders
          (insert_one (confirmed_order session_id new_id now_order user
                         (Cart.items cart) total) (orders db))
          (mark_paid session_id now_paid db))).
Proof.
  intros Hstatus Hpaid Hfind Hnot Hcart Hitems Hdiv.
  rewrite (status_paid_transition _ _ Hstatus _ _ _ _ _ transaction) by done.
  rewrite Hcart, Hdiv. by destruct (Cart.items cart).
Qed.

(** From checkout to order. A user with items in the cart opens a session
    under an id the store has not seen, the provider then reports it paid,
    and the same user polls: the transaction recorded for the session is
    marked paid, one confirmed order is appended with the items of the cart
    and the reported amount divided by 100 as its total, and the cart is
    left empty. *)
Theorem session_then_paid_poll `{SC : Stripe.StripeCheckout}
    tx_id now_tx origin_url now_paid order_id now_order user db
    cart session status paid_total
    (Hfind : find_one (cart_of (User.id user)) (carts db) = Some cart)
    (Hitems : Cart.items cart ≠ [])
    (Hok : Forall convertible (Cart.items cart))
    (Hpositive : PrimFloat.leb (sum_of_lines (products db) (Cart.items cart)) 0%float
                 = false)
    (Hsession : Stripe.create_checkout_session
                  (checkout_request origin_url
                     (sum_of_lines (products db) (Cart.items cart)) user cart)
                = Returned session)
    (Hfresh : find_one (transaction_of (Stripe.session_id session))
                (payment_transactions db) = None)
    (Hstatus : Stripe.get_checkout_status (Stripe.session_id session) = Returned status)
    (Hpaid : Stripe.payment_status status = "paid")
    (Hdiv : int_truediv (Stripe.amount_total status) 100 = Returned paid_total) :
  let opened := create_checkout_session tx_id now_tx origin_url user db in
  let polled :=
    get_checkout_status now_paid order_id now_order (Stripe.session_id session) user
      opened.2 in
  opened.1 = Returned (Stripe.url session, Stripe.session_id session)
  ∧ polled.1 = Returned (status_fields status)
  ∧ payment_transactions polled.2
    = payment_transactions db
      ++ [PaymentTransaction.set_paid now_paid
            (PaymentTransaction.mk tx_id (Stripe.session_id session) (User.id user)
               (sum_of_lines (products db) (Cart.items cart)) "usd" "pending" "initiated"
               (Cart.id cart) now_tx None)]
  ∧ orders polled.2
    = orders db ++ [Order.mk order_id (User.id user) (Cart.items cart) paid_total
                      "confirmed" (Stripe.session_id session) now_order]
  ∧ items_of (User.id user) polled.2 = [].
Proof.
  intros opened polled. subst opened polled.
  assert (cart_total (products db) (Cart.items cart) 0%float
          = Returned (sum_of_lines (products db) (Cart.items cart))) as Htotal
    by (by apply cart_total_returns).
  rewrite (create_session_provider _ _ _ _ _ cart _ Hfind Hitems Htotal Hpositive).
  rewrite Hsession. cbn [fst snd].
  set (tx := recorded_transaction tx_id now_tx user cart
               (sum_of_lines (products db) (Cart.items cart)) session).
  set (db1 := set_payment_transactions (insert_one tx (payment_transactions db)) db).
  assert (find_one (transaction_of (Stripe.session_id session))
            (payment_transactions db1) = Some tx) as Htx.
  { apply find_one_insert_one_new; [done|apply transaction_of_recorded]. }
  rewrite (status_paid_creates_order now_paid order_id now_order _ user db1 status tx
             cart paid_total Hstatus Hpaid Htx ltac:(discriminate) Hfind Hitems Hdiv).
  split_and!; [done|done| |done|].
  - cbn [snd]. unfold empty_cart, mark_paid, db1. simpl.
    apply (update_one_appended _ _ _ tx); [done|apply transaction_of_recorded].
  - apply (items_of_empty_cart user).
Qed.

(** Alice, with one Oxford in her cart, checks out and polls. *)
Lemma session_then_paid_poll_witness :
  let db := mkDB [] [Sample.oxford] [Sample.cart_of_alice [Sample.line 1]] [] [] in
  let opened :=
    create_checkout_session (SC := Sample.paying) "t-1" "2024-02-01T10:05:00+00:00"
      "https://shop.example" Sample.alice db in
  let polled :=
    get_checkout_status (SC := Sample.paying) "2024-02-01T10:06:00+00:00" "o-1"
      "2024-02-01T10:06:01+00:00" "cs_1" Sample.alice opened.2 in
  orders polled.2
  = [Order.mk "o-1" "u-alice" [Sample.line 1] 485%float "confirmed" "cs_1"
       "2024-02-01T10:06:01+00:00"]
  ∧ items_of "u-alice" polled.2 = [].
Proof.
  intros db opened polled.
  destruct (session_then_paid_poll (SC := Sample.paying)
              "t-1" "2024-02-01T10:05:00+00:00" "https://shop.example"
              "2024-02-01T10:06:00+00:00" "o-1" "2024-02-01T10:06:01+00:00"
              Sample.alice db (Sample.cart_of_alice [Sample.line 1])
              (Stripe.mkSession "https://pay.example/cs_1" "cs_1")
              (Stripe.mkStatus "complete" "paid" 48500 "usd") 485%float)
    as (_ & _ & _ & Horders & Hcart);
    [reflexivity|discriminate|by repeat constructor|by vm_compute|reflexivity
    |reflexivity|reflexivity|reflexivity|by vm_compute|].
  split; [exact Horders|exact Hcart].
Defined.

Lemma find_after_mark_paid_cases session_id now db :
  forall transaction,
    find_one (transaction_of session_id)
      (payment_transactions (mark_paid session_id now db)) = Some transaction ->
    PaymentTransaction.payment_status transaction = "paid".
Proof.
  intros marked.
  destruct (find_one (transaction_of session_id) (payment_transactions db))
    as [stored|] eqn:Hfind.
  - rewrite (find_after_mark_paid _ _ _ stored) by done. by intros [= <-].
  - unfold mark_paid. simpl. by rewrite find_one_update_one_none.
Qed.

(** A webhook that gets there first stands in the way of the order. Once
    a verified paid event for a session has been handled, a poll of that
    session finds the transaction paid and only reads: it creates no order
    and leaves every cart as it is, whatever the store held. *)
Theorem webhook_before_poll_prevents_order `{SC : Stripe.StripeCheckout}
    now body signature now_paid new_id now_order user db event status
    (Hverified : Stripe.handle_webhook body signature = Returned event)
    (Hevent : Stripe.event_payment_status event = "paid")
    (Hstatus : Stripe.get_checkout_status (Stripe.event_session_id event)
               = Returned status)
    (Hpaid : Stripe.payment_status status = "paid") :
  let delivered := (stripe_webhook now body signature db).2 in
  get_checkout_status now_paid new_id now_order (Stripe.event_session_id event) user
    delivered
  = (Returned (status_fields status), delivered)
  ∧ orders delivered = orders db
  ∧ carts delivered = carts db.
Proof.
  intros delivered. subst delivered.
  rewrite stripe_webhook_eq, Hverified, bool_decide_eq_true_2 by done.
  cbn [snd]. split_and!; [|done..].
  apply (status_paid_read_only _ status Hstatus); [done|].
  apply find_after_mark_paid_cases.
Qed.

(** The event for alice's session arrives before she polls: her poll
    leaves her with a paid transaction, her cart and no order. *)
Lemma webhook_before_poll_prevents_order_witness :
  let db := mkDB [] [Sample.oxford] [Sample.cart_of_alice [Sample.line 1]]
              [Sample.pending] [] in
  let delivered := (stripe_webhook (SC := Sample.paying) "2024-02-01T10:06:00+00:00"
                      "{}" (Some "good") db).2 in
  get_checkout_status (SC := Sample.paying) "2024-02-01T10:07:00+00:00" "o-1"
    "2024-02-01T10:07:01+00:00" "cs_1" Sample.alice delivered
  = (Returned (mkStatusFields "complete" "paid" 48500 "usd"),
     mkDB [] [Sample.oxford] [Sample.cart_of_alice [Sample.line 1]] [Sample.paid] []).
Proof.
  intros db delivered.
  destruct (webhook_before_poll_prevents_order (SC := Sample.paying)
              "2024-02-01T10:06:00+00:00" "{}" (Some "good")
              "2024-02-01T10:07:00+00:00" "o-1" "2024-02-01T10:07:01+00:00"
              Sample.alice db (Stripe.mkEvent "cs_1" "paid")
              (Stripe.mkStatus "complete" "paid" 48500 "usd")
              eq_refl eq_refl eq_refl eq_refl) as [Hpoll _].
  exact Hpoll.
Defined.

(** A poll writes only on the transition. When the provider cannot be
    asked the poll fails with the provider's exception; when the session is
    not reported paid, or no transaction is stored for it, the poll returns
    the provider's fields. In all three cases the store is left as it
    was: no transaction is created for an unknown session. *)
Theorem poll_without_transition_only_reads `{SC : Stripe.StripeCheckout}
    now_paid new_id now_order session_id user db :
  (forall e, Stripe.get_checkout_status session_id = Raised e ->
     get_checkout_status now_paid new_id now_order session_id user db = (Raised e, db))
  ∧ (forall status,
       Stripe.get_checkout_status session_id = Returned status ->
       Stripe.payment_status status ≠ "paid"
       ∨ find_one (transaction_of session_id) (payment_transactions db) = None ->
       get_checkout_status now_paid new_id now_order session_id user db
       = (Returned (status_fields status), db)).
Proof.
  split.
  - intros e He. unfold get_checkout_status. run. by rewrite He.
  - intros status Hstatus Hcase.
    destruct (decide (Stripe.payment_status status = "paid")) as [Hpaid|Hnot].
    + destruct Hcase as [?|Hnone]; [done|].
      apply (status_paid_read_only _ status Hstatus); [done|].
      intros transaction. by rewrite Hnone.
    + by apply status_not_paid.
Qed.

(** Bob polls a session id nobody opened. *)
Lemma poll_without_transition_only_reads_witness :
  get_checkout_status (SC := Sample.paying) "2024-02-01T10:07:00+00:00" "o-1"
    "2024-02-01T10:07:01+00:00" "cs_unknown" Sample.bob
    (mkDB [] [Sample.oxford] [Sample.cart_of_bob [Sample.line 1]] [Sample.pending] [])
  = (Returned (mkStatusFields "complete" "paid" 48500 "usd"),
     mkDB [] [Sample.oxford] [Sample.cart_of_bob [Sample.line 1]] [Sample.pending] []).
Proof.
  destruct (poll_without_transition_only_reads (SC := Sample.paying)
              "2024-02-01T10:07:00+00:00" "o-1" "2024-02-01T10:07:01+00:00"
              "cs_unknown" Sample.bob
              (mkDB [] [Sample.oxford] [Sample.cart_of_bob [Sample.line 1]]
                 [Sample.pending] [])) as [_ Hreads].
  apply (Hreads (Stripe.mkStatus "complete" "paid" 48500 "usd") eq_refl).
  right. reflexivity.
Defined.

Lemma update_one_length {A : Type} (filter : A -> bool) (set : A -> A) coll :
  length (update_one filter set coll) = length coll.
Proof.
  induction coll as [|x rest IH]; simpl; [done|].
  destruct (filter x); simpl; by rewrite ?IH.
Qed.

(** The webhook writes to the transactions only, and only to one that is
    already stored: users, products, carts and orders stay as they are and
    no transaction is added; an event for a session without a stored
    transaction, or one that does not report [paid], changes nothing. *)
Theorem webhook_writes_transactions_only `{SC : Stripe.StripeCheckout}
    now body signature db :
  let db' := (stripe_webhook now body signature db).2 in
  users db' = users db ∧ products db' = products db
  ∧ carts db' = carts db ∧ orders db' = orders db
  ∧ length (payment_transactions db') = length (payment_transactions db)
  ∧ (forall event,
       Stripe.handle_webhook body signature = Returned event ->
       Stripe.event_payment_status event ≠ "paid"
       ∨ find_one (transaction_of (Stripe.event_session_id event))
           (payment_transactions db) = None ->
       db' = db).
Proof.
  intros db'. subst db'. rewrite stripe_webhook_eq.
  destruct (Stripe.handle_webhook body signature) as [event|e].
  2:{ split_and!; try done. }
  destruct (bool_decide (Stripe.event_payment_status event = "paid")) eqn:Hpaid.
  - cbn [snd]. split_and!; [done..|apply update_one_length|].
    intros ? [= <-] [Hnot|Hnone].
    + by apply bool_decide_eq_true in Hpaid.
    + unfold mark_paid. rewrite update_one_no_match by done. by destruct db.
  - split_and!; done.
Qed.

(** A verified paid event for a session the store does not know. *)
Lemma webhook_writes_transactions_only_witness :
  (stripe_webhook (SC := Sample.paying) "2024-02-01T10:06:00+00:00" "{}" (Some "good")
     (mkDB [] [Sample.oxford] [Sample.cart_of_alice [Sample.line 1]] [] [])).2
  = mkDB [] [Sample.oxford] [Sample.cart_of_alice [Sample.line 1]] [] [].
Proof.
  destruct (webhook_writes_transactions_only (SC := Sample.paying)
              "2024-02-01T10:06:00+00:00" "{}" (Some "good")
              (mkDB [] [Sample.oxford] [Sample.cart_of_alice [Sample.line 1]] [] []))
    as (_ & _ & _ & _ & _ & Hsame).
  apply (Hsame (Stripe.mkEvent "cs_1" "paid") eq_refl). right. reflexivity.
Defined.

(** * Further properties of the statistics *)

(** Ten orders of 0.10: added one by one the totals come to
    0.9999999999999999, with the compensated summation to 1.0. *)
Example ten_dimes :
  let dime := 0x1.999999999999ap-4%float in
  Py.sum Plain (replicate 10 dime) = Float 0x1.fffffffffffffp-1%float
  ∧ Py.sum Compensated (replicate 10 dime) = Float 1%float.
Proof. split; by vm_compute. Qed.

(** [get_admin_stats] never fails and never writes, whichever way the
    interpreter adds floats up. The three counts are those of the
    collections. The revenue is the int [0] when there is no order and a
    float otherwise; it is made of the totals of the first 1000 orders
    only, so two stores that agree on these report the same revenue; and
    when the interpreter adds one item at a time it is the sum of these
    totals in store order from [0.0]. *)
Theorem stats_are_counts_and_a_capped_sum py user db :
  exists revenue,
    get_admin_stats py user db
    = (Returned
         (mkStats (Z.of_nat (length (products db))) (Z.of_nat (length (orders db)))
            (Z.of_nat (length (users db))) revenue),
       db)
    ∧ (orders db = [] -> revenue = Int 0)
    ∧ (orders db ≠ [] -> exists x, revenue = Float x)
    ∧ (py = Plain -> orders db ≠ [] ->
       revenue
       = Float (foldl PrimFloat.add 0%float (Order.total <$> take 1000 (orders db))))
    ∧ (forall user' db' stats,
         Order.total <$> take 1000 (orders db') = Order.total <$> take 1000 (orders db) ->
         (get_admin_stats py user' db').1 = Returned stats ->
         total_revenue stats = revenue).
Proof.
  exists (Py.sum py (Order.total <$> take 1000 (orders db))).
  split_and!.
  - by rewrite get_admin_stats_eq.
  - by intros ->.
  - destruct (orders db) as [|order rest]; [done|]. intros _.
    change (take 1000 (order :: rest)) with (order :: take 999 rest).
    by eexists.
  - intros -> Horders. destruct (orders db) as [|order rest]; [done|].
    change (take 1000 (order :: rest)) with (order :: take 999 rest). done.
  - intros user' db' stats Hsame. rewrite get_admin_stats_eq. unfold to_list.
    rewrite Hsame. simpl. by intros [= <-].
Qed.

(** * Authentication *)

Lemma split_space_nonempty s : split_space s ≠ [].
Proof.
  destruct s as [|c rest]; simpl; [done|].
  destruct (Ascii.eqb c (Ascii.ascii_of_nat 32)); [done|].
  by destruct (split_space rest).
Qed.

(** [(s + " " + r).split(" ") == s.split(" ") + r.split(" ")] *)
Lemma split_space_app s r :
  split_space (s +:+ " " +:+ r) = split_space s ++ split_space r.
Proof.
  induction s as [|c s IH]; [done|].
  change (String c s +:+ " " +:+ r) with (String c (s +:+ " " +:+ r)).
  cbn [split_space]. rewrite IH.
  destruct (Ascii.eqb c (Ascii.ascii_of_nat 32)); [done|].
  pose proof (split_space_nonempty s). by destruct (split_space s).
Qed.

Lemma bearer_token token : nth 1 (split_space ("Bearer " +:+ token)) "" = hd "" (split_space token).
Proof.
  change ("Bearer " +:+ token) with ("Bearer" +:+ " " +:+ token).
  rewrite split_space_app. simpl.
  pose proof (split_space_nonempty token). by destruct (split_space token).
Qed.

Lemma get_current_user_bearer `{J : Jwt.JWT} rest db :
  get_current_user (Some ("Bearer " +:+ rest)) db
  = match Jwt.decode (hd "" (split_space rest)) with
    | Jwt.Decoded payload =>
        match Jwt.user_id payload with
        | None => (Raised (KeyError "user_id"), db)
        | Some user_id =>
            match find_one (user_with_id user_id) (users db) with
            | Some user => (Returned user, db)
            | None => (Raised (HTTPException 401 "User not found"), db)
            end
        end
    | Jwt.ExpiredSignatureError => (Raised (HTTPException 401 "Token expired"), db)
    | Jwt.InvalidTokenError => (Raised (HTTPException 401 "Invalid token"), db)
    end.
Proof.
  unfold get_current_user.
  replace (bool_decide ("Bearer " +:+ rest = "") || negb (String.prefix "Bearer " ("Bearer " +:+ rest)))
    with false.
  2:{ simpl. by destruct rest. }
  rewrite bearer_token.
  destruct (Jwt.decode (hd "" (split_space rest))) as [payload| |]; [|done..].
  destruct (Jwt.user_id payload) as [user_id|]; [|done].
  run. by destruct (find_one (user_with_id user_id) (users db)).
Qed.

(** [get_current_user] never writes. When it lets a request through, the
    user it returns is a stored one, found under the [user_id] of the
    payload the token decoded to. It raises [KeyError] exactly when the
    header starts with ["Bearer "] and its token verifies to a payload
    without [user_id]; every other failure is a 401. *)
Theorem get_current_user_returns_a_stored_user `{J : Jwt.JWT} authorization db :
  let verified_as (payload : Jwt.Payload) :=
    exists header,
      authorization = Some header
      ∧ String.prefix "Bearer " header = true
      ∧ Jwt.decode (nth 1 (split_space header) "") = Jwt.Decoded payload in
  (get_current_user authorization db).2 = db
  ∧ (forall user, (get_current_user authorization db).1 = Returned user ->
       exists payload,
         verified_as payload
         ∧ Jwt.user_id payload = Some (User.id user)
         ∧ find_one (user_with_id (User.id user)) (users db) = Some user)
  ∧ ((get_current_user authorization db).1 = Raised (KeyError "user_id")
     <-> exists payload, verified_as payload ∧ Jwt.user_id payload = None)
  ∧ (forall e, (get_current_user authorization db).1 = Raised e ->
       e = KeyError "user_id" ∨ exists detail, e = HTTPException 401 detail).
Proof.
  intros verified_as. subst verified_as. unfold get_current_user.
  destruct authorization as [header|].
  2:{ split_and!; [done|done| |intros e [= <-]; eauto].
      split; [done|]. by intros (? & (? & ? & _) & _). }
  destruct (decide (header = "")) as [->|Hheader].
  { split_and!; [done|done| |intros e [= <-]; eauto].
    split; [done|]. by intros (? & (? & [= <-] & ? & _) & _). }
  rewrite (bool_decide_eq_false_2 (header = "")) by done. simpl.
  destruct (String.prefix "Bearer " header) eqn:Hprefix; simpl.
  2:{ split_and!; [done|done| |intros e [= <-]; eauto].
      split; [done|]. intros (? & (? & [= <-] & ? & _) & _). congruence. }
  destruct (Jwt.decode (nth 1 (split_space header) "")) as [payload| |] eqn:Hdecode.
  - destruct (Jwt.user_id payload) as [user_id|] eqn:Hid.
    + run.
      destruct (find_one (user_with_id user_id) (users db)) as [user|] eqn:Hu.
      * assert (User.id user = user_id) as Huser.
        { apply find_one_Some in Hu as [_ Hu]. unfold user_with_id in Hu.
          by apply bool_decide_eq_true in Hu. }
        split_and!; [done| | |done].
        -- intros ? [= <-]. exists payload. rewrite Huser. split; [|done].
           by exists header.
        -- split; [done|]. intros (payload' & (? & [= <-] & _ & Hd) & Hnone).
           congruence.
      * split_and!; [done|done| |intros e [= <-]; eauto].
        split; [done|]. intros (payload' & (? & [= <-] & _ & Hd) & Hnone).
        congruence.
    + split_and!; [done|done| |intros e [= <-]; eauto].
      split; [|done]. intros _. exists payload. split; [|done]. by exists header.
  - split_and!; [done|done| |intros e [= <-]; eauto].
    split; [done|]. intros (payload' & (? & [= <-] & _ & Hd) & _). congruence.
  - split_and!; [done|done| |intros e [= <-]; eauto].
    split; [done|]. intros (payload' & (? & [= <-] & _ & Hd) & _). congruence.
Qed.

(** A header with alice's token, and one with a token that verifies and
    names no user. *)
Lemma get_current_user_returns_a_stored_user_witness :
  find_one (user_with_id "u-alice") (users Sample.fresh_store) = Some Sample.alice
  ∧ (get_current_user (J := Demo.tokens) (Some "Bearer jwt.anonymous")
       Sample.fresh_store).1
    = Raised (KeyError "user_id").
Proof.
  destruct (get_current_user_returns_a_stored_user (J := Demo.tokens)
              (Some "Bearer jwt.u-alice") Sample.fresh_store) as (_ & Hpass & _).
  destruct (get_current_user_returns_a_stored_user (J := Demo.tokens)
              (Some "Bearer jwt.anonymous") Sample.fresh_store) as (_ & _ & Hkey & _).
  split.
  - destruct (Hpass Sample.alice eq_refl) as (payload & _ & _ & Hfind). exact Hfind.
  - apply Hkey. exists (Jwt.mkPayload None None None (Some 0%float)).
    split; [|reflexivity]. exists "Bearer jwt.anonymous". by split_and!.
Defined.

(** The token is the piece between ["Bearer "] and the next space: what
    follows it in the header is not looked at. *)
Theorem text_after_the_token_is_ignored `{J : Jwt.JWT} token trailing db
    (Htoken : split_space token = [token]) :
  get_current_user (Some ("Bearer " +:+ token +:+ " " +:+ trailing)) db
  = get_current_user (Some ("Bearer " +:+ token)) db.
Proof.
  rewrite !get_current_user_bearer.
  by rewrite split_space_app, Htoken.
Qed.

Lemma text_after_the_token_is_ignored_witness :
  get_current_user (J := Demo.tokens) (Some "Bearer jwt.u-alice and more")
    Sample.fresh_store
  = (Returned Sample.alice, Sample.fresh_store).
Proof.
  etransitivity.
  - exact (text_after_the_token_is_ignored (J := Demo.tokens) "jwt.u-alice" "and more"
             Sample.fresh_store eq_refl).
  - reflexivity.
Defined.

Lemma admin_only_eq {A : Type} `{J : Jwt.JWT} authorization (route : User.t -> handler A) db :
  admin_only authorization route db
  = match get_current_user authorization db with
    | (Returned user, db') =>
        if bool_decide (User.role user ≠ "admin")
        then (Raised (HTTPException 403 "Admin access required"), db')
        else route user db'
    | (Raised e, db') => (Raised e, db')
    end.
Proof.
  unfold admin_only, mbind, handler_bind at 1.
  destruct (get_current_user authorization db) as [[user|e] db']; [|done].
  unfold handler_bind, call, get_admin_user.
  by destruct (bool_decide (User.role user ≠ "admin")).
Qed.

(** An admin route goes by the role in the store. For a token that decodes
    to the id of a stored user, the route runs when that user's stored role
    is ["admin"] and is refused with 403, before it reads or writes
    anything, when it is not; the role written in the token plays no
    part. *)
Theorem admin_routes_go_by_the_stored_role {A : Type} `{J : Jwt.JWT}
    token payload user_id user (route : User.t -> handler A) db
    (Hdecode : Jwt.decode (hd "" (split_space token)) = Jwt.Decoded payload)
    (Hid : Jwt.user_id payload = Some user_id)
    (Hfind : find_one (user_with_id user_id) (users db) = Some user) :
  (User.role user = "admin" ->
   admin_only (Some ("Bearer " +:+ token)) route db = route user db)
  ∧ (User.role user ≠ "admin" ->
     admin_only (Some ("Bearer " +:+ token)) route db
     = (Raised (HTTPException 403 "Admin access required"), db)).
Proof.
  rewrite admin_only_eq, get_current_user_bearer, Hdecode, Hid, Hfind.
  split; intros Hrole.
  - by rewrite bool_decide_eq_false_2 by (by intros []).
  - by rewrite bool_decide_eq_true_2.
Qed.

(** Alice's token says ["admin"]; the store says ["user"]: no statistics. *)
Lemma admin_routes_go_by_the_stored_role_witness :
  Jwt.decode (JWT := Demo.tokens) "jwt.u-alice"
  = Jwt.Decoded (Jwt.mkPayload (Some "u-alice") (Some "") (Some "admin") (Some 0%float))
  ∧ admin_only (J := Demo.tokens) (Some "Bearer jwt.u-alice") (get_admin_stats Plain)
      Sample.fresh_store
    = (Raised (HTTPException 403 "Admin access required"), Sample.fresh_store).
Proof.
  split; [reflexivity|].
  apply (admin_routes_go_by_the_stored_role (J := Demo.tokens) "jwt.u-alice"
           (Jwt.mkPayload (Some "u-alice") (Some "") (Some "admin") (Some 0%float))
           "u-alice" Sample.alice (get_admin_stats Plain)
           Sample.fresh_store eq_refl eq_refl eq_refl).
  discriminate.
Defined.

(** * Registration and login *)

Lemma find_account_None email accounts :
  find_one (account_with_email email) accounts = None <-> email ∉ emails accounts.
Proof.
  unfold find_one, emails. induction accounts as [|a rest IH]; simpl.
  - split; [intros _; apply not_elem_of_nil|done].
  - rewrite not_elem_of_cons, <- IH. unfold account_with_email at 1.
    destruct (decide (User.email (Account.user a) = email)) as [Heq|Hne].
    + rewrite bool_decide_eq_true_2 by done. split; [done|]. by intros [? _].
    + rewrite bool_decide_eq_false_2 by done. split; [by intros ?|by intros [_ ?]].
Qed.

Lemma register_free `{B : Bcrypt.Bcrypt} `{J : Jwt.JWT}
    new_id salt created_at now user_data accounts :
  create_email user_data ∉ emails accounts ->
  register new_id salt created_at now user_data accounts
  = (Returned (mkTokenResponse
                 (create_token now new_id (create_email user_data) "user")
                 (Account.user (registered new_id salt created_at user_data))),
     insert_one (registered new_id salt created_at user_data) accounts).
Proof.
  intros Hfree. apply find_account_None in Hfree. unfold register. by rewrite Hfree.
Qed.

Lemma login_eq `{B : Bcrypt.Bcrypt} `{J : Jwt.JWT} now email password accounts :
  login now (mkUserLogin email password) accounts
  = match find_one (account_with_email email) accounts with
    | None => (Raised (HTTPException 401 "Invalid credentials"), accounts)
    | Some account =>
        if Bcrypt.checkpw password (Account.password account)
        then (Returned (mkTokenResponse
                          (create_token now (User.id (Account.user account))
                             (User.email (Account.user account))
                             (User.role (Account.user account)))
                          (Account.user account)),
              accounts)
        else (Raised (HTTPException 401 "Invalid credentials"), accounts)
    end.
Proof.
  unfold login, verify_password. simpl.
  destruct (find_one (account_with_email email) accounts) as [account|]; [|done].
  by destruct (Bcrypt.checkpw password (Account.password account)).
Qed.

(** [register] keeps the emails of the stored users distinct: it refuses
    an email that is taken with 400 and writes nothing, and otherwise
    appends one account, with role ["user"], the given id and the hash of
    the password. *)
Theorem register_keeps_emails_distinct `{B : Bcrypt.Bcrypt} `{J : Jwt.JWT}
    new_id salt created_at now user_data accounts :
  let result := register new_id salt created_at now user_data accounts in
  (create_email user_data ∈ emails accounts ->
   result = (Raised (HTTPException 400 "Email already registered"), accounts))
  ∧ (create_email user_data ∉ emails accounts ->
     result.2
     = accounts
       ++ [Account.mk
             (User.mk new_id (create_email user_data) (create_name user_data) "user"
                created_at)
             (Bcrypt.hashpw (create_password user_data) salt)])
  ∧ (NoDup (emails accounts) -> NoDup (emails result.2)).
Proof.
  intros result. subst result. unfold register.
  destruct (find_one (account_with_email (create_email user_data)) accounts)
    as [taken|] eqn:Hfind.
  - split_and!; [done| |done].
    intros Hfree. apply find_account_None in Hfree. congruence.
  - apply find_account_None in Hfind. split_and!; [done|done|].
    intros Hnodup. cbn [snd]. unfold insert_one, emails. rewrite fmap_app.
    apply NoDup_app. split_and!; [done| |apply NoDup_singleton].
    intros email Hin Hnew. apply list_elem_of_singleton in Hnew. by subst.
Qed.

(** Carol registers twice; the second request is refused. *)
Lemma register_keeps_emails_distinct_witness :
  let first := register (B := Demo.hashes) (J := Demo.tokens) "u-carol" "salt"
                 "2024-03-01T09:00:00+00:00" 1709283600%float Demo.carol [] in
  register (B := Demo.hashes) (J := Demo.tokens) "u-carol-2" "pepper"
    "2024-03-01T09:01:00+00:00" 1709283660%float Demo.carol first.2
  = (Raised (HTTPException 400 "Email already registered"), first.2).
Proof.
  intros first.
  apply (register_keeps_emails_distinct (B := Demo.hashes) (J := Demo.tokens)).
  vm_compute. apply list_elem_of_here.
Defined.

Lemma find_account_appended email account accounts :
  find_one (account_with_email email) accounts = None ->
  User.email (Account.user account) = email ->
  find_one (account_with_email email) (insert_one account accounts) = Some account.
Proof.
  intros Hnone Hemail. apply find_one_insert_one_new; [done|].
  unfold account_with_email. by apply bool_decide_eq_true.
Qed.

(** Registration and login round trip. After a registration under a free
    email, a login with the same email and a password the hash accepts
    returns a token for the registered user, with role ["user"]; a login
    with a password the hash rejects is refused with 401 "Invalid
    credentials", as is a login under an email nobody registered. No login
    writes. *)
Theorem register_then_login `{B : Bcrypt.Bcrypt} `{J : Jwt.JWT}
    new_id salt created_at now now' user_data accounts
    (Hfree : create_email user_data ∉ emails accounts) :
  let accounts' := (register new_id salt created_at now user_data accounts).2 in
  let user := User.mk new_id (create_email user_data) (create_name user_data) "user"
                created_at in
  (forall password,
     Bcrypt.checkpw password (Bcrypt.hashpw (create_password user_data) salt) = true ->
     login now' (mkUserLogin (create_email user_data) password) accounts'
     = (Returned (mkTokenResponse
                    (create_token now' new_id (create_email user_data) "user") user),
        accounts'))
  ∧ (forall password,
       Bcrypt.checkpw password (Bcrypt.hashpw (create_password user_data) salt) = false ->
       login now' (mkUserLogin (create_email user_data) password) accounts'
       = (Raised (HTTPException 401 "Invalid credentials"), accounts'))
  ∧ (forall email password,
       email ∉ emails accounts' ->
       login now' (mkUserLogin email password) accounts'
       = (Raised (HTTPException 401 "Invalid credentials"), accounts')).
Proof.
  intros accounts' user. subst accounts'.
  rewrite register_free by done. cbn [snd].
  assert (find_one (account_with_email (create_email user_data))
            (insert_one (registered new_id salt created_at user_data) accounts)
          = Some (registered new_id salt created_at user_data)) as Hfound.
  { apply find_account_appended; [by apply find_account_None|done]. }
  split_and!.
  - intros password Hcheck. rewrite login_eq, Hfound.
    cbn [registered Account.password Account.user]. unfold hash_password.
    by rewrite Hcheck.
  - intros password Hcheck. rewrite login_eq, Hfound.
    cbn [registered Account.password Account.user]. unfold hash_password.
    by rewrite Hcheck.
  - intros email password Hunknown. apply find_account_None in Hunknown.
    by rewrite login_eq, Hunknown.
Qed.

(** Carol registers and logs in; the same login with a wrong password is
    refused. *)
Lemma register_then_login_witness :
  let accounts := (register (B := Demo.hashes) (J := Demo.tokens) "u-carol" "salt"
                     "2024-03-01T09:00:00+00:00" 1709283600%float Demo.carol []).2 in
  (login (B := Demo.hashes) (J := Demo.tokens) 1709283660%float
     (mkUserLogin "carol@example.com" "s3cret") accounts).1
  = Returned (mkTokenResponse "jwt.u-carol"
                (User.mk "u-carol" "carol@example.com" "Carol" "user"
                   "2024-03-01T09:00:00+00:00"))
  ∧ (login (B := Demo.hashes) (J := Demo.tokens) 1709283660%float
       (mkUserLogin "carol@example.com" "secret") accounts).1
    = Raised (HTTPException 401 "Invalid credentials").
Proof.
  intros accounts.
  destruct (register_then_login (B := Demo.hashes) (J := Demo.tokens) "u-carol" "salt"
              "2024-03-01T09:00:00+00:00" 1709283600%float 1709283660%float
              Demo.carol [] ltac:(apply not_elem_of_nil)) as (Hgood & Hbad & _).
  split.
  - exact (f_equal fst (Hgood "s3cret" eq_refl)).
  - exact (f_equal fst (Hbad "secret" eq_refl)).
Defined.

Lemma find_user_appended uid (account : Account.t) accounts :
  find_one (user_with_id uid) (Account.user <$> accounts) = None ->
  User.id (Account.user account) = uid ->
  find_one (user_with_id uid) (Account.user <$> insert_one account accounts)
  = Some (Account.user account).
Proof.
  intros Hnone Hid. unfold insert_one. rewrite fmap_app.
  apply (find_one_insert_one_new _ _ (Account.user account)); [done|].
  unfold user_with_id. by apply bool_decide_eq_true.
Qed.

(** Nobody becomes an admin by registering. A user registered under a free
    email and an unused id who presents a token that decodes to that id is
    refused by every admin route with 403, and the route is not run. *)
Theorem registered_user_is_no_admin {A : Type} `{B : Bcrypt.Bcrypt} `{J : Jwt.JWT}
    new_id salt created_at now user_data accounts token payload
    (route : User.t -> handler A) db
    (Hfree : create_email user_data ∉ emails accounts)
    (Hunused : find_one (user_with_id new_id) (Account.user <$> accounts) = None)
    (Hdecode : Jwt.decode (hd "" (split_space token)) = Jwt.Decoded payload)
    (Hid : Jwt.user_id payload = Some new_id) :
  let accounts' := (register new_id salt created_at now user_data accounts).2 in
  admin_only (Some ("Bearer " +:+ token)) route (with_accounts accounts' db)
  = (Raised (HTTPException 403 "Admin access required"), with_accounts accounts' db).
Proof.
  intros accounts'. subst accounts'.
  rewrite register_free by done. cbn [snd].
  rewrite admin_only_eq, get_current_user_bearer, Hdecode, Hid.
  cbn [users with_accounts].
  rewrite (find_user_appended new_id) by done.
  by rewrite bool_decide_eq_true_2.
Qed.

(** Carol registers and asks for the statistics with her token. *)
Lemma registered_user_is_no_admin_witness :
  let accounts := (register (B := Demo.hashes) (J := Demo.tokens) "u-carol" "salt"
                     "2024-03-01T09:00:00+00:00" 1709283600%float Demo.carol []).2 in
  admin_only (J := Demo.tokens) (Some "Bearer jwt.u-carol") (get_admin_stats Plain)
    (with_accounts accounts Sample.fresh_store)
  = (Raised (HTTPException 403 "Admin access required"),
     with_accounts accounts Sample.fresh_store).
Proof.
  intros accounts.
  exact (registered_user_is_no_admin (B := Demo.hashes) (J := Demo.tokens)
           "u-carol" "salt" "2024-03-01T09:00:00+00:00" 1709283600%float Demo.carol []
           "jwt.u-carol"
           (Jwt.mkPayload (Some "u-carol") (Some "") (Some "admin") (Some 0%float))
           (get_admin_stats Plain) Sample.fresh_store
           ltac:(apply not_elem_of_nil) eq_refl eq_refl eq_refl).
Defined.

(** * Order listings *)

Lemma string_compare_trans a b c :
  String.compare a b ≠ Gt -> String.compare b c ≠ Gt -> String.compare a c ≠ Gt.
Proof.
  revert b c. induction a as [|x a IH]; intros [|y b] [|z c]; simpl; try done.
  unfold Ascii.compare.
  destruct (N.compare_spec (Ascii.N_of_ascii x) (Ascii.N_of_ascii y)) as [Hxy|Hxy|Hxy],
           (N.compare_spec (Ascii.N_of_ascii y) (Ascii.N_of_ascii z)) as [Hyz|Hyz|Hyz],
           (N.compare_spec (Ascii.N_of_ascii x) (Ascii.N_of_ascii z)) as [Hxz|Hxz|Hxz];
    try done; try lia.
  apply IH.
Qed.

Lemma string_leb_trans a b c :
  String.leb a b = true -> String.leb b c = true -> String.leb a c = true.
Proof.
  unfold String.leb. intros Hab Hbc.
  pose proof (string_compare_trans a b c) as Htrans.
  destruct (String.compare a b), (String.compare b c), (String.compare a c);
    try done; by destruct Htrans.
Qed.

Lemma not_older_trans a b c : not_older a b -> not_older b c -> not_older a c.
Proof. unfold not_older. intros Hab Hbc. by eapply string_leb_trans. Qed.

Lemma insert_newest_first_perm order sorted :
  insert_newest_first order sorted ≡ₚ order :: sorted.
Proof.
  induction sorted as [|x rest IH]; simpl; [done|].
  destruct (String.leb (Order.created_at x) (Order.created_at order)); [done|].
  rewrite IH. apply Permutation_swap.
Qed.

Lemma newest_first_perm l : newest_first l ≡ₚ l.
Proof.
  induction l as [|x rest IH]; simpl; [done|].
  by rewrite insert_newest_first_perm, IH.
Qed.

Lemma insert_newest_first_sorted order sorted :
  StronglySorted not_older sorted ->
  StronglySorted not_older (insert_newest_first order sorted).
Proof.
  induction 1 as [|x rest Hsorted IH Hx]; simpl.
  - repeat constructor.
  - destruct (String.leb (Order.created_at x) (Order.created_at order)) eqn:Hle.
    + constructor; [by constructor|].
      constructor; [done|].
      eapply Forall_impl; [exact Hx|]. intros y Hy. by eapply not_older_trans.
    + constructor; [done|].
      rewrite insert_newest_first_perm. constructor; [|done].
      unfold not_older. destruct (String.leb_total (Order.created_at x)
                                    (Order.created_at order)); [congruence|done].
Qed.

Lemma newest_first_sorted l : StronglySorted not_older (newest_first l).
Proof.
  induction l as [|x rest IH]; simpl; [constructor|].
  by apply insert_newest_first_sorted.
Qed.

(** A page of a listing: the first [n] of the documents sorted newest
    first. What is left out is no newer than anything on the page. *)
Lemma newest_first_page n l :
  let page := to_list n (newest_first l) in
  let rest := drop n (newest_first l) in
  (length page <= n)%nat
  ∧ StronglySorted not_older page
  ∧ page ++ rest ≡ₚ l
  ∧ (forall a b, a ∈ page -> b ∈ rest -> not_older a b)
  ∧ ((length l <= n)%nat -> rest = []).
Proof.
  intros page rest. subst page rest. unfold to_list.
  pose proof (newest_first_sorted l) as Hsorted.
  rewrite <- (take_drop n (newest_first l)) in Hsorted.
  split_and!.
  - rewrite length_take. lia.
  - by eapply StronglySorted_app_1_l.
  - by rewrite take_drop, newest_first_perm.
  - intros a b. by apply StronglySorted_app_1_elem_of.
  - intros Hfew. apply drop_ge. by rewrite newest_first_perm.
Qed.

(** [get_orders] lists the caller's own orders and nobody else's, newest
    first, 50 at most, without writing. When the caller has more than 50,
    the ones listed are the newest: no order of the caller that is left out
    is newer than one that is listed. *)
Theorem get_orders_lists_own_newest user db :
  exists listed rest,
    get_orders user db = (Returned listed, db)
    ∧ (length listed <= 50)%nat
    ∧ Forall (fun order => Order.user_id order = User.id user) listed
    ∧ StronglySorted not_older listed
    ∧ listed ++ rest
      ≡ₚ filter (fun order => Order.user_id order = User.id user) (orders db)
    ∧ (forall a b, a ∈ listed -> b ∈ rest -> not_older a b)
    ∧ ((length (filter (fun order => Order.user_id order = User.id user) (orders db))
        <= 50)%nat -> rest = []).
Proof.
  set (own := filter (fun order => Order.user_id order = User.id user) (orders db)).
  destruct (newest_first_page 50 own) as (Hlen & Hsorted & Hperm & Hnewest & Hall).
  exists (to_list 50 (newest_first own)), (drop 50 (newest_first own)).
  split_and!; try done.
  apply Forall_forall. intros order Hin.
  assert (order ∈ own) as Hown.
  { rewrite <- Hperm. apply elem_of_app. by left. }
  by apply list_elem_of_filter in Hown as [? _].
Qed.

(** [get_all_orders], the listing behind the admin gate, takes the orders
    of every user, newest first, 100 at most, without writing; what it
    leaves out is no newer than what it lists. *)
Theorem get_all_orders_lists_newest user db :
  exists listed rest,
    get_all_orders user db = (Returned listed, db)
    ∧ (length listed <= 100)%nat
    ∧ StronglySorted not_older listed
    ∧ listed ++ rest ≡ₚ orders db
    ∧ (forall a b, a ∈ listed -> b ∈ rest -> not_older a b)
    ∧ ((length (orders db) <= 100)%nat -> rest = []).
Proof.
  destruct (newest_first_page 100 (orders db)) as (Hlen & Hsorted & Hperm & Hnewest & Hall).
  by exists (to_list 100 (newest_first (orders db))), (drop 100 (newest_first (orders db))).
Qed.

(** Alice has two orders, bob one; alice's listing holds her two, the
    later one first. *)
Lemma get_orders_lists_own_newest_witness :
  let db := mkDB [] [] [] []
              [Demo.order_of "u-alice" "2024-02-01T10:00:00+00:00";
               Demo.order_of "u-bob" "2024-02-02T10:00:00+00:00";
               Demo.order_of "u-alice" "2024-02-03T10:00:00+00:00"] in
  get_orders Sample.alice db
  = (Returned [Demo.order_of "u-alice" "2024-02-03T10:00:00+00:00";
               Demo.order_of "u-alice" "2024-02-01T10:00:00+00:00"], db)
  ∧ exists listed,
      get_orders Sample.alice db = (Returned listed, db)
      ∧ Forall (fun order => Order.user_id order = "u-alice") listed.
Proof.
  intros db. split; [by vm_compute|].
  destruct (get_orders_lists_own_newest Sample.alice db)
    as (listed & rest & Heq & _ & Hown & _).
  by exists listed.
Defined.

Lemma get_all_orders_lists_newest_witness :
  let db := mkDB [] [] [] []
              [Demo.order_of "u-alice" "2024-02-01T10:00:00+00:00";
               Demo.order_of "u-bob" "2024-02-02T10:00:00+00:00"] in
  exists listed,
    get_all_orders Sample.admin db = (Returned listed, db) ∧ listed ≡ₚ orders db.
Proof.
  intros db.
  destruct (get_all_orders_lists_newest Sample.admin db)
    as (listed & rest & Heq & _ & _ & Hperm & _ & Hall).
  exists listed. split; [exact Heq|].
  rewrite (Hall ltac:(simpl; lia)), app_nil_r in Hperm. exact Hperm.
Defined.

(** The order a poll creates shows up in the caller's listing: after a poll
    that makes the transition with items in the caller's cart, the new
    order is among the orders [get_orders] returns to the caller, provided
    the caller had fewer than 50 before. *)
Theorem created_order_is_listed `{SC : Stripe.StripeCheckout}
    now_paid new_id now_order session_id user db status transaction cart total
    (Hstatus : Stripe.get_checkout_status session_id = Returned status)
    (Hpaid : Stripe.payment_status status = "paid")
    (Hfind : find_one (transaction_of session_id) (payment_transactions db)
             = Some transaction)
    (Hnot : PaymentTransaction.payment_status transaction ≠ "paid")
    (Hcart : find_one (cart_of (User.id user)) (carts db) = Some cart)
    (Hitems : Cart.items cart ≠ [])
    (Hdiv : int_truediv (Stripe.amount_total status) 100 = Returned total)
    (Hfew : (length (filter (fun order => Order.user_id order = User.id user) (orders db))
             < 50)%nat) :
  let db' := (get_checkout_status now_paid new_id now_order session_id user db).2 in
  exists listed,
    (get_orders user db').1 = Returned listed
    ∧ Order.mk new_id (User.id user) (Cart.items cart) total "confirmed" session_id
        now_order ∈ listed.
Proof.
  intros db'. subst db'.
  rewrite (status_paid_creates_order _ _ _ _ _ _ status transaction cart total) by done.
  cbn [snd].
  set (order := Order.mk new_id (User.id user) (Cart.items cart) total "confirmed"
                  session_id now_order).
  set (db' := empty_cart user _).
  assert (filter (fun o => Order.user_id o = User.id user) (orders db')
          = filter (fun o => Order.user_id o = User.id user) (orders db) ++ [order])
    as Hown.
  { subst db'. simpl. unfold insert_one. rewrite filter_app.
    by rewrite (filter_cons_True _ order []) by done. }
  unfold get_orders, read. cbn [fst]. rewrite Hown.
  set (own := filter _ (orders db) ++ [order]).
  destruct (newest_first_page 50 own) as (_ & _ & Hperm & _ & Hall).
  exists (to_list 50 (newest_first own)). split; [done|].
  rewrite Hall, app_nil_r in Hperm by (subst own; rewrite length_app; simpl; lia).
  rewrite Hperm. apply elem_of_app. right. apply list_elem_of_here.
Qed.

(** Alice's first order. *)
Lemma created_order_is_listed_witness :
  let db := mkDB [] [Sample.oxford] [Sample.cart_of_alice [Sample.line 1]]
              [Sample.pending] [] in
  let db' := (get_checkout_status (SC := Sample.paying) "2024-02-01T10:06:00+00:00"
                "o-1" "2024-02-01T10:06:01+00:00" "cs_1" Sample.alice db).2 in
  exists listed,
    (get_orders Sample.alice db').1 = Returned listed
    ∧ Order.mk "o-1" "u-alice" [Sample.line 1] 485%float "confirmed" "cs_1"
        "2024-02-01T10:06:01+00:00" ∈ listed.
Proof.
  intros db db'.
  exact (created_order_is_listed (SC := Sample.paying) "2024-02-01T10:06:00+00:00"
           "o-1" "2024-02-01T10:06:01+00:00" "cs_1" Sample.alice db
           (Stripe.mkStatus "complete" "paid" 48500 "usd") Sample.pending
           (Sample.cart_of_alice [Sample.line 1]) 485%float
           eq_refl eq_refl eq_refl ltac:(discriminate) eq_refl ltac:(discriminate)
           eq_refl ltac:(simpl; lia)).
Defined.

(** * The catalog routes *)

Lemma filter_sublist_of {A : Type} (f : A -> bool) (l : list A) :
  List.filter f l `sublist_of` l.
Proof.
  induction l as [|x rest IH]; simpl; [constructor|].
  destruct (f x); by constructor.
Qed.

Lemma elem_of_filter_bool {A : Type} (f : A -> bool) (l : list A) x :
  x ∈ List.filter f l <-> x ∈ l ∧ f x = true.
Proof. rewrite !list_elem_of_In. apply filter_In. Qed.

Lemma matches_query_spec category featured d :
  matches_query category featured d = true
  <-> (forall c, category = Some c -> c ≠ "" ->
         Product.category (ProductDoc.product d) = c)
      ∧ (forall f, featured = Some f -> Product.featured (ProductDoc.product d) = f).
Proof.
  unfold matches_query. rewrite andb_true_iff.
  assert ((match category with
           | None => true
           | Some c =>
               if bool_decide (c = "") then true
               else bool_decide (Product.category (ProductDoc.product d) = c)
           end = true)
          <-> (forall c, category = Some c -> c ≠ "" ->
                 Product.category (ProductDoc.product d) = c)) as ->.
  { destruct category as [c|]; [|by split].
    destruct (decide (c = "")) as [->|Hc].
    - rewrite bool_decide_eq_true_2 by done. split; [|done]. by intros _ ? [= <-].
    - rewrite bool_decide_eq_false_2, bool_decide_eq_true by done.
      split; [by intros ? ? [= <-]|]. intros H. by apply H. }
  assert ((match featured with
           | None => true
           | Some f => bool_decide (Product.featured (ProductDoc.product d) = f)
           end = true)
          <-> (forall f, featured = Some f ->
                 Product.featured (ProductDoc.product d) = f)) as ->; [|done].
  destruct featured as [f|]; [|by split].
  rewrite bool_decide_eq_true. split; [by intros ? ? [= <-]|]. intros H. by apply H.
Qed.

(** [get_products] returns, in store order, products that all meet the
    query, 100 at most; an empty [category] filters nothing; and when the
    catalog holds at most 100 products, every product that meets the query
    is returned. *)
Theorem get_products_meets_the_query category featured docs :
  let listed := get_products category featured docs in
  listed `sublist_of` docs
  ∧ (length listed <= 100)%nat
  ∧ Forall (fun d =>
              (forall c, category = Some c -> c ≠ "" ->
                 Product.category (ProductDoc.product d) = c)
              ∧ (forall f, featured = Some f ->
                   Product.featured (ProductDoc.product d) = f)) listed
  ∧ get_products (Some "") featured docs = get_products None featured docs
  ∧ ((length docs <= 100)%nat ->
     forall d, d ∈ docs -> matches_query category featured d = true -> d ∈ listed).
Proof.
  intros listed. subst listed. unfold get_products, to_list. split_and!.
  - etransitivity; [apply sublist_take|apply filter_sublist_of].
  - rewrite length_take. lia.
  - apply Forall_forall. intros d Hd. apply matches_query_spec.
    assert (d ∈ List.filter (matches_query category featured) docs) as Hin
      by (eapply elem_of_sublist; [exact Hd|apply sublist_take]).
    by apply elem_of_filter_bool in Hin as [_ ?].
  - done.
  - intros Hfew d Hd Hmatch. rewrite take_ge.
    + by apply elem_of_filter_bool.
    + etransitivity; [apply sublist_length, filter_sublist_of|done].
Qed.

(** The men's shoes of a catalog of two. *)
Lemma get_products_meets_the_query_witness :
  get_products (Some "men") (Some true) [Demo.oxford_doc; Demo.derby_doc]
  = [Demo.oxford_doc]
  ∧ Demo.oxford_doc ∈ get_products (Some "men") None [Demo.oxford_doc; Demo.derby_doc].
Proof.
  split; [by vm_compute|].
  destruct (get_products_meets_the_query (Some "men") None
              [Demo.oxford_doc; Demo.derby_doc]) as (_ & _ & _ & _ & Hall).
  apply Hall; [simpl; lia|apply list_elem_of_here|by vm_compute].
Defined.

Lemma find_doc_None pid (docs : list ProductDoc.t) :
  find_one (doc_with_id pid) docs = None <-> pid ∉ ProductDoc.id <$> docs.
Proof.
  unfold find_one. induction docs as [|d rest IH]; simpl.
  - split; [intros _; apply not_elem_of_nil|done].
  - rewrite not_elem_of_cons, <- IH. unfold doc_with_id at 1.
    destruct (decide (ProductDoc.id d = pid)) as [Heq|Hne].
    + rewrite bool_decide_eq_true_2 by done. split; [done|]. by intros [? _].
    + rewrite bool_decide_eq_false_2 by done. split; [by intros ?|by intros [_ ?]].
Qed.

Lemma find_after_delete_one pid other (docs : list ProductDoc.t) :
  other ≠ pid ->
  find_one (doc_with_id other) (delete_one (doc_with_id pid) docs)
  = find_one (doc_with_id other) docs.
Proof.
  intros Hother. unfold find_one.
  induction docs as [|d rest IH]; simpl; [done|].
  destruct (doc_with_id pid d) eqn:Hpid; simpl.
  - unfold doc_with_id in *. apply bool_decide_eq_true in Hpid.
    rewrite bool_decide_eq_false_2; [done|congruence].
  - by rewrite IH.
Qed.

Lemma find_deleted_None pid (docs : list ProductDoc.t) :
  NoDup (ProductDoc.id <$> docs) ->
  find_one (doc_with_id pid) (delete_one (doc_with_id pid) docs) = None.
Proof.
  intros Hnodup. induction docs as [|d rest IH]; simpl; [done|].
  apply NoDup_cons in Hnodup as [Hd Hrest].
  destruct (doc_with_id pid d) eqn:Hpid.
  - apply find_doc_None. unfold doc_with_id in Hpid.
    apply bool_decide_eq_true in Hpid. by subst.
  - unfold find_one. simpl. rewrite Hpid. by apply IH.
Qed.

Lemma delete_one_length {A : Type} (f : A -> bool) (l : list A) x :
  find_one f l = Some x -> length l = S (length (delete_one f l)).
Proof.
  unfold find_one. induction l as [|y rest IH]; simpl; [done|].
  destruct (f y); [done|]. intros H. simpl. by rewrite <- IH.
Qed.

(** [delete_product] answers 404 and writes nothing for an id the catalog
    does not hold. Otherwise it removes one document, the first with that
    id, and every other id resolves as before; with ids that are distinct,
    as generated ids are, the deleted id no longer resolves. *)
Theorem delete_product_removes_one product_id docs :
  (find_one (doc_with_id product_id) docs = None ->
   delete_product product_id docs
   = (Raised (HTTPException 404 "Product not found"), docs))
  ∧ (is_Some (find_one (doc_with_id product_id) docs) ->
     let result := delete_product product_id docs in
     result.1 = Returned "Product deleted"
     ∧ length docs = S (length result.2)
     ∧ (forall other, other ≠ product_id ->
          get_product other result.2 = get_product other docs)
     ∧ (NoDup (ProductDoc.id <$> docs) ->
        get_product product_id result.2
        = Raised (HTTPException 404 "Product not found"))).
Proof.
  unfold delete_product, get_product. split.
  - by intros ->.
  - intros [d Hfind]. rewrite Hfind. cbn [fst snd]. split_and!.
    + done.
    + by eapply delete_one_length.
    + intros other Hother. by rewrite find_after_delete_one.
    + intros Hnodup. by rewrite find_deleted_None.
Qed.

Lemma delete_product_removes_one_witness :
  delete_product "p-oxford" [Demo.oxford_doc; Demo.derby_doc]
  = (Returned "Product deleted", [Demo.derby_doc])
  ∧ get_product "p-oxford" (delete_product "p-oxford" [Demo.oxford_doc; Demo.derby_doc]).2
    = Raised (HTTPException 404 "Product not found").
Proof.
  split; [by vm_compute|].
  destruct (delete_product_removes_one "p-oxford" [Demo.oxford_doc; Demo.derby_doc])
    as [_ Hfound].
  destruct (Hfound ltac:(by eexists)) as (_ & _ & _ & Hgone).
  apply Hgone. apply (NoDup_fmap_2_strong ProductDoc.id).
  - intros x y Hx Hy. apply list_elem_of_In in Hx, Hy. simpl in Hx, Hy.
    destruct Hx as [<-|[<-|[]]], Hy as [<-|[<-|[]]]; by intros.
  - apply NoDup_cons. split; [|apply NoDup_singleton].
    intros Hin. apply list_elem_of_singleton in Hin. discriminate Hin.
Defined.

(** What the cart and checkout routes find in the catalog is the
    [Product.t] of the document the catalog routes find. *)
Lemma find_product_of_doc pid (docs : list ProductDoc.t) :
  find_one (product_with_id pid) (ProductDoc.product <$> docs)
  = ProductDoc.product <$> find_one (doc_with_id pid) docs.
Proof.
  unfold find_one. induction docs as [|d rest IH]; [done|].
  cbn [fmap list_fmap find]. fold (ProductDoc.product <$> rest).
  change (product_with_id pid (ProductDoc.product d)) with (doc_with_id pid d).
  by destruct (doc_with_id pid d).
Qed.

Lemma populate_after_delete pid (docs : list ProductDoc.t) items :
  NoDup (ProductDoc.id <$> docs) ->
  populate (ProductDoc.product <$> delete_one (doc_with_id pid) docs) items
  = populate (ProductDoc.product <$> docs)
      (filter (fun item => CartItem.product_id item ≠ pid) items).
Proof.
  intros Hnodup. induction items as [|item rest IH]; [done|].
  destruct (decide (CartItem.product_id item = pid)) as [Heq|Hne].
  - rewrite filter_cons_False by (by intros ?). cbn [populate].
    rewrite find_product_of_doc, Heq, find_deleted_None by done. apply IH.
  - rewrite filter_cons_True by done. cbn [populate].
    rewrite !find_product_of_doc, find_after_delete_one by done.
    destruct (find_one (doc_with_id (CartItem.product_id item)) docs); simpl;
      by rewrite IH.
Qed.

(** Deleting a product reaches no cart. The stored cart keeps its lines;
    the populated view the user gets next is the view of the cart without
    the lines of the deleted product, the other lines beside the products
    they had. (Ids are distinct, as generated ids are.) *)
Theorem deleted_product_leaves_the_cart new_id now user db docs product_id cart
    (Hids : NoDup (ProductDoc.id <$> docs))
    (Hcart : find_one (cart_of (User.id user)) (carts db) = Some cart) :
  let docs' := (delete_product product_id docs).2 in
  get_cart new_id now user (with_catalog docs' db)
  = (Returned
       (mkPopulatedCart (Cart.id cart) (Cart.user_id cart)
          (populate (ProductDoc.product <$> docs)
             (filter (fun item => CartItem.product_id item ≠ product_id)
                (Cart.items cart)))
          (Cart.updated_at cart)),
     with_catalog docs' db)
  ∧ carts (with_catalog docs' db) = carts db.
Proof.
  intros docs'. subst docs'. split; [|done].
  rewrite get_cart_eq. cbn [carts products with_catalog]. rewrite Hcart.
  unfold delete_product.
  destruct (find_one (doc_with_id product_id) docs) as [d|] eqn:Hfind; cbn [snd].
  - by rewrite populate_after_delete.
  - do 3 f_equal. apply find_doc_None in Hfind.
    clear Hcart. induction (Cart.items cart) as [|item rest IH]; [done|].
    destruct (decide (CartItem.product_id item = product_id)) as [Heq|Hne].
    + rewrite filter_cons_False by (by intros ?). cbn [populate].
      rewrite find_product_of_doc, Heq.
      apply find_doc_None in Hfind. by rewrite Hfind.
    + rewrite filter_cons_True by done. cbn [populate].
      destruct (find_one _ _); by rewrite IH.
Qed.

(** Alice holds an Oxford and a Derby when the Derby is deleted. *)
Lemma deleted_product_leaves_the_cart_witness :
  let derby := CartItem.mk "p-derby" 1 "9" "Brown" in
  let db := mkDB [] [] [Sample.cart_of_alice [derby; Sample.line 2]] [] [] in
  let docs' := (delete_product "p-derby" [Demo.oxford_doc; Demo.derby_doc]).2 in
  exists view,
    get_cart "c-9" "2024-02-01T12:00:00+00:00" Sample.alice (with_catalog docs' db)
    = (Returned view, with_catalog docs' db)
    ∧ populated_items view = [(Sample.line 2, Sample.oxford)]
    ∧ items_of "u-alice" (with_catalog docs' db) = [derby; Sample.line 2].
Proof.
  intros derby db docs'.
  destruct (deleted_product_leaves_the_cart "c-9" "2024-02-01T12:00:00+00:00"
              Sample.alice db [Demo.oxford_doc; Demo.derby_doc] "p-derby"
              (Sample.cart_of_alice [derby; Sample.line 2])) as [Hview _].
  - apply (NoDup_fmap_2_strong ProductDoc.id).
    + intros x y Hx Hy. apply list_elem_of_In in Hx, Hy. simpl in Hx, Hy.
      destruct Hx as [<-|[<-|[]]], Hy as [<-|[<-|[]]]; by intros.
    + apply NoDup_cons. split; [|apply NoDup_singleton].
      intros Hin. apply list_elem_of_singleton in Hin. discriminate Hin.
  - reflexivity.
  - eexists. split; [exact Hview|]. split; by vm_compute.
Defined.

Lemma apply_update_twice u d : apply_update u (apply_update u d) = apply_update u d.
Proof.
  destruct u as [[n|] [de|] [p|] [c|] [i|] [s|] [co|] [b|] [st|] [f|]]; reflexivity.
Qed.

Lemma doc_with_id_apply_update pid u d :
  doc_with_id pid (apply_update u d) = doc_with_id pid d.
Proof. done. Qed.

Lemma find_other_after_update pid other u (docs : list ProductDoc.t) :
  other ≠ pid ->
  find_one (doc_with_id other) (update_one (doc_with_id pid) (apply_update u) docs)
  = find_one (doc_with_id other) docs.
Proof.
  intros Hother. unfold find_one.
  induction docs as [|d rest IH]; simpl; [done|].
  destruct (doc_with_id pid d) eqn:Hpid; simpl.
  - rewrite doc_with_id_apply_update. unfold doc_with_id in *.
    apply bool_decide_eq_true in Hpid.
    rewrite bool_decide_eq_false_2; [done|congruence].
  - by rewrite IH.
Qed.

Lemma no_fields_spec u : no_fields u = true <-> u = no_update.
Proof.
  split; [|by intros ->].
  destruct u as [[?|] [?|] [?|] [?|] [?|] [?|] [?|] [?|] [?|] [?|]]; by intros.
Qed.

Lemma apply_update_merged u d : merged u d (apply_update u d).
Proof. unfold merged. split_and!; try done. simpl. by destruct (upd_colors u). Qed.

(** [update_one] rewrites the first match where it stands. *)
Lemma update_one_first {A : Type} (f : A -> bool) (g : A -> A) coll x :
  find_one f coll = Some x ->
  exists i,
    coll !! i = Some x
    ∧ (forall j y, coll !! j = Some y -> (j < i)%nat -> f y = false)
    ∧ update_one f g coll = <[i := g x]> coll.
Proof.
  unfold find_one. induction coll as [|y rest IH]; simpl; [done|].
  destruct (f y) eqn:Hy.
  - intros [= ->]. exists 0%nat. split_and!; [done|intros; lia|done].
  - intros H. destruct (IH H) as (i & Hi & Hbefore & Hupd). exists (S i).
    split_and!; [done| |by rewrite Hupd].
    intros [|j] z Hj Hlt; simplify_eq/=; [done|]. apply (Hbefore j); [done|lia].
Qed.

(** [update_product] refuses a payload that gives no field with 400. For a
    payload that gives one: a [stock] that does not fit in a 64-bit integer
    makes the write raise [OverflowError], whatever the id; otherwise an id
    the catalog does not hold gives 404. None of the three writes anything.
    Otherwise the first document with that id is replaced, where it
    stands, by itself with the given fields set and all others kept, and
    this document is returned; the documents under other ids are found as
    before, repeating the request changes nothing more, and a new price is
    the price the next checkout reads for that product. *)
Theorem update_product_merges product_id product docs :
  let result := update_product product_id product docs in
  (product = no_update ->
   result = (Raised (HTTPException 400 "No fields to update"), docs))
  ∧ (product ≠ no_update ->
     (forall stock, upd_stock product = Some stock -> ¬ fits_int64 stock ->
        result = (Raised OverflowError, docs))
     ∧ ((forall stock, upd_stock product = Some stock -> fits_int64 stock) ->
        (find_one (doc_with_id product_id) docs = None ->
         result = (Raised (HTTPException 404 "Product not found"), docs))
        ∧ (forall d, find_one (doc_with_id product_id) docs = Some d ->
             exists d',
               merged product d d'
               ∧ result.1 = Returned d'
               ∧ (exists i,
                    docs !! i = Some d
                    ∧ (forall j y, docs !! j = Some y -> (j < i)%nat ->
                         ProductDoc.id y ≠ product_id)
                    ∧ result.2 = <[i := d']> docs)
               ∧ get_product product_id result.2 = Returned d'
               ∧ (forall other, other ≠ product_id ->
                    get_product other result.2 = get_product other docs)
               ∧ update_product product_id product result.2 = result
               ∧ (forall price item,
                    upd_price product = Some price ->
                    CartItem.product_id item = product_id ->
                    current_price (ProductDoc.product <$> result.2) item
                    = Some price)))).
Proof.
  intros result. subst result. unfold update_product. split.
  { by intros ->. }
  intros Hgiven.
  destruct (no_fields product) eqn:Hnone; [by apply no_fields_spec in Hnone|].
  split.
  { intros stock Hstock Hover. rewrite Hstock. simpl.
    by destruct (encode_int_spec stock) as [[? _]|[_ ->]]. }
  intros Hfits.
  assert (from_option encode_int (Returned tt) (upd_stock product) = Returned tt) as ->.
  { destruct (upd_stock product) as [stock|]; [|done]. simpl.
    destruct (encode_int_spec stock) as [[_ ->]|[Hover _]]; [done|].
    destruct Hover. by apply Hfits. }
  split; [by intros ->|].
  intros d Hfind. rewrite Hfind. cbn zeta.
  assert (find_one (doc_with_id product_id)
            (update_one (doc_with_id product_id) (apply_update product) docs)
          = Some (apply_update product d)) as Hafter.
  { apply find_one_update_one; [done|].
    rewrite doc_with_id_apply_update. by apply find_one_Some in Hfind as [_ ?]. }
  rewrite Hafter. cbn [fst snd].
  exists (apply_update product d). split_and!.
  - apply apply_update_merged.
  - done.
  - destruct (update_one_first _ (apply_update product) _ _ Hfind)
      as (i & Hi & Hbefore & Hupd).
    exists i. split_and!; [done| |done].
    intros j y Hj Hlt. specialize (Hbefore j y Hj Hlt).
    unfold doc_with_id in Hbefore. by apply bool_decide_eq_false in Hbefore.
  - unfold get_product. by rewrite Hafter.
  - intros other Hother. unfold get_product. by rewrite find_other_after_update.
  - assert (update_one (doc_with_id product_id) (apply_update product)
              (update_one (doc_with_id product_id) (apply_update product) docs)
            = update_one (doc_with_id product_id) (apply_update product) docs)
      as Hagain.
    { rewrite update_one_twice by done.
      apply update_one_ext. intros. apply apply_update_twice. }
    by rewrite Hafter, Hagain, Hafter.
  - intros price item Hprice Hitem. unfold current_price.
    rewrite find_product_of_doc, Hitem, Hafter. simpl. by rewrite Hprice.
Qed.

(** The Oxford goes from 485.00 to 450.00; the checkout reads 450.00. *)
Lemma update_product_merges_witness :
  let update := mkProductUpdate None None (Some 450%float) None None None None None
                  None None in
  let docs' := (update_product "p-oxford" update [Demo.oxford_doc; Demo.derby_doc]).2 in
  current_price (ProductDoc.product <$> docs') (Sample.line 2) = Some 450%float
  ∧ get_product "p-derby" docs' = Returned Demo.derby_doc.
Proof.
  intros update docs'.
  destruct (update_product_merges "p-oxford" update [Demo.oxford_doc; Demo.derby_doc])
    as (_ & Hgiven).
  destruct (Hgiven ltac:(discriminate)) as (_ & Hfits).
  destruct (Hfits ltac:(discriminate)) as (_ & Hmerge).
  destruct (Hmerge Demo.oxford_doc eq_refl)
    as (d' & _ & _ & _ & _ & Hothers & _ & Hprice).
  split.
  - by apply Hprice.
  - subst docs'. rewrite (Hothers "p-derby") by discriminate. reflexivity.
Defined.

Lemma find_one_insert_one_found {A : Type} (f : A -> bool) coll x doc :
  find_one f coll = Some x -> find_one f (insert_one doc coll) = Some x.
Proof.
  unfold find_one, insert_one.
  induction coll as [|y rest IH]; simpl; [done|].
  destruct (f y); [done|]. apply IH.
Qed.

Lemma find_one_insert_one_miss {A : Type} (f : A -> bool) coll doc :
  find_one f coll = None -> f doc = false -> find_one f (insert_one doc coll) = None.
Proof.
  unfold find_one, insert_one. intros Hnone Hdoc.
  induction coll as [|y rest IH]; simpl in *.
  - by rewrite Hdoc.
  - destruct (f y); [done|]. by apply IH.
Qed.

(** [create_product] with a [stock] that fits in a 64-bit integer appends
    one document under the new id and returns it; it is then found under
    its id, and the products that were there are found as before:
    [get_product] gives what it gave before for an id the catalog held,
    the new document for the new id, and 404 for any other. With a [stock]
    that does not fit, the insert raises [OverflowError] and the catalog is
    as it was. *)
Theorem create_product_then_get new_id now product docs product_id :
  let created := create_product new_id now product docs in
  (fits_int64 (new_stock product) ->
   (exists doc,
      created = (Returned doc, docs ++ [doc])
      ∧ ProductDoc.id doc = new_id
      ∧ Product.stock (ProductDoc.product doc) = new_stock product)
   ∧ get_product product_id created.2
     = match find_one (doc_with_id product_id) docs with
       | Some d => Returned d
       | None =>
           if decide (product_id = new_id)
           then created.1
           else Raised (HTTPException 404 "Product not found")
       end)
  ∧ (¬ fits_int64 (new_stock product) -> created = (Raised OverflowError, docs)).
Proof.
  intros created. subst created. unfold create_product.
  destruct (encode_int_spec (new_stock product)) as [[Hfits ->]|[Hover ->]].
  2:{ split; [by intros ?|done]. }
  split; [intros _|by intros ?]. split; [by eexists|].
  unfold get_product. cbn [fst snd].
  destruct (find_one (doc_with_id product_id) docs) as [d|] eqn:Hfind.
  - by rewrite (find_one_insert_one_found _ _ d).
  - destruct (decide (product_id = new_id)) as [->|Hne].
    + rewrite find_one_insert_one_new; [done|done|].
      unfold doc_with_id. by apply bool_decide_eq_true.
    + rewrite find_one_insert_one_miss; [done|done|].
      unfold doc_with_id. apply bool_decide_eq_false_2.
      unfold ProductDoc.id. simpl. by intros <-.
Qed.

(** A Derby is added to a catalog that holds the Oxford. *)
Lemma create_product_then_get_witness :
  let derby := mkProductCreate "Derby" "Plain." 395%float "men"
                 ["https://img.example/derby"] ["8"; "9"] ["Brown"] "Maison Luxe" 20
                 false in
  let created := create_product "p-derby" "2024-01-02T00:00:00+00:00" derby
                   [Demo.oxford_doc] in
  get_product "p-derby" created.2 = Returned Demo.derby_doc
  ∧ get_product "p-oxford" created.2 = Returned Demo.oxford_doc.
Proof.
  intros derby created. subst created. split.
  - destruct (create_product_then_get "p-derby" "2024-01-02T00:00:00+00:00" derby
                [Demo.oxford_doc] "p-derby") as [[_ Hget] _];
      [unfold fits_int64; simpl; lia|].
    rewrite Hget. reflexivity.
  - destruct (create_product_then_get "p-derby" "2024-01-02T00:00:00+00:00" derby
                [Demo.oxford_doc] "p-oxford") as [[_ Hget] _];
      [unfold fits_int64; simpl; lia|].
    rewrite Hget. reflexivity.
Defined.

(** * Seeding *)

(** [seed_data] does its work once. On a catalog that holds any product it
    writes nothing - the admin account is not created either, even if it is
    missing. On an empty catalog it stores the eight demo products, and the
    admin account unless an account has its email already. A second call
    always finds the catalog filled and changes nothing. *)
Theorem seed_data_works_once `{B : Bcrypt.Bcrypt}
    uuid4 now salt uuid4' now' salt' accounts docs :
  let first := seed_data uuid4 now salt accounts docs in
  seed_data uuid4' now' salt' first.2.1 first.2.2 = ("Data already seeded", first.2)
  ∧ (docs ≠ [] -> first = ("Data already seeded", (accounts, docs)))
  ∧ (docs = [] ->
     first.1 = "Data seeded successfully"
     ∧ first.2.2 = demo_products uuid4 now
     ∧ length first.2.2 = 8%nat
     ∧ ("admin@shoehaven.com" ∈ emails accounts -> first.2.1 = accounts)
     ∧ ("admin@shoehaven.com" ∉ emails accounts ->
        first.2.1
        = accounts
          ++ [Account.mk
                (User.mk (uuid4 8%nat) "admin@shoehaven.com" "Admin" "admin" (now 8%nat))
                (Bcrypt.hashpw "admin123" salt)])).
Proof.
  intros first. subst first. unfold seed_data, count_documents.
  destruct docs as [|d rest].
  - cbn [length Z.of_nat Z.ltb Z.compare fst snd app].
    split_and!; [done|done|]. intros _. split_and!; [done|done|done|..].
    + intros Htaken.
      destruct (find_one (account_with_email "admin@shoehaven.com") accounts) eqn:Hfind;
        [done|]. by apply find_account_None in Hfind.
    + intros Hfree. apply find_account_None in Hfree. by rewrite Hfree.
  - replace (0 <? Z.of_nat (length (d :: rest))) with true
      by (symmetry; apply Z.ltb_lt; simpl; lia).
    cbn [fst snd].
    replace (0 <? Z.of_nat (length (d :: rest))) with true
      by (symmetry; apply Z.ltb_lt; simpl; lia).
    split_and!; [done|done|done].
Qed.

Lemma seed_data_works_once_witness :
  let first := seed_data (B := Demo.hashes) Demo.ids Demo.clock "salt" [] [] in
  length first.2.2 = 8%nat
  ∧ emails first.2.1 = ["admin@shoehaven.com"]
  ∧ seed_data (B := Demo.hashes) Demo.ids Demo.clock "pepper" first.2.1 first.2.2
    = ("Data already seeded", first.2).
Proof.
  intros first.
  destruct (seed_data_works_once (B := Demo.hashes) Demo.ids Demo.clock "salt"
              Demo.ids Demo.clock "pepper" [] []) as (Hagain & _ & Hempty).
  destruct (Hempty eq_refl) as (_ & _ & Hcount & _ & Hadmin).
  split_and!; [exact Hcount| |exact Hagain].
  subst first. rewrite (Hadmin ltac:(apply not_elem_of_nil)). reflexivity.
Defined.

Lemma seed_data_empty `{B : Bcrypt.Bcrypt} uuid4 now salt accounts :
  "admin@shoehaven.com" ∉ emails accounts ->
  seed_data uuid4 now salt accounts []
  = ("Data seeded successfully",
     (insert_one
        (Account.mk
           (User.mk (uuid4 8%nat) "admin@shoehaven.com" "Admin" "admin" (now 8%nat))
           (hash_password "admin123" salt))
        accounts,
      demo_products uuid4 now)).
Proof.
  intros Hfree. apply find_account_None in Hfree.
  unfold seed_data. cbn [count_documents length Z.of_nat Z.ltb Z.compare app].
  by rewrite Hfree.
Qed.

(** The seeded admin can log in and passes the admin gate: after a seed on
    an empty catalog with no account under the admin's email, a login as
    [admin@shoehaven.com] with [admin123] returns the admin account, whose
    role is ["admin"], given a hash that accepts its own password. *)
Theorem seeded_admin_logs_in `{B : Bcrypt.Bcrypt} `{J : Jwt.JWT}
    uuid4 now salt time accounts
    (Hfree : "admin@shoehaven.com" ∉ emails accounts)
    (Hcheck : Bcrypt.checkpw "admin123" (Bcrypt.hashpw "admin123" salt) = true) :
  let seeded := (seed_data uuid4 now salt accounts []).2.1 in
  let admin := User.mk (uuid4 8%nat) "admin@shoehaven.com" "Admin" "admin" (now 8%nat) in
  login time (mkUserLogin "admin@shoehaven.com" "admin123") seeded
  = (Returned (mkTokenResponse
                 (create_token time (uuid4 8%nat) "admin@shoehaven.com" "admin") admin),
     seeded)
  ∧ get_admin_user admin = Returned admin.
Proof.
  intros seeded admin. subst seeded. split; [|done].
  rewrite seed_data_empty by done. cbn [fst snd].
  rewrite login_eq, find_account_appended by (by apply find_account_None || done).
  cbn [Account.password Account.user]. unfold hash_password. by rewrite Hcheck.
Qed.

Lemma seeded_admin_logs_in_witness :
  (login (B := Demo.hashes) (J := Demo.tokens) 1709283660%float
     (mkUserLogin "admin@shoehaven.com" "admin123")
     (seed_data (B := Demo.hashes) Demo.ids Demo.clock "salt" [] []).2.1).1
  = Returned (mkTokenResponse "jwt.id-8"
                (User.mk "id-8" "admin@shoehaven.com" "Admin" "admin"
                   "2024-03-01T09:00:00+00:00")).
Proof.
  destruct (seeded_admin_logs_in (B := Demo.hashes) (J := Demo.tokens)
              Demo.ids Demo.clock "salt" 1709283660%float []
              ltac:(apply not_elem_of_nil) eq_refl) as [Hlogin _].
  exact (f_equal fst Hlogin).
Defined.

(** * The test script's tally *)

Lemma logged_from (t : Tester) calls :
  let t' := foldl (fun t r =>
                     log_test (result_name r) (result_success r) (result_details r)
                       (result_error r) t) t calls in
  tests_run t' = tests_run t + Z.of_nat (length calls)
  ∧ tests_passed t'
    = tests_passed t + Z.of_nat (length (List.filter result_success calls))
  ∧ test_results t' = test_results t ++ calls.
Proof.
  revert t. induction calls as [|r rest IH]; intros t; simpl.
  - split_and!; [lia|lia|by rewrite app_nil_r].
  - destruct (IH (log_test (result_name r) (result_success r) (result_details r)
                    (result_error r) t)) as (-> & -> & ->).
    unfold log_test. cbn [tests_run tests_passed test_results].
    split_and!.
    + lia.
    + destruct (result_success r); simpl; lia.
    + rewrite <- app_assoc. by destruct r.
Qed.

Lemma filter_all {A : Type} (f : A -> bool) (l : list A) :
  length (List.filter f l) = length l <-> Forall (fun x => f x = true) l.
Proof.
  induction l as [|x rest IH]; simpl; [by split|].
  pose proof (sublist_length _ _ (filter_sublist_of f rest)) as Hle.
  destruct (f x) eqn:Hx; simpl.
  - rewrite Forall_cons. split.
    + intros [= H]. split; [done|by apply IH].
    + intros [_ H]. f_equal. by apply IH.
  - split; [lia|]. intros H. apply Forall_cons in H as [? _]. congruence.
Qed.

(** The tally of the test script agrees with its log: after any run of
    [log_test] calls on a new tester, [tests_run] is the number of calls,
    [tests_passed] the number of those logged as passed, never more than
    [tests_run], [test_results] holds one entry per call in order, and
    [run_all_tests] reports success exactly when every call logged a
    pass. *)
Theorem tally_agrees_with_the_log calls :
  let t := logged calls in
  tests_run t = Z.of_nat (length calls)
  ∧ tests_passed t = Z.of_nat (length (List.filter result_success calls))
  ∧ 0 <= tests_passed t <= tests_run t
  ∧ test_results t = calls
  ∧ (all_passed t = true <-> Forall (fun r => result_success r = true) calls).
Proof.
  intros t. subst t. unfold logged.
  destruct (logged_from new_tester calls) as (Hrun & Hpassed & Hresults).
  cbn zeta in *. simpl in Hrun, Hpassed, Hresults.
  pose proof (sublist_length _ _ (filter_sublist_of result_success calls)) as Hle.
  split_and!; [done|done|lia|lia|done|].
  unfold all_passed. rewrite Z.eqb_eq, Hrun, Hpassed, <- filter_all. lia.
Qed.

(** One pass and one failure logged: the run does not report success. *)
Lemma tally_agrees_with_the_log_witness :
  let calls := [mkTestResult "Seed Data" true "Data seeded successfully" "";
                mkTestResult "Admin Login" false "" "Invalid admin response or role"] in
  tests_run (logged calls) = 2 ∧ tests_passed (logged calls) = 1
  ∧ all_passed (logged calls) ≠ true.
Proof.
  intros calls.
  destruct (tally_agrees_with_the_log calls) as (Hrun & Hpassed & _ & _ & Hall).
  split_and!; [exact Hrun|exact Hpassed|].
  intros Hok. apply Hall in Hok. apply Forall_cons in Hok as [_ Hok].
  apply Forall_cons in Hok as [Hfail _]. discriminate Hfail.
Defined.
